(** * CloudLogCollector: a shallow embedding of the four collectors

    The repository is a set of sequential Python scripts that pull audit
    logs from AWS CloudTrail, Azure, Entra ID and GCP.  Each collector is
    embedded as a function in a state-and-exception monad over a "world"
    that owns the external collaborators (provider SDKs, HTTP, the file
    system, the console).  Python values are an inductive type, Python
    dictionaries that the code indexes by key are finite maps.

    Conventions of the model:
    - a [while True] loop takes fuel, and a run that uses it up has no
      result; statements about results say which fuel is enough;
    - an exception is raised where a collaborator is called or a value
      is used; its class tells whether it derives from [Exception] or,
      as [KeyboardInterrupt] and [SystemExit] do, from [BaseException]
      only;
    - building an SDK client is pure, only calls on it can fail;
    - a [str] is held as its UTF-8 bytes (a lone surrogate as the three
      bytes that [surrogatepass] gives it), a [float] as a binary64
      number;
    - every response of a provider holds fresh objects: no event is
      shared between two pages. *)

From stdpp Require Import gmap strings list fin_maps pretty.
From Stdlib Require Import ZArith Lia Ascii.
From Stdlib Require SpecFloat.

Set Warnings "-register-all".

Open Scope string_scope.
Open Scope list_scope.
Open Scope Z_scope.

(** ** Python values, exceptions and the library calls the code relies on *)

Module Py.

(** [datetime.datetime]: the calendar fields and the UTC offset of the
    attached [tzinfo] ([None] for a naive value), the latter as a
    [timedelta] counted in microseconds. *)
Record datetime := mk_datetime {
  year : Z; month : Z; day : Z;
  hour : Z; minute : Z; second : Z; microsecond : Z;
  utcoffset : option Z
}.

Definition is_leap (y : Z) : bool :=
  ((y mod 4 =? 0) && negb (y mod 100 =? 0)) || (y mod 400 =? 0).

Definition days_in_month (y m : Z) : Z :=
  if m =? 2 then (if is_leap y then 29 else 28)
  else if (m =? 4) || (m =? 6) || (m =? 9) || (m =? 11) then 30
  else 31.

(** The invariant the [datetime] constructor enforces (MINYEAR = 1,
    MAXYEAR = 9999, offset strictly between -24h and +24h). *)
Definition valid_datetime (d : datetime) : Prop :=
  1 <= year d <= 9999 /\ 1 <= month d <= 12 /\
  1 <= day d <= days_in_month (year d) (month d) /\
  0 <= hour d < 24 /\ 0 <= minute d < 60 /\ 0 <= second d < 60 /\
  0 <= microsecond d < 1000000 /\
  match utcoffset d with
  | None => True
  | Some off => -86400000000 < off < 86400000000
  end.

(** The offset is a whole number of minutes (every zone in civil use). *)
Definition whole_minute_offset (d : datetime) : Prop :=
  match utcoffset d with
  | None => True
  | Some off => off mod 60000000 = 0
  end.

Inductive pyval :=
| PNone
| PBool (b : bool)
| PInt (z : Z)
| PFloat (x : SpecFloat.spec_float)
| PStr (s : string)
| PDatetime (d : datetime)
| PList (l : list pyval)
| PDict (d : list (string * pyval)).

(** Python truthiness ([bool(v)]), which [if v:] and [if not v:] test. *)
Definition truthy (v : pyval) : bool :=
  match v with
  | PNone => false
  | PBool b => b
  | PInt z => negb (z =? 0)
  | PFloat x => match x with SpecFloat.S754_zero _ => false | _ => true end
  | PStr s => negb (String.eqb s "")
  | PDatetime _ => true
  | PList l => match l with [] => false | _ => true end
  | PDict d => match d with [] => false | _ => true end
  end.

(** The name of the type as error messages of the interpreter print it
    ([tp_name]). *)
Definition type_name (v : pyval) : string :=
  match v with
  | PNone => "NoneType"
  | PBool _ => "bool"
  | PInt _ => "int"
  | PFloat _ => "float"
  | PStr _ => "str"
  | PDatetime _ => "datetime.datetime"
  | PList _ => "list"
  | PDict _ => "dict"
  end.

(** [type(v).__name__] *)
Definition class_name (v : pyval) : string :=
  match v with
  | PDatetime _ => "datetime"
  | _ => type_name v
  end.

(** Exception classes that occur in the collectors.  [ClientError] is
    [botocore.exceptions.ClientError] with the [Error.Code] of its
    response, [PlainException] is [Exception] itself, and [OtherError]
    stands for any other class that derives from [Exception].  The last
    three derive from [BaseException] only. *)
Inductive exn_class :=
| ClientError (code : string)
| JSONDecodeError
| ValueError
| RecursionError
| TypeError
| AttributeError
| KeyError
| StopIteration
| PlainException
| OtherError (cls : string)
| KeyboardInterrupt
| SystemExit
| GeneratorExit.

(** An exception instance: its class and [str(e)]. *)
Record exn := mk_exn { exn_cls : exn_class; exn_str : string }.

Definition is_ClientError (e : exn) : bool :=
  match exn_cls e with ClientError _ => true | _ => false end.

Definition error_code (e : exn) : option string :=
  match exn_cls e with ClientError c => Some c | _ => None end.

Inductive result (A : Type) :=
| Ok (a : A)
| Raise (e : exn).
Arguments Ok {A} a.
Arguments Raise {A} e.

Definition rbind {A B} (r : result A) (k : A -> result B) : result B :=
  match r with Ok a => k a | Raise e => Raise e end.

(** Left-to-right traversal that stops at the first exception: a [for]
    loop whose body may raise. *)
Fixpoint rmapM {A B} (f : A -> result B) (l : list A) : result (list B) :=
  match l with
  | [] => Ok []
  | x :: l' => rbind (f x) (fun y => rbind (rmapM f l') (fun ys => Ok (y :: ys)))
  end.

(** *** [datetime.isoformat] *)

Definition digit (d : Z) : ascii := ascii_of_N (48 + Z.to_N d).

(** ["%0wd" % n] for [0 <= n < 10^w], prepended to [rest]. *)
Fixpoint fmt_digits (w : nat) (n : Z) (rest : string) : string :=
  match w with
  | O => rest
  | S w' => fmt_digits w' (n / 10) (String (digit (n mod 10)) rest)
  end.

(** [_format_offset]: sign, hours and minutes, then seconds and
    microseconds only when they are not zero. *)
Definition format_offset (off : option Z) (rest : string) : string :=
  match off with
  | None => rest
  | Some off =>
      let sign := if off <? 0 then "-"%char else "+"%char in
      let a := Z.abs off in
      let hh := a / 3600000000 in
      let mm := (a mod 3600000000) / 60000000 in
      let ss := (a mod 60000000) / 1000000 in
      let us := a mod 1000000 in
      String sign (fmt_digits 2 hh (String ":" (fmt_digits 2 mm
        (if (ss =? 0) && (us =? 0) then rest
         else String ":" (fmt_digits 2 ss
           (if us =? 0 then rest else String "." (fmt_digits 6 us rest)))))))
  end.

(** The date part, ["%04d-%02d-%02d"]. *)
Definition format_date (y m d : Z) (rest : string) : string :=
  fmt_digits 4 y (String "-" (fmt_digits 2 m (String "-" (fmt_digits 2 d rest)))).

Definition format_hms (hh mm ss : Z) (rest : string) : string :=
  fmt_digits 2 hh (String ":" (fmt_digits 2 mm (String ":" (fmt_digits 2 ss rest)))).

(** [_format_time] with [timespec='auto']: microseconds are printed only
    when they are not zero. *)
Definition format_time (hh mm ss us : Z) (rest : string) : string :=
  format_hms hh mm ss
    (if us =? 0 then rest else String "." (fmt_digits 6 us rest)).

(** [_format_time] with [timespec='milliseconds']. *)
Definition format_time_ms (hh mm ss us : Z) (rest : string) : string :=
  format_hms hh mm ss (String "." (fmt_digits 3 (us / 1000) rest)).

(** [d.isoformat()] with the default separator and [timespec='auto']. *)
Definition isoformat (d : datetime) : string :=
  format_date (year d) (month d) (day d) (String "T"
    (format_time (hour d) (minute d) (second d) (microsecond d)
       (format_offset (utcoffset d) ""))).

(** [d.isoformat(timespec='milliseconds')]. *)
Definition isoformat_ms (d : datetime) : string :=
  format_date (year d) (month d) (day d) (String "T"
    (format_time_ms (hour d) (minute d) (second d) (microsecond d)
       (format_offset (utcoffset d) ""))).

(** Attribute lookup [v.isoformat()] on an arbitrary value. *)
Definition call_isoformat (v : pyval) : result string :=
  match v with
  | PDatetime d => Ok (isoformat d)
  | _ => Raise (mk_exn AttributeError
           ("'" +:+ type_name v +:+ "' object has no attribute 'isoformat'"))
  end.

(** *** A recogniser for ISO-8601 date-times (extended format, complete
    representation): [YYYY-MM-DDThh:mm:ss], an optional decimal fraction
    of the second, and an optional zone designator [Z], [±hh] or
    [±hh:mm]. *)

Definition is_digit (c : ascii) : bool :=
  let n := N_of_ascii c in ((48 <=? n) && (n <=? 57))%N.

Definition digit_val (c : ascii) : Z := Z.of_N (N_of_ascii c) - 48.

Fixpoint read_digits (w : nat) (s : string) (acc : Z) : option (Z * string) :=
  match w with
  | O => Some (acc, s)
  | S w' =>
      match s with
      | String c r =>
          if is_digit c then read_digits w' r (10 * acc + digit_val c) else None
      | EmptyString => None
      end
  end.

Definition expect (c : ascii) (s : string) : option string :=
  match s with
  | String c' r => if Ascii.eqb c c' then Some r else None
  | EmptyString => None
  end.

(** Drops the longest prefix of digits and counts it. *)
Fixpoint span_digits (s : string) : nat * string :=
  match s with
  | String c r =>
      if is_digit c then let '(n, r') := span_digits r in (S n, r') else (O, s)
  | EmptyString => (O, s)
  end.

Definition read_fraction (s : string) : option string :=
  match s with
  | String c r =>
      if Ascii.eqb c "." || Ascii.eqb c ","
      then match span_digits r with
           | (O, _) => None
           | (_, r') => Some r'
           end
      else Some s
  | EmptyString => Some s
  end.

Definition read_zone (s : string) : bool :=
  match s with
  | EmptyString => true
  | String c r =>
      if Ascii.eqb c "Z" then String.eqb r ""
      else if Ascii.eqb c "+" || Ascii.eqb c "-" then
        match read_digits 2 r 0 with
        | Some (hh, r1) =>
            (hh <? 24) &&
            match r1 with
            | EmptyString => true
            | String ":" r2 =>
                match read_digits 2 r2 0 with
                | Some (mm, r3) => (mm <? 60) && String.eqb r3 ""
                | None => false
                end
            | _ => false
            end
        | None => false
        end
      else false
  end.

Definition iso8601_parse (s : string) : option bool :=
  '(y, s) ← read_digits 4 s 0;
  s ← expect "-" s;
  '(m, s) ← read_digits 2 s 0;
  s ← expect "-" s;
  '(d, s) ← read_digits 2 s 0;
  s ← expect "T" s;
  '(hh, s) ← read_digits 2 s 0;
  s ← expect ":" s;
  '(mi, s) ← read_digits 2 s 0;
  s ← expect ":" s;
  '(ss, s) ← read_digits 2 s 0;
  s ← read_fraction s;
  Some ((1 <=? m) && (m <=? 12) && (1 <=? d) && (d <=? days_in_month y m)
        && (hh <? 24) && (mi <? 60) && (ss <? 60) && read_zone s).

Definition is_iso8601 (s : string) : bool :=
  match iso8601_parse s with Some b => b | None => false end.

(** *** Dictionary access on arbitrary values *)

Fixpoint assoc (k : string) (d : list (string * pyval)) : option pyval :=
  match d with
  | [] => None
  | (k', v) :: d' => if String.eqb k k' then Some v else assoc k d'
  end.

(** [v[key]] for a string key.  The text of a [KeyError] is
    [repr(key)], which is the key between single quotes for the keys of
    the collectors (they hold no quote and no backslash). *)
Definition py_getitem (v : pyval) (key : string) : result pyval :=
  match v with
  | PDict d =>
      match assoc key d with
      | Some x => Ok x
      | None => Raise (mk_exn KeyError ("'" +:+ key +:+ "'"))
      end
  | PList _ =>
      Raise (mk_exn TypeError "list indices must be integers or slices, not str")
  | PStr _ =>
      Raise (mk_exn TypeError "string indices must be integers, not 'str'")
  | _ => Raise (mk_exn TypeError
           ("'" +:+ type_name v +:+ "' object is not subscriptable"))
  end.

(** [v.get(key, default)]. *)
Definition py_get (v : pyval) (key : string) (dflt : pyval) : result pyval :=
  match v with
  | PDict d => Ok (default dflt (assoc key d))
  | _ => Raise (mk_exn AttributeError
           ("'" +:+ type_name v +:+ "' object has no attribute 'get'"))
  end.

(** A byte of the form [10xxxxxx], which continues a character. *)
Definition is_continuation (c : ascii) : bool :=
  let n := N_of_ascii c in ((128 <=? n) && (n <? 192))%N.

Definition continues (s : string) : bool :=
  match s with
  | String c _ => is_continuation c
  | EmptyString => false
  end.

(** The characters of a text: a byte with the continuation bytes behind
    it. *)
Fixpoint chars (s : string) : list string :=
  match s with
  | EmptyString => []
  | String c r =>
      match chars r with
      | x :: xs =>
          if continues r then String c x :: xs
          else String c EmptyString :: x :: xs
      | [] => [String c EmptyString]
      end
  end.

(** [iter(v)], what a [for] loop and [list.extend] go through: the
    elements of a list, the keys of a dict, the characters of a string. *)
Definition py_iter (v : pyval) : result (list pyval) :=
  match v with
  | PList l => Ok l
  | PDict d => Ok (map (fun kv => PStr (fst kv)) d)
  | PStr s => Ok (map PStr (chars s))
  | _ => Raise (mk_exn TypeError
           ("'" +:+ type_name v +:+ "' object is not iterable"))
  end.

(** [isinstance(e, Exception)], which is what [except Exception]
    tests. *)
Definition is_Exception (e : exn) : bool :=
  match exn_cls e with
  | KeyboardInterrupt | SystemExit | GeneratorExit => false
  | _ => true
  end.

End Py.

(** ** The effect monad: a world, exceptions, and fuel for [while] loops *)

Module Eff.
Import Py.

Section Monad.
Context {W : Type}.

(** A computation maps a world to [None] when a loop has used up its
    fuel, and otherwise to a value or a raised exception together with
    the world it left behind. *)
Definition M (A : Type) : Type := W -> option (result A * W).

Definition ret {A} (a : A) : M A := fun w => Some (Ok a, w).

Definition raise {A} (e : exn) : M A := fun w => Some (Raise e, w).

Definition out_of_fuel {A} : M A := fun _ => None.

Definition bind {A B} (m : M A) (k : A -> M B) : M B :=
  fun w =>
    match m w with
    | Some (Ok a, w') => k a w'
    | Some (Raise e, w') => Some (Raise e, w')
    | None => None
    end.

(** A pure step that may raise. *)
Definition lift {A} (r : result A) : M A := fun w => Some (r, w).

(** A call to a collaborator. *)
Definition call {A} (f : W -> result A * W) : M A := fun w => Some (f w).

(** A side effect that cannot fail. *)
Definition effect (f : W -> W) : M unit := fun w => Some (Ok tt, f w).

(** [try: m except C as e: h e], where [catches] decides
    [isinstance(e, C)]. *)
Definition try_except {A} (m : M A) (catches : exn -> bool) (h : exn -> M A) : M A :=
  fun w =>
    match m w with
    | Some (Raise e, w') => if catches e then h e w' else Some (Raise e, w')
    | r => r
    end.
End Monad.

Arguments M : clear implicits.

Notation "x <- m ;; k" := (bind m (fun x => k))
  (at level 65, m at next level, right associativity).
Notation "m ;;; k" := (bind m (fun _ => k))
  (at level 65, right associativity).

End Eff.

(** ** aws_cloudtrail_events.py *)

Module Aws.
Import Py Eff.

(** A CloudTrail event is a Python [dict]. *)
Abbreviation event := (gmap string pyval).

(** The temporary credentials of [assume_role(...)['Credentials']]. *)
Record credentials := mk_credentials {
  AccessKeyId : string;
  SecretAccessKey : string;
  SessionToken : string
}.

(** A [boto3.Session]: the keys it was built from. *)
Record session := mk_session {
  aws_access_key_id : string;
  aws_secret_access_key : string;
  aws_session_token : string
}.

(** One element of [describe_regions()['Regions']]. *)
Record region_info := mk_region_info {
  RegionName : string;
  Endpoint : string;
  OptInStatus : string
}.

(** The response of [lookup_events]; a field is [None] when its key is
    missing from the response. *)
Record response := mk_response {
  Events : option (list event);
  NextToken : option string
}.

(** The keyword arguments of one [lookup_events] call, and the client
    (session and region) it was made on. *)
Record request := mk_request {
  rq_session : session;
  rq_region : string;
  rq_StartTime : datetime;
  rq_EndTime : datetime;
  rq_NextToken : option string
}.

(** The collaborators of the module over a world [W]: STS, EC2 and
    CloudTrail clients and the console.  Building a client is pure; only
    the calls on it act on the world. *)
Record api (W : Type) := mk_api {
  (** [sts_client.assume_role(RoleArn=, RoleSessionName=)] *)
  sts_assume_role : string -> string -> W -> result credentials * W;
  (** [session.client('ec2').describe_regions()['Regions']] *)
  ec2_describe_regions : session -> W -> result (list region_info) * W;
  (** [session.client('cloudtrail', region_name=).lookup_events(...)] *)
  cloudtrail_lookup_events : request -> W -> result response * W;
  print : string -> W -> W
}.
Arguments sts_assume_role {W}.
Arguments ec2_describe_regions {W}.
Arguments cloudtrail_lookup_events {W}.
Arguments print {W}.

(** [if next_token:] on a token that is [None] or a string. *)
Definition token_truthy (t : option string) : bool :=
  match t with
  | Some s => negb (String.eqb s "")
  | None => false
  end.

Section Collector.
Context {W : Type}.
(** [json.loads] on a [str]: the decoder of the standard library. *)
Variable json_decode : string -> result pyval.
Variable P : api W.

(** [json.loads(v)]: anything but text is a [TypeError]. *)
Definition json_loads (v : pyval) : result pyval :=
  match v with
  | PStr s => json_decode s
  | _ => Raise (mk_exn TypeError
           ("the JSON object must be str, bytes or bytearray, not "
              +:+ class_name v))
  end.

(** The body of [for event in events:], lines 100-103; the event is
    updated in place. *)
Definition normalize_event (e : event) : result event :=
  rbind
    (match e !! "CloudTrailEvent" with
     | Some v => rbind (json_loads v) (fun v' => Ok (<["CloudTrailEvent" := v']> e))
     | None => Ok e
     end)
    (fun e1 =>
       match e1 !! "EventTime" with
       | Some t => rbind (call_isoformat t) (fun s => Ok (<["EventTime" := PStr s]> e1))
       | None => Ok e1
       end).

(** A raw event, as CloudTrail sends it: the detail, when present, is JSON text the decoder
    accepts, and the event time, when present, is a [datetime]. *)
Definition raw (e : event) : Prop :=
  (forall v, e !! "CloudTrailEvent" = Some v ->
             exists s j, v = PStr s /\ json_decode s = Ok j) /\
  (forall t, e !! "EventTime" = Some t ->
             exists d, t = PDatetime d /\ valid_datetime d /\ whole_minute_offset d).

(** [response.get('Events', [])] followed by the normalisation loop. *)
Definition normalize_page (r : response) : result (list event) :=
  rmapM normalize_event (default [] (Events r)).

Definition assume_role (account_id role_name : string) : M W session :=
  effect (print P ("Assuming role in account: " +:+ account_id)) ;;;
  let role_arn := "arn:aws:iam::" +:+ account_id +:+ ":role/" +:+ role_name in
  credentials <- call (sts_assume_role P role_arn "CloudLogCollector") ;;
  ret (mk_session (AccessKeyId credentials) (SecretAccessKey credentials)
                  (SessionToken credentials)).

Definition region_error_message (region : string) (e : exn) : string :=
  if bool_decide (error_code e = Some "UnrecognizedClientException")
  then "UnrecognizedClientException in region " +:+ region +:+ ": " +:+ exn_str e
  else "An error occurred in region " +:+ region +:+ ": " +:+ exn_str e.

(** The [while True:] loop of one region, lines 80-119.  Each round
    yields the accumulated events and the token to go on with, [None]
    standing for [break]. *)
Fixpoint paginate (fuel : nat) (s : session) (region : string)
    (start_time end_time : datetime) (next_token : option string)
    (all_events : list event) : M W (list event) :=
  match fuel with
  | O => out_of_fuel
  | S fuel' =>
      round <-
        try_except
          (response <-
             (if token_truthy next_token
              then call (cloudtrail_lookup_events P
                           (mk_request s region start_time end_time next_token))
              else call (cloudtrail_lookup_events P
                           (mk_request s region start_time end_time None))) ;;
           events <- lift (normalize_page response) ;;
           let all_events := all_events ++ events in
           effect (print P ("Collected " +:+ pretty (length events)
                              +:+ " events from region " +:+ region)) ;;;
           let next_token := NextToken response in
           ret (all_events,
                if token_truthy next_token then Some next_token else None))
          is_ClientError
          (fun e =>
             effect (print P (region_error_message region e)) ;;;
             ret (all_events, None)) ;;
      match round with
      | (all_events, Some next_token) =>
          paginate fuel' s region start_time end_time next_token all_events
      | (all_events, None) => ret all_events
      end
  end.

(** [for region in regions:], lines 74-119. *)
Fixpoint for_regions (fuel : nat) (s : session) (regions : list string)
    (start_time end_time : datetime) (all_events : list event)
    : M W (list event) :=
  match regions with
  | [] => ret all_events
  | region :: regions' =>
      effect (print P ("Collecting events from region: " +:+ region)) ;;;
      all_events <- paginate fuel s region start_time end_time None all_events ;;
      for_regions fuel s regions' start_time end_time all_events
  end.

(** [for account_id in account_list:], lines 66-119. *)
Fixpoint for_accounts (fuel : nat) (account_list : list string)
    (role_name : string) (start_time end_time : datetime)
    (all_events : list event) : M W (list event) :=
  match account_list with
  | [] => ret all_events
  | account_id :: accounts' =>
      s <- assume_role account_id role_name ;;
      infos <- call (ec2_describe_regions P s) ;;
      let regions := map RegionName infos in
      all_events <- for_regions fuel s regions start_time end_time all_events ;;
      for_accounts fuel accounts' role_name start_time end_time all_events
  end.

Definition get_cloudtrail_logs (fuel : nat) (account_list : list string)
    (role_name : string) (start_time end_time : datetime) : M W (list event) :=
  for_accounts fuel account_list role_name start_time end_time [].

Definition main (fuel : nat) (account_list : list string)
    (role_name : string) (start_time end_time : datetime) : M W (list event) :=
  events <- get_cloudtrail_logs fuel account_list role_name start_time end_time ;;
  ret events.
End Collector.

End Aws.

(** ** [json.loads] on a [str]

    The decoder of the standard library as the AWS collector calls it:
    CPython 3.11, [json.decoder] and the scanner of [_json], with the
    default hooks and [strict=True].  A position is an index into the
    text, counted in characters.  The recursion limit of the
    interpreter is part of the behaviour: [recursion_left] is the
    number of nested calls that are left when the scanner starts; an
    array or an object takes one for what is inside it, the call of the
    hook for [NaN] and the infinities takes one, and building a
    [JSONDecodeError] takes three. *)

Module Json.
Import Py.

Definition dquote : ascii := "034"%char.

Definition is_ws (c : ascii) : bool :=
  Ascii.eqb c " " || Ascii.eqb c "009" || Ascii.eqb c "010" || Ascii.eqb c "013".

(** The text behind the white space, and its position. *)
Fixpoint skip_ws (s : string) (pos : Z) : string * Z :=
  match s with
  | String c r => if is_ws c then skip_ws r (pos + 1) else (s, pos)
  | EmptyString => (s, pos)
  end.

(** [s] without the prefix [p], when it starts with it. *)
Fixpoint strip_prefix (p s : string) : option string :=
  match p, s with
  | EmptyString, _ => Some s
  | String a p', String b s' => if Ascii.eqb a b then strip_prefix p' s' else None
  | _, _ => None
  end.

(** The number of characters of a text. *)
Fixpoint code_points (s : string) : Z :=
  match s with
  | String c r => (if is_continuation c then 0 else 1) + code_points r
  | EmptyString => 0
  end.

(** Why the scanner stops: a [JSONDecodeError] with its message and
    position, raised where [left] nested calls are left; the
    [StopIteration] of a place without a value, which [raw_decode] turns
    into a [JSONDecodeError]; the [ValueError] of [int] on more digits
    than [sys.get_int_max_str_digits()]; the [RecursionError] of a call
    for which no nested call is left; or a loop of the model out of
    fuel. *)
Inductive failure :=
| Syntax (msg : string) (pos : Z) (left : nat)
| NoValue (pos : Z)
| IntTooLong (digits : Z)
| TooDeep (doing : string)
| OutOfFuel.

(** What a scanning function returns: a value, the text behind it and
    the position of that text, or a failure. *)
Inductive scanned (A : Type) :=
| Found (a : A) (rest : string) (pos : Z)
| Failed (f : failure).
Arguments Found {A} a rest pos.
Arguments Failed {A} f.

Definition scanned_map {A B} (f : A -> B) (r : scanned A) : scanned B :=
  match r with
  | Found a rest pos => Found (f a) rest pos
  | Failed e => Failed e
  end.

(** *** Strings *)

Definition hex_val (c : ascii) : option Z :=
  let n := Z.of_N (N_of_ascii c) in
  if (48 <=? n) && (n <=? 57) then Some (n - 48)
  else if (65 <=? n) && (n <=? 70) then Some (n - 55)
  else if (97 <=? n) && (n <=? 102) then Some (n - 87)
  else None.

Definition hex4 (a b c d : ascii) : option Z :=
  x1 ← hex_val a; x2 ← hex_val b; x3 ← hex_val c; x4 ← hex_val d;
  Some (((x1 * 16 + x2) * 16 + x3) * 16 + x4).

Definition byte (n : Z) : ascii := ascii_of_N (Z.to_N n).

(** The UTF-8 bytes of the character [c], in front of [rest]. *)
Definition utf8 (c : Z) (rest : string) : string :=
  if c <? 128 then String (byte c) rest
  else if c <? 2048 then
    String (byte (192 + c / 64)) (String (byte (128 + c mod 64)) rest)
  else if c <? 65536 then
    String (byte (224 + c / 4096))
      (String (byte (128 + c / 64 mod 64)) (String (byte (128 + c mod 64)) rest))
  else
    String (byte (240 + c / 262144))
      (String (byte (128 + c / 4096 mod 64))
         (String (byte (128 + c / 64 mod 64)) (String (byte (128 + c mod 64)) rest))).

Definition is_high_surrogate (c : Z) : bool := (55296 <=? c) && (c <=? 56319).
Definition is_low_surrogate (c : Z) : bool := (56320 <=? c) && (c <=? 57343).
Definition join_surrogates (hi lo : Z) : Z :=
  65536 + (hi - 55296) * 1024 + (lo - 56320).

(** The character a backslash escape other than [\u] stands for. *)
Definition escaped (e : ascii) : option ascii :=
  if Ascii.eqb e dquote then Some dquote
  else if Ascii.eqb e "\" then Some "\"%char
  else if Ascii.eqb e "/" then Some "/"%char
  else if Ascii.eqb e "b" then Some "008"%char
  else if Ascii.eqb e "f" then Some "012"%char
  else if Ascii.eqb e "n" then Some "010"%char
  else if Ascii.eqb e "r" then Some "013"%char
  else if Ascii.eqb e "t" then Some "009"%char
  else None.

(** [scanstring]: [s] is the text behind the opening quote, which stands
    at [begin].  A [\u] escape needs its four digits and one character
    more behind them; a high surrogate is joined with a low one that
    follows it as an escape. *)
Fixpoint scanstring (left : nat) (begin : Z) (s : string) (pos : Z)
    : scanned string :=
  match s with
  | EmptyString => Failed (Syntax "Unterminated string starting at" begin left)
  | String c r =>
      if Ascii.eqb c dquote then Found "" r (pos + 1)
      else if Ascii.eqb c "\" then
        match r with
        | EmptyString => Failed (Syntax "Unterminated string starting at" begin left)
        | String e r1 =>
            if Ascii.eqb e "u" then
              match r1 with
              | String h1 (String h2 (String h3 (String h4 r5))) =>
                  if code_points r1 <? 5
                  then Failed (Syntax "Invalid \uXXXX escape" (pos + 1) left)
                  else
                    match hex4 h1 h2 h3 h4 with
                    | None => Failed (Syntax "Invalid \uXXXX escape" (pos + 1) left)
                    | Some c1 =>
                        match r5 with
                        | String b (String u (String k1 (String k2 (String k3
                            (String k4 r11))))) =>
                            if is_high_surrogate c1 && (7 <=? code_points r5)
                               && Ascii.eqb b "\" && Ascii.eqb u "u"
                            then
                              match hex4 k1 k2 k3 k4 with
                              | None =>
                                  Failed (Syntax "Invalid \uXXXX escape" (pos + 7) left)
                              | Some c2 =>
                                  if is_low_surrogate c2
                                  then scanned_map (utf8 (join_surrogates c1 c2))
                                         (scanstring left begin r11 (pos + 12))
                                  else scanned_map (utf8 c1)
                                         (scanstring left begin r5 (pos + 6))
                              end
                            else scanned_map (utf8 c1) (scanstring left begin r5 (pos + 6))
                        | _ => scanned_map (utf8 c1) (scanstring left begin r5 (pos + 6))
                        end
                    end
              | _ => Failed (Syntax "Invalid \uXXXX escape" (pos + 1) left)
              end
            else
              match escaped e with
              | Some c' => scanned_map (String c') (scanstring left begin r1 (pos + 2))
              | None => Failed (Syntax "Invalid \escape" pos left)
              end
        end
      else if (N_of_ascii c <? 32)%N
      then Failed (Syntax "Invalid control character at" pos left)
      else scanned_map (String c)
             (scanstring left begin r (if is_continuation c then pos else pos + 1))
  end.

(** *** Numbers *)

(** The longest prefix of digits, and the text behind it. *)
Fixpoint take_digits (s : string) : string * string :=
  match s with
  | String c r =>
      if is_digit c then let '(ds, r') := take_digits r in (String c ds, r')
      else (EmptyString, s)
  | EmptyString => (EmptyString, s)
  end.

Fixpoint digits_value (ds : string) (acc : Z) : Z :=
  match ds with
  | String c r => digits_value r (10 * acc + digit_val c)
  | EmptyString => acc
  end.

Fixpoint strip_zeros (ds : string) : string :=
  match ds with
  | String "0" r => strip_zeros r
  | _ => ds
  end.

Definition len (s : string) : Z := Z.of_nat (String.length s).

(** [float(text)] for the decimal [digits * 10^e10]: the binary64 number
    nearest to it, ties to even; beyond the range, an infinity. *)
Definition float_of_decimal (neg : bool) (digits : string) (e10 : Z)
    : SpecFloat.spec_float :=
  let m := digits_value digits 0 in
  let magnitude := len (strip_zeros digits) + e10 in
  if m =? 0 then SpecFloat.S754_zero neg
  else if 400 <? magnitude then SpecFloat.S754_infinity neg
  else if magnitude <? -400 then SpecFloat.S754_zero neg
  else
    let num := m * 10 ^ Z.max e10 0 in
    let den := 10 ^ Z.max (- e10) 0 in
    let '(q, e, l) := SpecFloat.SFdiv_core_binary 53 1024 num 0 den 0 in
    SpecFloat.binary_round_aux 53 1024 neg q e l.

(** [sys.get_int_max_str_digits()] *)
Definition int_max_str_digits : Z := 4300.

(** The fraction [.ddd] in front of [s], when there is one. *)
Definition read_frac (s : string) : option (string * string) :=
  match s with
  | String "." (String d r) =>
      if is_digit d then Some (take_digits (String d r)) else None
  | _ => None
  end.

(** The exponent [e], [e+] or [e-] and digits in front of [s], when there
    is one: the text of the sign, the digits and the text behind. *)
Definition read_exp (s : string) : option (string * string * string) :=
  match s with
  | String e r =>
      if Ascii.eqb e "e" || Ascii.eqb e "E" then
        let '(sign, r1) :=
          match r with
          | String "+" r' => ("+", r')
          | String "-" r' => ("-", r')
          | _ => ("", r)
          end in
        match take_digits r1 with
        | (EmptyString, _) => None
        | (ds, r2) => Some (sign, ds, r2)
        end
      else None
  | EmptyString => None
  end.

(** [_match_number]: an optional minus sign, then [0] or a digit from 1
    to 9 with the digits behind it, then a fraction and an exponent when
    they are there; an [int] without fraction and exponent and a [float]
    otherwise. *)
Definition match_number (s : string) (pos : Z) : scanned pyval :=
  let '(neg, s1) := match s with
                    | String "-" r => (true, r)
                    | _ => (false, s)
                    end in
  match s1 with
  | String c r =>
      if is_digit c then
        let '(int_ds, r1) :=
          if Ascii.eqb c "0" then ("0", r) else take_digits s1 in
        let '(frac_ds, r2) :=
          match read_frac r1 with Some fr => fr | None => ("", r1) end in
        let '(exp_sign, exp_ds, r3) :=
          match read_exp r2 with Some ex => ex | None => ("", "", r2) end in
        let consumed :=
          (if neg then 1 else 0) + len int_ds
          + (if String.eqb frac_ds "" then 0 else 1 + len frac_ds)
          + (if String.eqb exp_ds "" then 0 else 1 + len exp_sign + len exp_ds) in
        if String.eqb frac_ds "" && String.eqb exp_ds "" then
          if int_max_str_digits <? len int_ds then Failed (IntTooLong (len int_ds))
          else
            let n := digits_value int_ds 0 in
            Found (PInt (if neg then - n else n)) r3 (pos + consumed)
        else
          let e := digits_value exp_ds 0 in
          let e := if String.eqb exp_sign "-" then - e else e in
          Found (PFloat (float_of_decimal neg (int_ds +:+ frac_ds) (e - len frac_ds)))
                r3 (pos + consumed)
      else Failed (NoValue pos)
  | EmptyString => Failed (NoValue pos)
  end.

(** *** Arrays and objects *)

(** A later member with the same key replaces the earlier value, at the
    place of the earlier one. *)
Fixpoint set_member (k : string) (v : pyval) (d : list (string * pyval)) :=
  match d with
  | [] => [(k, v)]
  | (k', v') :: d' =>
      if String.eqb k k' then (k, v) :: d' else (k', v') :: set_member k v d'
  end.

Section Containers.
(** The nested calls that are left inside the container, and the
    scanner for the values inside. *)
Variable left : nat.
Variable scan_once : string -> Z -> scanned pyval.

(** The loop of [_parse_array], at a value. *)
Fixpoint array_loop (fuel : nat) (s : string) (pos : Z) (acc : list pyval)
    : scanned pyval :=
  match fuel with
  | O => Failed OutOfFuel
  | S fuel' =>
      match scan_once s pos with
      | Failed f => Failed f
      | Found v r p =>
          let '(r, p) := skip_ws r p in
          match r with
          | String "]" r' => Found (PList (acc ++ [v])) r' (p + 1)
          | String "," r' =>
              let '(r', p') := skip_ws r' (p + 1) in
              array_loop fuel' r' p' (acc ++ [v])
          | _ => Failed (Syntax "Expecting ',' delimiter" p left)
          end
      end
  end.

(** [s] is the text behind the bracket.  Every round of the loop takes
    a character at least, so the length of the text is fuel enough. *)
Definition parse_array (s : string) (pos : Z) : scanned pyval :=
  let '(r, p) := skip_ws s pos in
  match r with
  | String "]" r' => Found (PList []) r' (p + 1)
  | _ => array_loop (S (String.length r)) r p []
  end.

(** The loop of [_parse_object], at a key. *)
Fixpoint object_loop (fuel : nat) (s : string) (pos : Z)
    (acc : list (string * pyval)) : scanned pyval :=
  match fuel with
  | O => Failed OutOfFuel
  | S fuel' =>
      match strip_prefix (String dquote "") s with
      | Some r =>
          match scanstring left pos r (pos + 1) with
          | Failed f => Failed f
          | Found key r1 p1 =>
              let '(r1, p1) := skip_ws r1 p1 in
              match r1 with
              | String ":" r2 =>
                  let '(r2, p2) := skip_ws r2 (p1 + 1) in
                  match scan_once r2 p2 with
                  | Failed f => Failed f
                  | Found v r3 p3 =>
                      let acc := set_member key v acc in
                      let '(r3, p3) := skip_ws r3 p3 in
                      match r3 with
                      | String "}" r4 => Found (PDict acc) r4 (p3 + 1)
                      | String "," r4 =>
                          let '(r4, p4) := skip_ws r4 (p3 + 1) in
                          object_loop fuel' r4 p4 acc
                      | _ => Failed (Syntax "Expecting ',' delimiter" p3 left)
                      end
                  end
              | _ => Failed (Syntax "Expecting ':' delimiter" p1 left)
              end
          end
      | None =>
          Failed (Syntax "Expecting property name enclosed in double quotes" pos left)
      end
  end.

Definition parse_object (s : string) (pos : Z) : scanned pyval :=
  let '(r, p) := skip_ws s pos in
  match r with
  | String "}" r' => Found (PDict []) r' (p + 1)
  | _ => object_loop (S (String.length r)) r p []
  end.
End Containers.

Definition literals : list (string * pyval) :=
  [("null", PNone); ("true", PBool true); ("false", PBool false)].

(** The names [parse_constant] is called on; the call takes a nested
    call. *)
Definition constants : list (string * pyval) :=
  [("NaN", PFloat SpecFloat.S754_nan);
   ("Infinity", PFloat (SpecFloat.S754_infinity false));
   ("-Infinity", PFloat (SpecFloat.S754_infinity true))].

(** The first name of [names] the text starts with: its value and the
    text behind it. *)
Fixpoint match_name (names : list (string * pyval)) (s : string)
    : option (pyval * string * Z) :=
  match names with
  | [] => None
  | (name, v) :: names' =>
      match strip_prefix name s with
      | Some r => Some (v, r, len name)
      | None => match_name names' s
      end
  end.

(** [scan_once]: the value that starts at [pos]. *)
Fixpoint scan_once (recursion_left : nat) (s : string) (pos : Z) : scanned pyval :=
  match s with
  | EmptyString => Failed (NoValue pos)
  | String c r =>
      if Ascii.eqb c dquote
      then scanned_map PStr (scanstring recursion_left pos r (pos + 1))
      else if Ascii.eqb c "{" then
        match recursion_left with
        | O => Failed (TooDeep " while decoding a JSON object from a unicode string")
        | S n => parse_object n (scan_once n) r (pos + 1)
        end
      else if Ascii.eqb c "[" then
        match recursion_left with
        | O => Failed (TooDeep " while decoding a JSON array from a unicode string")
        | S n => parse_array n (scan_once n) r (pos + 1)
        end
      else
        match match_name literals s, match_name constants s with
        | Some (v, r', n), _ => Found v r' (pos + n)
        | None, Some (v, r', n) =>
            match recursion_left with
            | O => Failed (TooDeep " while calling a Python object")
            | S _ => Found v r' (pos + n)
            end
        | None, None => match_number s pos
        end
  end.

(** *** [JSONDecodeError] and [json.loads] *)

(** The line and the column of the character at [pos]. *)
Fixpoint line_column (doc : string) (pos : Z) (line col : Z) : Z * Z :=
  match doc with
  | EmptyString => (line, col)
  | String c r =>
      if is_continuation c then line_column r pos line col
      else if pos <=? 0 then (line, col)
      else if Ascii.eqb c "010" then line_column r (pos - 1) (line + 1) 1
      else line_column r (pos - 1) line (col + 1)
  end.

(** [str(JSONDecodeError(msg, doc, pos))] *)
Definition errmsg (msg doc : string) (pos : Z) : string :=
  let '(line, col) := line_column doc pos 1 1 in
  msg +:+ ": line " +:+ pretty line +:+ " column " +:+ pretty col
      +:+ " (char " +:+ pretty pos +:+ ")".

Definition raised_too_deep (doing : string) : exn :=
  mk_exn RecursionError ("maximum recursion depth exceeded" +:+ doing).

(** Raising [JSONDecodeError(msg, doc, pos)] where [left] nested calls
    are left: building the exception takes three of them. *)
Definition decode_error (left : nat) (msg doc : string) (pos : Z) : exn :=
  match left with
  | 0%nat | 2%nat => raised_too_deep " while calling a Python object"
  | 1%nat => raised_too_deep ""
  | _ => mk_exn JSONDecodeError (errmsg msg doc pos)
  end.

(** The exception a failure of the scanner comes out as; [raw_decode]
    runs one call above the scanner. *)
Definition raised (recursion_left : nat) (doc : string) (f : failure) : exn :=
  match f with
  | Syntax msg pos n => decode_error n msg doc pos
  | NoValue pos => decode_error (1 + recursion_left) "Expecting value" doc pos
  | IntTooLong digits =>
      mk_exn ValueError
        ("Exceeds the limit (" +:+ pretty int_max_str_digits
           +:+ " digits) for integer string conversion: value has "
           +:+ pretty digits
           +:+ " digits; use sys.set_int_max_str_digits() to increase the limit")
  | TooDeep doing => raised_too_deep doing
  | OutOfFuel => mk_exn (OtherError "OutOfFuel") ""
  end.

(** The byte order mark [U+FEFF]. *)
Definition bom : string := String "239" (String "187" (String "191" "")).

(** [json.loads(s)] for a [str], where the scanner may nest
    [recursion_left] calls; [decode] of the decoder runs two calls above
    the scanner and [loads] three. *)
Definition loads (recursion_left : nat) (s : string) : result pyval :=
  match strip_prefix bom s with
  | Some _ =>
      Raise (decode_error (3 + recursion_left)
               "Unexpected UTF-8 BOM (decode using utf-8-sig)" s 0)
  | None =>
      let '(r, p) := skip_ws s 0 in
      match scan_once recursion_left r p with
      | Found v r p =>
          let '(r, p) := skip_ws r p in
          match r with
          | EmptyString => Ok v
          | _ => Raise (decode_error (2 + recursion_left) "Extra data" s p)
          end
      | Failed f => Raise (raised recursion_left s f)
      end
  end.

(** The nested calls left to the scanner where [get_cloudtrail_logs]
    calls [json.loads] in a run of [CloudLogCollector.py]: the default
    limit of 1000, less the module, [get_aws_cloudtrail_events], [main],
    [get_cloudtrail_logs], [loads], [decode], [raw_decode] and the call
    of the scanner. *)
Definition recursion_left_in_collector : nat := 992.

Definition decode (s : string) : result pyval :=
  loads recursion_left_in_collector s.

(** A scanning result that is not out of fuel and, when it is a value,
    leaves a text shorter than [s] by [k] characters at least. *)
Definition advances {A} (k : nat) (s : string) (r : scanned A) : Prop :=
  match r with
  | Found _ rest _ => (String.length rest + k <= String.length s)%nat
  | Failed f => f <> OutOfFuel
  end.

(** [s] between double quotes. *)
Definition quoted (s : string) : string :=
  String dquote (s +:+ String dquote EmptyString).

End Json.

(** ** A scripted CloudTrail provider

    The test double the pagination properties are stated against:
    [lookup_events] answers with the next entry of a script, whatever the
    client it is called on, and records the request; STS and EC2 are
    fixed tables.  An exhausted script raises [StopIteration], as a mock
    with a [side_effect] list does. *)

Module AwsMock.
Import Py Eff Aws.

Record world := mk_world {
  sts : string -> result credentials;
  ec2 : session -> result (list region_info);
  script : list (result response);
  requests : list request;
  console : list string
}.

Definition mock_assume_role (role_arn session_name : string) (w : world)
    : result credentials * world :=
  (sts w role_arn, w).

Definition mock_describe_regions (s : session) (w : world)
    : result (list region_info) * world :=
  (ec2 w s, w).

Definition mock_lookup_events (rq : request) (w : world)
    : result response * world :=
  match script w with
  | [] =>
      (Raise (mk_exn StopIteration ""),
       mk_world (sts w) (ec2 w) [] (requests w ++ [rq]) (console w))
  | r :: rest =>
      (r, mk_world (sts w) (ec2 w) rest (requests w ++ [rq]) (console w))
  end.

Definition mock_print (line : string) (w : world) : world :=
  mk_world (sts w) (ec2 w) (script w) (requests w) (console w ++ [line]).

Definition mock : api world :=
  mk_api world mock_assume_role mock_describe_regions mock_lookup_events mock_print.

(** The world once the script is down to [rest], [reqs] were recorded and
    [out] was printed. *)
Definition after (w : world) (rest : list (result response))
    (reqs : list request) (out : list string) : world :=
  mk_world (sts w) (ec2 w) rest (requests w ++ reqs) (console w ++ out).

(** The token a round sends: the one it holds when that is non-empty. *)
Definition sent_token (t : option string) : option string :=
  if token_truthy t then t else None.

(** The responses one visit of a region consumes: pages that each carry
    a token to go on with, then a closing answer, which is a page or an
    exception of the call. *)
Record visit := mk_visit {
  continuing : list response;
  closing : result response
}.

Definition visit_script (v : visit) : list (result response) :=
  map Ok (continuing v) ++ [closing v].

(** The tokens of the requests of a visit: none at first, then the token
    of the page before. *)
Definition visit_tokens (v : visit) : list (option string) :=
  None :: map NextToken (continuing v).

Definition visit_requests (s : session) (region : string)
    (start_time end_time : datetime) (v : visit) : list request :=
  map (mk_request s region start_time end_time) (visit_tokens v).

(** What the loop of a region makes of [acc] given the outcome of the
    visit. *)
Definition extended (acc : list event) (r : result (list event))
    : result (list event) :=
  match r with Ok evs => Ok (acc ++ evs) | Raise e => Raise e end.

Section Decoder.
Variable json_decode : string -> result pyval.

(** What the closing answer does inside the [try] block. *)
Definition closing_result (c : result response) : result (list event) :=
  rbind c (normalize_page json_decode).

Definition page_ok (p : response) : Prop :=
  exists evs, normalize_page json_decode p = Ok evs.

(** A visit is well formed when its continuing pages normalise and
    carry a non-empty token, and a closing page that normalises carries
    none. *)
Definition visit_wf (v : visit) : Prop :=
  Forall (fun p => page_ok p /\ token_truthy (NextToken p) = true) (continuing v) /\
  match closing v with
  | Ok p => page_ok p -> token_truthy (NextToken p) = false
  | Raise _ => True
  end.

(** The normalised events of a list of pages, in order ([[]] for a page
    that does not normalise). *)
Definition page_events (p : response) : list event :=
  match normalize_page json_decode p with Ok evs => evs | Raise _ => [] end.

Definition pages_events (ps : list response) : list event :=
  concat (map page_events ps).

(** The outcome of a visit: the events it adds to [all_events], or the
    exception that leaves the [while] loop. *)
Definition visit_outcome (v : visit) : result (list event) :=
  match closing_result (closing v) with
  | Ok evs => Ok (pages_events (continuing v) ++ evs)
  | Raise e =>
      if is_ClientError e then Ok (pages_events (continuing v)) else Raise e
  end.

(** A visit that ends on a page without a token. *)
Definition visit_succeeds (v : visit) : Prop :=
  visit_wf v /\ exists p, closing v = Ok p /\ page_ok p.

(** A visit whose first request raises a [ClientError]. *)
Definition visit_fails_at_once (v : visit) : Prop :=
  continuing v = [] /\ exists e, closing v = Raise e /\ is_ClientError e = true.

Definition visit_events (v : visit) : list event :=
  match visit_outcome v with Ok evs => evs | Raise _ => [] end.

Definition visits_events (vs : list visit) : list event :=
  concat (map visit_events vs).

(** A visit that leaves the loop without an exception: it ends on a
    page without a token, or on a [ClientError]. *)
Definition visit_collects (v : visit) : Prop :=
  visit_wf v /\ exists evs, visit_outcome v = Ok evs.

(** A visit that lets the exception [e] out of the loop. *)
Definition visit_propagates (v : visit) (e : exn) : Prop :=
  visit_wf v /\ visit_outcome v = Raise e.

(** A visit that fetches at least one page and then meets a
    [ClientError]. *)
Definition visit_fails_midway (v : visit) : Prop :=
  visit_wf v /\ continuing v <> [] /\
  exists e, closing v = Raise e /\ is_ClientError e = true.
End Decoder.

(** The regions of one account with the visit scripted for each, and
    the accounts of a run. *)
Record account_plan := mk_account_plan {
  ap_account : string;
  ap_credentials : credentials;
  ap_regions : list (region_info * visit)
}.

Definition session_of (c : credentials) : session :=
  mk_session (AccessKeyId c) (SecretAccessKey c) (SessionToken c).

Definition role_arn_of (account_id role_name : string) : string :=
  "arn:aws:iam::" +:+ account_id +:+ ":role/" +:+ role_name.

(** The tables of the world answer as the plan says. *)
Definition plan_served (w : world) (role_name : string) (a : account_plan) : Prop :=
  sts w (role_arn_of (ap_account a) role_name) = Ok (ap_credentials a) /\
  ec2 w (session_of (ap_credentials a)) = Ok (map fst (ap_regions a)).

Definition account_visits (a : account_plan) : list visit :=
  map snd (ap_regions a).

Definition plan_visits (plan : list account_plan) : list visit :=
  concat (map account_visits plan).

Definition regions_requests (s : session) (start_time end_time : datetime)
    (rvs : list (region_info * visit)) : list request :=
  concat (map (fun rv => visit_requests s (RegionName (fst rv))
                           start_time end_time (snd rv)) rvs).

Definition account_requests (start_time end_time : datetime) (a : account_plan)
    : list request :=
  regions_requests (session_of (ap_credentials a)) start_time end_time
                   (ap_regions a).

Definition regions_script (rvs : list (region_info * visit))
    : list (result response) :=
  concat (map visit_script (map snd rvs)).

Definition plan_requests (start_time end_time : datetime)
    (plan : list account_plan) : list request :=
  concat (map (account_requests start_time end_time) plan).

Definition plan_script (plan : list account_plan) : list (result response) :=
  concat (map visit_script (plan_visits plan)).

(** A request as [get_cloudtrail_logs] is meant to send it: the window
    of the caller, and a token that is absent or not empty. *)
Definition in_window (start_time end_time : datetime) (rq : request) : Prop :=
  rq_StartTime rq = start_time /\ rq_EndTime rq = end_time /\
  rq_NextToken rq <> Some "".

(** Whatever a computation does, it only adds requests that satisfy
    [good] to the record, and it leaves the tables alone. *)
Definition sends (good : request -> Prop) {A} (m : M world A) : Prop :=
  forall w r w',
    m w = Some (r, w') ->
    sts w' = sts w /\ ec2 w' = ec2 w /\
    exists reqs, requests w' = requests w ++ reqs /\ Forall good reqs.

End AwsMock.

(** ** HTTP as [requests] shows it *)

Module Http.
Import Py.

Record http_request := mk_http_request {
  url : string;
  params : list (string * string);
  headers : list (string * string)
}.

(** A [requests.Response]: [json_body] is what [response.json()] does. *)
Record http_response := mk_http_response {
  status_code : Z;
  text : string;
  json_body : result pyval
}.

(** The collaborators of the Azure and Entra ID modules: the identity
    SDK, [requests.get] and the console.  A credential is named by a
    string, ["AzureCliCredential"] being the default one. *)
Record api (W : Type) := mk_api {
  get_token : string -> string -> W -> result string * W;
  requests_get : http_request -> W -> result http_response * W;
  print : string -> W -> W
}.
Arguments get_token {W}.
Arguments requests_get {W}.
Arguments print {W}.

Definition bearer_headers (token : string) : list (string * string) :=
  [("Authorization", "Bearer " +:+ token); ("Content-Type", "application/json")].

End Http.

(** ** azure_activity_logs.py *)

Module Azure.
Import Py Eff Http.

(** The request of [list_subscriptions], lines 41-42. *)
Definition subscriptions_request (headers : list (string * string)) : http_request :=
  let subscriptions_url :=
    "https://management.azure.com/subscriptions?api-version=2020-01-01" in
  mk_http_request subscriptions_url [] headers.

(** The request of [collect_audit_logs], lines 63-68. *)
Definition audit_logs_request (subscription_id : string)
    (headers : list (string * string)) (start_time end_time : string)
    : http_request :=
  let base_url :=
    "https://management.azure.com/subscriptions/" +:+ subscription_id
      +:+ "/providers/Microsoft.Insights/eventtypes/management/values" in
  let params :=
    [("api-version", "2015-04-01");
     ("$filter", "eventTimestamp ge '" +:+ start_time
                   +:+ "' and eventTimestamp le '" +:+ end_time +:+ "'")] in
  mk_http_request base_url params headers.

Section Collector.
Context {W : Type}.
Variable P : api W.

Definition get_access_token (credential : option string) : M W string :=
  let credential := default "AzureCliCredential" credential in
  token <- call (get_token P credential "https://management.azure.com/.default") ;;
  ret token.

Definition list_subscriptions (headers : list (string * string)) : M W pyval :=
  subscriptions_response <-
    call (requests_get P (subscriptions_request headers)) ;;
  if status_code subscriptions_response =? 200 then
    body <- lift (json_body subscriptions_response) ;;
    lift (py_getitem body "value")
  else
    effect (print P ("Failed to retrieve subscriptions. Status code: "
                       +:+ pretty (status_code subscriptions_response))) ;;;
    effect (print P ("Error message: " +:+ text subscriptions_response)) ;;;
    ret (PList []).

Definition collect_audit_logs (subscription_id : string)
    (headers : list (string * string)) (start_time end_time : string)
    : M W pyval :=
  response <-
    call (requests_get P
            (audit_logs_request subscription_id headers start_time end_time)) ;;
  if status_code response =? 200 then
    body <- lift (json_body response) ;;
    lift (py_get body "value" (PList []))
  else
    effect (print P ("Failed to retrieve audit logs for subscription "
                       +:+ subscription_id +:+ ". Status code: "
                       +:+ pretty (status_code response))) ;;;
    effect (print P ("Error message: " +:+ text response)) ;;;
    ret (PList []).
End Collector.

Section Main.
Context {W : Type}.
Variable P : api W.
(** [str(v)], as an f-string formats a value. *)
Variable py_str : pyval -> string.

(** [for subscription in subscriptions:], lines 111-115. *)
Fixpoint for_subscriptions (subscriptions : list pyval)
    (headers : list (string * string)) (start_time end_time : string)
    (all_audit_logs : list pyval) : M W (list pyval) :=
  match subscriptions with
  | [] => ret all_audit_logs
  | subscription :: subscriptions' =>
      subscription_id <- lift (py_getitem subscription "subscriptionId") ;;
      effect (print P ("Collecting audit logs for subscription: "
                         +:+ py_str subscription_id)) ;;;
      audit_logs <- collect_audit_logs P (py_str subscription_id) headers
                      start_time end_time ;;
      items <- lift (py_iter audit_logs) ;;
      for_subscriptions subscriptions' headers start_time end_time
        (all_audit_logs ++ items)
  end.

Definition main (start_time end_time : string) (credential : option string)
    : M W (list pyval) :=
  token <- get_access_token P credential ;;
  let headers := bearer_headers token in
  subscriptions <- list_subscriptions P headers ;;
  subscriptions <- lift (py_iter subscriptions) ;;
  for_subscriptions subscriptions headers start_time end_time [].
End Main.

End Azure.

(** ** entraid_signin_logs.py *)

Module EntraId.
Import Py Eff Http.

(** The URL and headers of [get_sign_in_logs], lines 44-51; the URL does
    not depend on the token, which is fetched after it is built. *)
Definition sign_in_request (start_time end_time : datetime) (token : string)
    : http_request :=
  let start_time_str := isoformat_ms start_time +:+ "Z" in
  let end_time_str := isoformat_ms end_time +:+ "Z" in
  let url :=
    "https://graph.microsoft.com/v1.0/auditLogs/signIns?$filter=createdDateTime ge "
      +:+ start_time_str +:+ " and createdDateTime le " +:+ end_time_str in
  mk_http_request url [] (bearer_headers token).

Section Collector.
Context {W : Type}.
Variable P : api W.

Definition get_access_token (resource : string) (credential : option string)
    : M W string :=
  let credential := default "AzureCliCredential" credential in
  token <- call (get_token P credential resource) ;;
  ret token.

Definition get_sign_in_logs (start_time end_time : datetime)
    (credential : option string) : M W pyval :=
  token <- get_access_token "https://graph.microsoft.com/.default" credential ;;
  response <- call (requests_get P (sign_in_request start_time end_time token)) ;;
  if status_code response =? 200 then
    lift (json_body response)
  else
    effect (print P ("Failed to retrieve sign-in logs. Status code: "
                       +:+ pretty (status_code response))) ;;;
    effect (print P ("Error message: " +:+ text response)) ;;;
    ret PNone.

Definition main (start_time end_time : datetime) (credential : option string)
    : M W pyval :=
  sign_in_logs <- get_sign_in_logs start_time end_time credential ;;
  if truthy sign_in_logs then ret sign_in_logs else ret (PList []).
End Collector.

End EntraId.

(** ** gcp_audit_logs.py *)

Module Gcp.
Import Py Eff.

Inductive service_state := STATE_UNSPECIFIED | DISABLED | ENABLED.

Record organization := mk_organization {
  display_name : string;
  org_name : string
}.

(** The arguments of [client.list_entries]. *)
Record entries_request := mk_entries_request {
  filter_ : string;
  order_by : string;
  max_results : Z
}.

(** [google.cloud.logging.DESCENDING]. *)
Definition DESCENDING : string := "timestamp desc".

Inductive level := INFO | ERROR.

(** What a file holds after [json.dump(v, file, indent=n)]: the JSON text
    of [v], or an unfinished text when the encoder raised on the way. *)
Inductive file_content :=
| JsonText (indent : Z) (v : pyval)
| Unfinished.

(** [json.dump] raises a [TypeError] on a value with no JSON form; among
    the values of [pyval] those are the ones that hold a [datetime]. *)
Fixpoint json_serializable (v : pyval) : bool :=
  match v with
  | PDatetime _ => false
  | PList l => forallb json_serializable l
  | PDict d => forallb (fun kv => json_serializable (snd kv)) d
  | _ => true
  end.

Section Collector.
(** [R] is the state of the Google Cloud side, [entry] the type of a
    [LogEntry]. *)
Context {R entry : Type}.

(** The local world of the script: the remote side, the files and the
    records of the [logging] module. *)
Record world := mk_world {
  remote : R;
  files : gmap string file_content;
  log : list (level * string)
}.

(** The Google Cloud clients.  They act on the remote side only. *)
Record api := mk_api {
  (** [client.get_service(request).state] *)
  get_service : string -> R -> result service_state * R;
  (** [client.enable_service(request)] followed by
      [operation.result()] *)
  enable_service : string -> R -> result unit * R;
  (** the organizations [client.search_organizations()] iterates over *)
  search_organizations : R -> result (list organization) * R;
  (** the entries [client.list_entries(...)] iterates over *)
  list_entries : entries_request -> R -> result (list entry) * R;
  (** [entry.to_api_repr()] *)
  to_api_repr : entry -> pyval;
  (** whether [open(filename, 'w')] succeeds, and its [OSError] *)
  open_for_writing : string -> result unit
}.

Variable P : api.
(** [credentials, project_id = default()] at import time. *)
Variable project_id : string.

Definition on_remote {A} (f : R -> result A * R) : M world A :=
  call (fun w => let '(r, rem) := f (remote w) in
                 (r, mk_world rem (files w) (log w))).

Definition logging (l : level) (msg : string) : M world unit :=
  effect (fun w => mk_world (remote w) (files w) (log w ++ [(l, msg)])).

Definition write_file (filename : string) (c : file_content) : M world unit :=
  effect (fun w => mk_world (remote w) (<[filename := c]> (files w)) (log w)).

Definition enable_api (project_id api_name : string) : M world unit :=
  let name := "projects/" +:+ project_id +:+ "/services/" +:+ api_name in
  state <- on_remote (get_service P name) ;;
  match state with
  | ENABLED =>
      logging INFO ("API " +:+ api_name +:+ " is already enabled for project "
                      +:+ project_id +:+ ".")
  | _ =>
      on_remote (enable_service P name) ;;;
      logging INFO ("Enabled API " +:+ api_name +:+ " for project "
                      +:+ project_id +:+ ".")
  end.

Definition get_organization_id : M world string :=
  orgs <- on_remote (search_organizations P) ;;
  match orgs with
  | org :: _ =>
      logging INFO ("Found organization: " +:+ display_name org +:+ " ("
                      +:+ org_name org +:+ ")") ;;;
      ret (org_name org)
  | [] => raise (mk_exn PlainException "No organizations found.")
  end.

(** The mandatory clause, lines 87-90. *)
Definition base_filter (start_time end_time : datetime) : string :=
  "timestamp>=" +:+ Json.quoted (isoformat start_time +:+ "Z")
    +:+ " timestamp<=" +:+ Json.quoted (isoformat end_time +:+ "Z").

(** Lines 92-95; [if filter_str:] is false for [None] and for [""]. *)
Definition combined_filter (start_time end_time : datetime)
    (filter_str : option string) : string :=
  if truthy (from_option PStr PNone filter_str)
  then default "" filter_str +:+ " " +:+ base_filter start_time end_time
  else base_filter start_time end_time.

Definition get_audit_logs (organization_id : string)
    (start_time end_time : datetime) (max_results : Z)
    (filter_str : option string) : M world (list pyval) :=
  let filter_str := combined_filter start_time end_time filter_str in
  logging INFO ("Using filter: " +:+ filter_str) ;;;
  entries <- on_remote
               (list_entries P (mk_entries_request filter_str DESCENDING max_results)) ;;
  ret (map (to_api_repr P) entries).

(** [open] truncates the file; [json.dump] then writes the text, or
    stops on the first value it cannot encode. *)
Definition save_audit_logs (logs : list pyval) (filename : string)
    : M world unit :=
  lift (open_for_writing P filename) ;;;
  (if json_serializable (PList logs)
   then write_file filename (JsonText 2 (PList logs))
   else write_file filename Unfinished ;;;
        raise (mk_exn TypeError "Object of type datetime is not JSON serializable")) ;;;
  logging INFO ("All logs have been saved to " +:+ filename).


(** The body of the [try] block of [main], lines 125-134. *)
Definition collect (start_time end_time : datetime) (max_results : Z)
    (filter_str : option string) (filename : string) : M world unit :=
  let api_name := "cloudresourcemanager.googleapis.com" in
  enable_api project_id api_name ;;;
  organization_id <- get_organization_id ;;
  logging INFO ("Organization ID: " +:+ organization_id) ;;;
  logs <- get_audit_logs organization_id start_time end_time max_results
                         filter_str ;;
  logging INFO ("Retrieved " +:+ pretty (length logs) +:+ " log entries.") ;;;
  save_audit_logs logs filename.

(** The world after [logging.error] of the handler, line 136. *)
Definition logged_error (e : exn) (w : world) : world :=
  mk_world (remote w) (files w)
    (log w ++ [(ERROR, "An error occurred: " +:+ exn_str e)]).

Definition main (start_time end_time : datetime) (max_results : Z)
    (filter_str : option string) (filename : string) : M world unit :=
  try_except
    (collect start_time end_time max_results filter_str filename)
    is_Exception
    (fun e => logging ERROR ("An error occurred: " +:+ exn_str e)).
End Collector.

Arguments world : clear implicits.
Arguments api : clear implicits.

End Gcp.

(** ** An HTTP side that records what is sent

    The identity SDK and the endpoints are fixed tables; the world keeps
    the requests in the order they were sent, and the console. *)

Module HttpMock.
Import Py Eff Http.

Record world := mk_world {
  tokens : string -> string -> result string;
  answer : http_request -> result http_response;
  sent : list http_request;
  console : list string
}.

Definition mock_get_token (credential scope : string) (w : world)
    : result string * world :=
  (tokens w credential scope, w).

Definition mock_requests_get (rq : http_request) (w : world)
    : result http_response * world :=
  (answer w rq, mk_world (tokens w) (answer w) (sent w ++ [rq]) (console w)).

Definition mock_print (line : string) (w : world) : world :=
  mk_world (tokens w) (answer w) (sent w) (console w ++ [line]).

Definition mock : api world :=
  mk_api world mock_get_token mock_requests_get mock_print.

(** The world once [rqs] were sent and [out] was printed. *)
Definition after (w : world) (rqs : list http_request) (out : list string)
    : world :=
  mk_world (tokens w) (answer w) (sent w ++ rqs) (console w ++ out).

(** What the endpoint of one subscription holds for [collect_audit_logs]:
    the list [logs] under ["value"] of a 200 answer, or a failure, which
    the collector reads as no logs. *)
Definition subscription_answers (w : world) (headers : list (string * string))
    (start_time end_time : string) (id : string) (logs : list pyval) : Prop :=
  exists resp,
    answer w (Azure.audit_logs_request id headers start_time end_time) = Ok resp /\
    ((status_code resp = 200 /\
      exists body, json_body resp = Ok body /\
                   py_get body "value" (PList []) = Ok (PList logs)) \/
     (status_code resp <> 200 /\ logs = [])).

End HttpMock.

(** ** A Google Cloud side with a set of enabled services

    [get_service] reads the set, [enable_service] adds to it, and every
    call is recorded. *)

Module GcpCloud.
Import Py Eff Gcp.

Inductive call :=
| GetService (name : string)
| EnableService (name : string)
| SearchOrganizations
| ListEntries (rq : entries_request).

Record cloud := mk_cloud {
  enabled : gset string;
  organizations : list organization;
  entries : list (Z * pyval);
  calls : list call
}.

Definition recorded (c : call) (s : cloud) : cloud :=
  mk_cloud (enabled s) (organizations s) (entries s) (calls s ++ [c]).

Definition cloud_api : api cloud (Z * pyval) :=
  mk_api
    (fun name s =>
       (Ok (if bool_decide (name ∈ enabled s) then ENABLED else DISABLED),
        recorded (GetService name) s))
    (fun name s =>
       (Ok tt,
        mk_cloud ({[name]} ∪ enabled s) (organizations s) (entries s)
                 (calls s ++ [EnableService name])))
    (fun s => (Ok (organizations s), recorded SearchOrganizations s))
    (fun rq s =>
       (Ok (take (Z.to_nat (max_results rq)) (entries s)),
        recorded (ListEntries rq) s))
    snd
    (fun filename => Ok tt).

(** The name [enable_api] asks about and enables. *)
Definition service_name (project_id api_name : string) : string :=
  "projects/" +:+ project_id +:+ "/services/" +:+ api_name.

End GcpCloud.

(** ** CloudLogCollector.py and the [save_*] functions it calls *)

Module CloudLogCollector.
Import Py Eff.

(** A provider side together with the files of the working directory. *)
Record with_disk (W : Type) := mk_with_disk {
  side : W;
  files : gmap string Gcp.file_content
}.
Arguments mk_with_disk {W}.
Arguments side {W}.
Arguments files {W}.

(** A CloudTrail event as the value [json.dump] walks over; its keys
    come in the order of the map, the order of insertion not being kept
    by the model. *)
Definition event_value (e : Aws.event) : pyval := PDict (map_to_list e).

Section Disk.
Context {W : Type}.
(** whether [open(filename, 'w')] succeeds, and its [OSError] *)
Variable open_for_writing : string -> result unit.

(** A computation of the provider side, run beside the files. *)
Definition on_side {A} (m : M W A) : M (with_disk W) A :=
  fun w =>
    match m (side w) with
    | Some (r, s) => Some (r, mk_with_disk s (files w))
    | None => None
    end.

Definition write_file (filename : string) (c : Gcp.file_content)
    : M (with_disk W) unit :=
  effect (fun w => mk_with_disk (side w) (<[filename := c]> (files w))).

(** [with open(filename, 'w') as f: json.dump(v, f, indent=indent)]:
    [open] truncates the file; the encoder then writes the text, or
    stops on the first value it cannot encode. *)
Definition json_dump (v : pyval) (filename : string) (indent : Z)
    : M (with_disk W) unit :=
  lift (open_for_writing filename) ;;;
  if Gcp.json_serializable v
  then write_file filename (Gcp.JsonText indent v)
  else write_file filename Gcp.Unfinished ;;;
       raise (mk_exn TypeError "Object of type datetime is not JSON serializable").

(** [azure_activity_logs.save_audit_logs] *)
Definition azure_save_audit_logs (P : Http.api W) (logs : list pyval)
    (filename : string) : M (with_disk W) unit :=
  json_dump (PList logs) filename 4 ;;;
  on_side (effect (Http.print P ("Combined audit logs saved to: " +:+ filename))).

(** [entraid_signin_logs.save_sign_in_logs] *)
Definition entraid_save_sign_in_logs (P : Http.api W) (logs : pyval)
    (filename : string) : M (with_disk W) unit :=
  json_dump logs filename 4 ;;;
  on_side (effect (Http.print P ("Sign-in logs saved to: " +:+ filename))).

(** [aws_cloudtrail_events.save_cloudtrail_logs] *)
Definition aws_save_cloudtrail_logs (P : Aws.api W) (logs : list Aws.event)
    (filename : string) : M (with_disk W) unit :=
  json_dump (PList (map event_value logs)) filename 2 ;;;
  on_side (effect (Aws.print P ("CloudTrail logs saved to: " +:+ filename))).

Definition get_azure_logs (P : Http.api W) (py_str : pyval -> string)
    (start_time end_time : datetime) (filename : string)
    : M (with_disk W) unit :=
  logs <- on_side (Azure.main P py_str (isoformat start_time)
                     (isoformat end_time) None) ;;
  azure_save_audit_logs P logs filename.

Definition get_entra_id_signin_logs (P : Http.api W)
    (start_time end_time : datetime) (filename : string)
    : M (with_disk W) unit :=
  logs <- on_side (EntraId.main P start_time end_time None) ;;
  entraid_save_sign_in_logs P logs filename.

Definition get_aws_cloudtrail_events (json_decode : string -> result pyval)
    (P : Aws.api W) (fuel : nat) (account_list : list string)
    (role_name : string) (start_time end_time : datetime) (filename : string)
    : M (with_disk W) unit :=
  events <- on_side (Aws.main json_decode P fuel account_list role_name
                       start_time end_time) ;;
  aws_save_cloudtrail_logs P events filename.
End Disk.

(** [get_gcp_logs]: the GCP collector writes its own file. *)
Definition get_gcp_logs {R entry : Type} (P : Gcp.api R entry)
    (project_id : string) (start_time end_time : datetime) (max_results : Z)
    (filter_str : option string) (filename : string) : M (Gcp.world R) unit :=
  Gcp.main P project_id start_time end_time max_results filter_str filename.

End CloudLogCollector.

(** ** Concrete events, pages and worlds to run the models on *)

Module Samples.
Import Py Eff.

Definition noon : datetime := mk_datetime 2024 2 29 12 0 0 0 (Some 0).
Definition evening : datetime := mk_datetime 2024 2 29 23 59 59 123 (Some (-19800000000)).

(** [{"eventVersion": "1.08", "readOnly": true}] as CloudTrail sends it. *)
Definition detail_text : string :=
  "{" +:+ Json.quoted "eventVersion" +:+ ": " +:+ Json.quoted "1.08" +:+ ", "
      +:+ Json.quoted "readOnly" +:+ ": true}".

Definition detail_value : pyval :=
  PDict [("eventVersion", PStr "1.08"); ("readOnly", PBool true)].

(** A raw event with both fields the normalisation touches. *)
Definition raw_event : Aws.event :=
  {[ "EventName" := PStr "ConsoleLogin";
     "CloudTrailEvent" := PStr detail_text;
     "EventTime" := PDatetime evening ]}.

(** A raw event with the detail field only. *)
Definition detail_only_event : Aws.event :=
  {[ "CloudTrailEvent" := PStr "{}" ]}.


(** What the normalisation makes of the two events. *)
Definition raw_event_normalized : Aws.event :=
  {[ "EventName" := PStr "ConsoleLogin";
     "CloudTrailEvent" := detail_value;
     "EventTime" := PStr "2024-02-29T23:59:59.000123-05:30" ]}.

Definition detail_only_event_normalized : Aws.event :=
  {[ "CloudTrailEvent" := PDict [] ]}.

(** Two pages of one region: the first hands out the token ["t1"]. *)
Definition page1 : Aws.response :=
  Aws.mk_response (Some [raw_event]) (Some "t1").

Definition page2 : Aws.response :=
  Aws.mk_response (Some [detail_only_event]) None.

Definition audit_credentials : Aws.credentials :=
  Aws.mk_credentials "AKIA-AUDIT" "secret" "token".

Definition audit_session : Aws.session :=
  Aws.mk_session "AKIA-AUDIT" "secret" "token".

Definition no_sts (role_arn : string) : result Aws.credentials :=
  Raise (mk_exn (ClientError "AccessDenied") "AccessDenied").

Definition no_ec2 (s : Aws.session) : result (list Aws.region_info) :=
  Raise (mk_exn (ClientError "AccessDenied") "AccessDenied").

(** A world whose CloudTrail answers with the two pages. *)
Definition two_page_world : AwsMock.world :=
  AwsMock.mk_world no_sts no_ec2 [Ok page1; Ok page2] [] [].

(** Two accounts: the first with the regions eu-north-1 and us-east-1,
    the second with eu-west-1. *)
Definition second_credentials : Aws.credentials :=
  Aws.mk_credentials "AKIA-SECOND" "secret2" "token2".

Definition sample_sts (role_arn : string) : result Aws.credentials :=
  if String.eqb role_arn "arn:aws:iam::012345678901:role/SecurityAuditRole"
  then Ok audit_credentials
  else if String.eqb role_arn "arn:aws:iam::000000000001:role/SecurityAuditRole"
  then Ok second_credentials
  else Raise (mk_exn (ClientError "AccessDenied") "AccessDenied").

Definition eu_north : Aws.region_info :=
  Aws.mk_region_info "eu-north-1" "ec2.eu-north-1.amazonaws.com" "opt-in-not-required".
Definition us_east : Aws.region_info :=
  Aws.mk_region_info "us-east-1" "ec2.us-east-1.amazonaws.com" "opt-in-not-required".
Definition eu_west : Aws.region_info :=
  Aws.mk_region_info "eu-west-1" "ec2.eu-west-1.amazonaws.com" "opt-in-not-required".

Definition sample_ec2 (s : Aws.session) : result (list Aws.region_info) :=
  if String.eqb (Aws.aws_access_key_id s) "AKIA-AUDIT" then Ok [eu_north; us_east]
  else Ok [eu_west].

Definition role_event : Aws.event := {[ "EventName" := PStr "AssumeRole" ]}.

Definition page3 : Aws.response := Aws.mk_response (Some [role_event]) None.

(** A page whose event carries a detail that is not JSON. *)
Definition broken_event : Aws.event :=
  {[ "EventName" := PStr "PutObject"; "CloudTrailEvent" := PStr "not json" ]}.

Definition broken_page : Aws.response :=
  Aws.mk_response (Some [broken_event]) (Some "t9").

Definition denied : exn :=
  mk_exn (ClientError "UnrecognizedClientException")
    "An error occurred (UnrecognizedClientException) when calling the LookupEvents operation".

Definition throttled : exn :=
  mk_exn (ClientError "ThrottlingException")
    "An error occurred (ThrottlingException) when calling the LookupEvents operation".

Definition unreachable : exn :=
  mk_exn (OtherError "EndpointConnectionError")
    "Could not connect to the endpoint URL".

(** What [json.loads] raises on a text that starts with no value. *)
Definition decode_error : exn :=
  mk_exn JSONDecodeError "Expecting value: line 1 column 1 (char 0)".

(** The visits of the three regions in four runs. *)
Definition two_pages_visit : AwsMock.visit := AwsMock.mk_visit [page1] (Ok page2).
Definition one_page_visit : AwsMock.visit := AwsMock.mk_visit [] (Ok page3).
Definition denied_visit : AwsMock.visit := AwsMock.mk_visit [] (Raise denied).
Definition unreachable_visit : AwsMock.visit := AwsMock.mk_visit [] (Raise unreachable).
Definition throttled_visit : AwsMock.visit := AwsMock.mk_visit [page1] (Raise throttled).
Definition broken_visit : AwsMock.visit := AwsMock.mk_visit [page1] (Ok broken_page).

Definition main_account (us_east_visit : AwsMock.visit) : AwsMock.account_plan :=
  AwsMock.mk_account_plan "012345678901" audit_credentials
    [(eu_north, two_pages_visit); (us_east, us_east_visit)].

Definition second_account : AwsMock.account_plan :=
  AwsMock.mk_account_plan "000000000001" second_credentials
    [(eu_west, one_page_visit)].

Definition sample_plan (us_east_visit : AwsMock.visit) : list AwsMock.account_plan :=
  [main_account us_east_visit; second_account].

(** The world of a run: the script holds the answers of the three
    visits one after the other. *)
Definition sample_world (us_east_visit : AwsMock.visit) : AwsMock.world :=
  AwsMock.mk_world sample_sts sample_ec2
    (AwsMock.plan_script (sample_plan us_east_visit)) [] [].

Definition sample_accounts : list string := ["012345678901"; "000000000001"].

(** [get_cloudtrail_logs] on the two accounts, as the orchestrator calls
    it, with fuel for five rounds per region. *)
Definition sample_run (us_east_visit : AwsMock.visit)
    : option (result (list Aws.event) * AwsMock.world) :=
  Aws.get_cloudtrail_logs Json.decode AwsMock.mock 5 sample_accounts
    "SecurityAuditRole" noon evening (sample_world us_east_visit).

(** A single region whose first page is followed by a [ClientError]. *)
Definition lone_ec2 (s : Aws.session) : result (list Aws.region_info) :=
  Ok [us_east].

Definition lone_run : option (result (list Aws.event) * AwsMock.world) :=
  Aws.get_cloudtrail_logs Json.decode AwsMock.mock 5 ["012345678901"]
    "SecurityAuditRole" noon evening
    (AwsMock.mk_world sample_sts lone_ec2 [Ok page1; Raise throttled] [] []).


(** A first page that hands out an empty token, with a second page
    behind it in the script. *)
Definition empty_token_page : Aws.response :=
  Aws.mk_response (Some [role_event]) (Some "").

Definition empty_token_world : AwsMock.world :=
  AwsMock.mk_world no_sts no_ec2 [Ok empty_token_page; Ok page2] [] [].

(** A time whose zone is 53 minutes and 28 seconds ahead of UTC. *)
Definition local_mean_time : datetime :=
  mk_datetime 1900 1 1 0 0 0 0 (Some 3208000000).

(** A world in which the role of the second account cannot be assumed. *)
Definition first_only_sts (role_arn : string) : result Aws.credentials :=
  if String.eqb role_arn "arn:aws:iam::012345678901:role/SecurityAuditRole"
  then Ok audit_credentials
  else Raise (mk_exn (ClientError "AccessDenied") "AccessDenied").

Definition access_denied : exn := mk_exn (ClientError "AccessDenied") "AccessDenied".

Definition first_only_world : AwsMock.world :=
  AwsMock.mk_world first_only_sts sample_ec2
    (AwsMock.plan_script [main_account denied_visit]) [] [].

(** A world in which the regions of the second account cannot be
    listed. *)
Definition first_only_ec2 (s : Aws.session) : result (list Aws.region_info) :=
  if String.eqb (Aws.aws_access_key_id s) "AKIA-AUDIT" then Ok [eu_north; us_east]
  else Raise access_denied.

Definition no_regions_world : AwsMock.world :=
  AwsMock.mk_world sample_sts first_only_ec2
    (AwsMock.plan_script [main_account denied_visit]) [] [].

(** A naive time, as [datetime.utcnow()] gives, and the time thirty
    days before it. *)
Definition utc_now : datetime := mk_datetime 2024 3 1 8 30 0 250000 None.

(** An HTTP side that answers every request with [resp]; the world is
    the console. *)
Definition fixed_http (resp : Http.http_response) : Http.api (list string) :=
  Http.mk_api (list string)
    (fun credential scope w => (Ok "eyJ0eXAi", w))
    (fun rq w => (Ok resp, w))
    (fun line w => w ++ [line]).

Definition forbidden : Http.http_response :=
  Http.mk_http_response 403 "AuthorizationFailed"
    (Ok (PDict [("error", PStr "AuthorizationFailed")])).

(** A successful answer whose JSON body is the empty object. *)
Definition empty_object : Http.http_response :=
  Http.mk_http_response 200 "{}" (Ok (PDict [])).

(** [str()] of [None], booleans, integers and text; the samples format
    nothing else. *)
Definition scalar_str (v : pyval) : string :=
  match v with
  | PStr s => s
  | PInt z => pretty z
  | PNone => "None"
  | PBool true => "True"
  | PBool false => "False"
  | _ => "<" +:+ type_name v +:+ ">"
  end.

(** Three subscriptions: the first holds two logs, the second refuses
    the query, the third holds one log. *)
Definition subscription (id : string) : pyval :=
  PDict [("subscriptionId", PStr id); ("state", PStr "Enabled")].

Definition log_a1 : pyval := PDict [("operationName", PStr "write")].
Definition log_a2 : pyval := PDict [("operationName", PStr "delete")].
Definition log_c1 : pyval := PDict [("operationName", PStr "action")].

Definition value_response (l : list pyval) : Http.http_response :=
  Http.mk_http_response 200 "" (Ok (PDict [("value", PList l)])).

Definition azure_answer (rq : Http.http_request) : result Http.http_response :=
  let u := Http.url rq in
  if String.eqb u (Http.url (Azure.subscriptions_request [])) then
    Ok (value_response [subscription "sub-a"; subscription "sub-b";
                        subscription "sub-c"])
  else if String.eqb u (Http.url (Azure.audit_logs_request "sub-a" [] "" "")) then
    Ok (value_response [log_a1; log_a2])
  else if String.eqb u (Http.url (Azure.audit_logs_request "sub-c" [] "" "")) then
    Ok (value_response [log_c1])
  else Ok forbidden.

Definition bearer_token (credential scope : string) : result string :=
  Ok "eyJ0eXAi".

Definition azure_world : HttpMock.world :=
  HttpMock.mk_world bearer_token azure_answer [] [].

(** Every endpoint refuses. *)
Definition forbidden_world : HttpMock.world :=
  HttpMock.mk_world bearer_token (fun rq => Ok forbidden) [] [].

(** The identity SDK has no session. *)
Definition not_logged_in : exn :=
  mk_exn (OtherError "CredentialUnavailableError") "Please run 'az login'".

Definition no_token_world : HttpMock.world :=
  HttpMock.mk_world (fun credential scope => Raise not_logged_in)
    azure_answer [] [].

(** A Google Cloud side without state: the API is enabled, and the
    logging service cuts its answer at the cap.  An entry is its instant
    and its API representation. *)
Definition gcp_side (orgs : list Gcp.organization) (entries : list (Z * pyval))
    : Gcp.api unit (Z * pyval) :=
  Gcp.mk_api
    (fun name r => (Ok Gcp.ENABLED, r))
    (fun name r => (Ok tt, r))
    (fun r => (Ok orgs, r))
    (fun rq r => (Ok (take (Z.to_nat (Gcp.max_results rq)) entries), r))
    snd
    (fun filename => Ok tt).

Definition audit_org : Gcp.organization :=
  Gcp.mk_organization "Example Org" "organizations/123".

Definition no_organization : exn :=
  mk_exn PlainException "No organizations found.".

Definition three_entries : list (Z * pyval) :=
  [(30, PDict [("insertId", PStr "c")]);
   (20, PDict [("insertId", PStr "b")]);
   (10, PDict [("insertId", PStr "a")])].

(** The user presses Ctrl-C while the state of the API is asked for. *)
Definition interrupt : exn := mk_exn KeyboardInterrupt "".

Definition gcp_side_interrupted : Gcp.api unit (Z * pyval) :=
  Gcp.mk_api
    (fun name r => (Raise interrupt, r))
    (fun name r => (Ok tt, r))
    (fun r => (Ok [audit_org], r))
    (fun rq r => (Ok (take (Z.to_nat (Gcp.max_results rq)) three_entries), r))
    snd
    (fun filename => Ok tt).


(** A world in which the output file already exists. *)
Definition gcp_world : Gcp.world unit :=
  Gcp.mk_world tt {[ "gcp_audit_logs.json" := Gcp.JsonText 2 (PList [PInt 1]) ]} [].



(** An answer whose JSON body is a sign-in page. *)
Definition sign_in_page : pyval :=
  PDict [("@odata.context", PStr "https://graph.microsoft.com/v1.0/$metadata#auditLogs/signIns");
         ("value", PList [PDict [("userPrincipalName", PStr "a@example.org")]])].

Definition sign_in_response : Http.http_response :=
  Http.mk_http_response 200 "" (Ok sign_in_page).

(** A 200 answer whose body is not JSON. *)
Definition not_json_response : Http.http_response :=
  Http.mk_http_response 200 "<html>" (Raise decode_error).

(** Every file can be opened for writing. *)
Definition always_open (filename : string) : result unit := Ok tt.

Definition old_contents : gmap string Gcp.file_content :=
  {[ "azure_events.json" := Gcp.JsonText 4 (PList [PInt 1]);
     "aws_events.json" := Gcp.JsonText 2 (PList [PInt 2]) ]}.

(** A Google Cloud side whose entries hold a value without a JSON
    form, and one whose files cannot be opened. *)
Definition dated_entries : list (Z * pyval) :=
  [(5, PDict [("receiveTimestamp", PDatetime noon)])].

Definition read_only : exn := mk_exn (OtherError "PermissionError") "Permission denied".

Definition gcp_side_read_only : Gcp.api unit (Z * pyval) :=
  Gcp.mk_api
    (fun name r => (Ok Gcp.ENABLED, r))
    (fun name r => (Ok tt, r))
    (fun r => (Ok [audit_org], r))
    (fun rq r => (Ok (take (Z.to_nat (Gcp.max_results rq)) three_entries), r))
    snd
    (fun filename => Raise read_only).

End Samples.

(** * Properties *)

(** ** [isoformat] produces ISO-8601 text *)

Module PyFacts.
Import Py.

Lemma is_digit_digit (d : Z) : 0 <= d < 10 -> is_digit (digit d) = true.
Proof.
  intros H.
  assert (Hd : d = 0 \/ d = 1 \/ d = 2 \/ d = 3 \/ d = 4 \/ d = 5 \/ d = 6
               \/ d = 7 \/ d = 8 \/ d = 9) by lia.
  repeat (destruct Hd as [-> | Hd]; [reflexivity |]); subst; reflexivity.
Qed.

Lemma digit_val_digit (d : Z) : 0 <= d < 10 -> digit_val (digit d) = d.
Proof.
  intros H.
  assert (Hd : d = 0 \/ d = 1 \/ d = 2 \/ d = 3 \/ d = 4 \/ d = 5 \/ d = 6
               \/ d = 7 \/ d = 8 \/ d = 9) by lia.
  repeat (destruct Hd as [-> | Hd]; [reflexivity |]); subst; reflexivity.
Qed.

(** Reading back [w] formatted digits continues with the number read. *)
Lemma read_fmt_digits (w : nat) :
  forall (k : nat) (n acc : Z) (rest : string),
    0 <= n < 10 ^ Z.of_nat w ->
    read_digits (w + k) (fmt_digits w n rest) acc
    = read_digits k rest (acc * 10 ^ Z.of_nat w + n).
Proof.
  induction w as [| w IH]; intros k n acc rest Hn.
  - simpl in *. f_equal. lia.
  - replace (S w + k)%nat with (w + S k)%nat by lia.
    cbn [fmt_digits].
    assert (Hpow : 10 ^ Z.of_nat (S w) = 10 * 10 ^ Z.of_nat w).
    { rewrite Nat2Z.inj_succ, Z.pow_succ_r by lia. reflexivity. }
    rewrite Hpow in Hn.
    assert (Hq : 0 <= n / 10 < 10 ^ Z.of_nat w).
    { split; [apply Z.div_pos; lia | apply Z.div_lt_upper_bound; lia]. }
    assert (Hr : 0 <= n mod 10 < 10) by (apply Z.mod_pos_bound; lia).
    rewrite IH by exact Hq.
    cbn [read_digits].
    rewrite is_digit_digit, digit_val_digit by exact Hr.
    f_equal. rewrite Hpow.
    pose proof (Z.div_mod n 10 ltac:(lia)). lia.
Qed.

Lemma read_fmt_exact (w : nat) (n : Z) (rest : string) :
  0 <= n < 10 ^ Z.of_nat w ->
  read_digits w (fmt_digits w n rest) 0 = Some (n, rest).
Proof.
  intros Hn.
  replace w with (w + 0)%nat at 1 by lia.
  rewrite read_fmt_digits by exact Hn. reflexivity.
Qed.

Lemma read_fmt2 (n : Z) (rest : string) :
  0 <= n < 100 -> read_digits 2 (fmt_digits 2 n rest) 0 = Some (n, rest).
Proof. intros Hn. apply read_fmt_exact. change (10 ^ Z.of_nat 2) with 100. exact Hn. Qed.

Lemma read_fmt4 (n : Z) (rest : string) :
  0 <= n < 10000 -> read_digits 4 (fmt_digits 4 n rest) 0 = Some (n, rest).
Proof. intros Hn. apply read_fmt_exact. change (10 ^ Z.of_nat 4) with 10000. exact Hn. Qed.

Lemma span_fmt_digits (w : nat) :
  forall (n : Z) (rest : string),
    span_digits (fmt_digits w n rest)
    = let '(m, r) := span_digits rest in ((w + m)%nat, r).
Proof.
  induction w as [| w IH]; intros n rest.
  - simpl. destruct (span_digits rest); reflexivity.
  - cbn [fmt_digits]. rewrite IH. cbn [span_digits].
    rewrite is_digit_digit by (apply Z.mod_pos_bound; lia).
    destruct (span_digits rest) as [m r].
    f_equal. lia.
Qed.

(** The zone designator [format_offset] writes for a whole-minute offset
    is accepted. *)
Lemma read_zone_format_offset (off : option Z) :
  match off with
  | None => True
  | Some o => -86400000000 < o < 86400000000 /\ o mod 60000000 = 0
  end ->
  read_zone (format_offset off "") = true.
Proof.
  destruct off as [o |]; [| reflexivity].
  intros [Hrange Hmin].
  unfold format_offset.
  set (a := Z.abs o).
  assert (Ha : 0 <= a < 86400000000) by (subst a; lia).
  assert (Hamin : a mod 60000000 = 0).
  { subst a. destruct (Z.abs_spec o) as [[_ ->] | [_ ->]]; [exact Hmin |].
    apply Z.mod_divide; [lia |]. apply Z.divide_opp_r.
    apply Z.mod_divide; [lia | exact Hmin]. }
  assert (Hss : a mod 60000000 / 1000000 = 0) by (rewrite Hamin; reflexivity).
  assert (Hus : a mod 1000000 = 0).
  { pose proof (Z.div_mod a 60000000 ltac:(lia)) as E. rewrite Hamin in E.
    rewrite E at 1.
    replace (60000000 * (a / 60000000) + 0)
      with ((a / 60000000 * 60) * 1000000) by lia.
    apply Z.mod_mul. lia. }
  rewrite Hss, Hus. cbn [Z.eqb andb].
  assert (Hhh : 0 <= a / 3600000000 < 24).
  { split; [apply Z.div_pos; lia | apply Z.div_lt_upper_bound; lia]. }
  assert (Hmm : 0 <= a mod 3600000000 / 60000000 < 60).
  { pose proof (Z.mod_pos_bound a 3600000000 ltac:(lia)).
    split; [apply Z.div_pos; lia | apply Z.div_lt_upper_bound; lia]. }
  assert (Hzone : forall sign : ascii,
            sign = "+"%char \/ sign = "-"%char ->
            read_zone (String sign (fmt_digits 2 (a / 3600000000)
                         (String ":" (fmt_digits 2 (a mod 3600000000 / 60000000) ""))))
            = true).
  { intros sign [-> | ->]; cbn [read_zone Ascii.eqb Bool.eqb orb];
      rewrite read_fmt2 by lia;
      rewrite read_fmt2 by lia;
      rewrite andb_true_iff; split;
      try (apply andb_true_iff; split); try apply Z.ltb_lt; try lia; reflexivity. }
  destruct (o <? 0); apply Hzone; auto.
Qed.

Example isoformat_evening :
  isoformat Samples.evening = "2024-02-29T23:59:59.000123-05:30".
Proof. reflexivity. Qed.

Example isoformat_ms_evening :
  isoformat_ms Samples.evening = "2024-02-29T23:59:59.000-05:30".
Proof. reflexivity. Qed.

(** An offset with seconds is printed with its seconds, which no
    ISO-8601 zone designator has: the whole-minute condition is needed. *)
Example isoformat_local_mean_time :
  isoformat Samples.local_mean_time = "1900-01-01T00:00:00+00:53:28" /\
  is_iso8601 (isoformat Samples.local_mean_time) = false.
Proof. split; reflexivity. Qed.

Example not_a_leap_day : is_iso8601 "2023-02-29T00:00:00" = false.
Proof. reflexivity. Qed.

Example decode_detail_text :
  Json.decode Samples.detail_text = Ok Samples.detail_value.
Proof. vm_compute. reflexivity. Qed.

Example decode_not_json :
  Json.decode "not json" = Raise Samples.decode_error.
Proof. vm_compute. reflexivity. Qed.

Example decode_leading_zero :
  Json.decode "01"
  = Raise (mk_exn JSONDecodeError "Extra data: line 1 column 2 (char 1)").
Proof. vm_compute. reflexivity. Qed.

(** Escapes, a character beyond ASCII and numbers with a fraction or an
    exponent: [["a\nb\u00e9", 1.5, 1e2]]. *)
Example decode_escapes_and_floats :
  Json.decode ("[" +:+ Json.quoted "a\nb\u00e9" +:+ ", 1.5, 1e2]")
  = Ok (PList
          [PStr (String "a" (String "010" (String "b"
                   (String "195" (String "169" EmptyString)))));
           PFloat (SpecFloat.S754_finite false 6755399441055744 (-52));
           PFloat (SpecFloat.S754_finite false 7036874417766400 (-46))]).
Proof. vm_compute. reflexivity. Qed.

Example decode_unfinished_object :
  Json.decode ("{" +:+ Json.quoted "a" +:+ ": 1,")
  = Raise (mk_exn JSONDecodeError
             "Expecting property name enclosed in double quotes: line 1 column 9 (char 8)").
Proof. vm_compute. reflexivity. Qed.

(** The two bytes of [U+00E9] are one character. *)
Example chars_beyond_ascii :
  chars (String "195" (String "169" "z")) = [String "195" (String "169" ""); "z"].
Proof. reflexivity. Qed.

Lemma read_fraction_format (us : Z) (off : option Z) :
  0 <= us < 1000000 ->
  read_fraction
    (if us =? 0 then format_offset off ""
     else String "." (fmt_digits 6 us (format_offset off "")))
  = Some (format_offset off "").
Proof.
  intros Hus. destruct (us =? 0).
  - destruct off as [o |]; [| reflexivity].
    unfold format_offset. destruct (o <? 0); reflexivity.
  - cbn [read_fraction Ascii.eqb Bool.eqb orb].
    rewrite span_fmt_digits.
    assert (Hspan : span_digits (format_offset off "") = (O, format_offset off "")).
    { destruct off as [o |]; [| reflexivity].
      unfold format_offset. destruct (o <? 0); reflexivity. }
    rewrite Hspan. reflexivity.
Qed.

Lemma days_in_month_le (y m : Z) : days_in_month y m <= 31.
Proof.
  unfold days_in_month.
  destruct (m =? 2); [destruct (is_leap y); lia |].
  destruct ((m =? 4) || (m =? 6) || (m =? 9) || (m =? 11)); lia.
Qed.

Lemma isoformat_valid (d : datetime) :
  valid_datetime d -> whole_minute_offset d -> is_iso8601 (isoformat d) = true.
Proof.
  intros (Hy & Hm & Hd & Hh & Hmi & Hs & Hus & Hoff) Hwhole.
  unfold is_iso8601, iso8601_parse, isoformat, format_date, format_time, format_hms.
  rewrite read_fmt4 by lia.
  cbn [mbind option_bind expect Ascii.eqb Bool.eqb].
  pose proof (days_in_month_le (year d) (month d)) as Hdim.
  do 5 (rewrite read_fmt2 by lia;
        cbn [mbind option_bind expect Ascii.eqb Bool.eqb]).
  cbn [mbind option_bind].
  rewrite read_fraction_format by exact Hus.
  cbn [mbind option_bind].
  rewrite read_zone_format_offset.
  - repeat (apply andb_true_iff; split); try reflexivity;
      first [apply Z.leb_le | apply Z.ltb_lt]; lia.
  - unfold whole_minute_offset in Hwhole.
    destruct (utcoffset d); [split; assumption | exact I].
Qed.

End PyFacts.

(** ** The loops of the JSON scanner have fuel enough *)

Module JsonFacts.
Import Py Json.

Lemma advances_map {A B} (f : A -> B) k s (r : scanned A) :
  advances k s r -> advances k s (scanned_map f r).
Proof. destruct r; exact id. Qed.

Lemma advances_weaken {A} k k' s s' (r : scanned A) :
  (String.length s + k' <= String.length s' + k)%nat ->
  advances k s r -> advances k' s' r.
Proof. destruct r; cbn; [lia | auto]. Qed.

Lemma skip_ws_length (s : string) :
  forall pos, (String.length (fst (skip_ws s pos)) <= String.length s)%nat.
Proof.
  induction s as [| c r IH]; intros pos; cbn; [lia |].
  destruct (is_ws c); cbn; [specialize (IH (pos + 1)); lia | lia].
Qed.

Lemma strip_prefix_length (p : string) :
  forall s r, strip_prefix p s = Some r ->
              (String.length r + String.length p = String.length s)%nat.
Proof.
  induction p as [| a p IH]; intros s r H; cbn in H.
  - injection H as <-. cbn. lia.
  - destruct s as [| b s]; [discriminate |].
    destruct (Ascii.eqb a b); [| discriminate].
    apply IH in H. cbn. lia.
Qed.

Lemma scanstring_advances (left : nat) (begin : Z) (n : nat) :
  forall s pos, (String.length s <= n)%nat ->
                advances 1 s (scanstring left begin s pos).
Proof.
  induction n as [| n IH]; intros s pos Hn.
  - destruct s; [cbn; discriminate | cbn in Hn; lia].
  - destruct s as [| c r]; [cbn; discriminate |].
    cbn [scanstring]. cbn in Hn.
    destruct (Ascii.eqb c dquote); [cbn; lia |].
    destruct (Ascii.eqb c "\").
    + destruct r as [| e r1]; [cbn; discriminate |]. cbn in Hn.
      destruct (Ascii.eqb e "u").
      * destruct r1 as [| h1 [| h2 [| h3 [| h4 r5]]]]; try (cbn; discriminate).
        cbn [String.length] in Hn.
        destruct (code_points _ <? 5); [cbn; discriminate |].
        destruct (hex4 h1 h2 h3 h4) as [c1 |]; [| cbn; discriminate].
        assert (Hlone : advances 1 (String c (String e (String h1 (String h2
                          (String h3 (String h4 r5))))))
                          (scanned_map (utf8 c1)
                             (scanstring left begin r5 (pos + 6)))).
        { apply advances_map.
          apply (advances_weaken 1 1 r5); [cbn; lia | apply IH; lia]. }
        destruct r5 as [| b [| u [| k1 [| k2 [| k3 [| k4 r11]]]]]];
          try exact Hlone.
        destruct (is_high_surrogate c1 && (7 <=? code_points _)
                  && Ascii.eqb b "\" && Ascii.eqb u "u"); [| exact Hlone].
        destruct (hex4 k1 k2 k3 k4) as [c2 |]; [| cbn; discriminate].
        destruct (is_low_surrogate c2); [| exact Hlone].
        apply advances_map.
        apply (advances_weaken 1 1 r11); [cbn; lia |].
        apply IH. cbn [String.length] in Hn. lia.
      * destruct (escaped e); [| cbn; discriminate].
        apply advances_map.
        apply (advances_weaken 1 1 r1); [cbn; lia | apply IH; lia].
    + destruct (N_of_ascii c <? 32)%N; [cbn; discriminate |].
      apply advances_map.
      apply (advances_weaken 1 1 r); [cbn; lia | apply IH; lia].
Qed.

Lemma take_digits_length (s : string) :
  (String.length (snd (take_digits s)) <= String.length s)%nat.
Proof.
  induction s as [| c r IH]; cbn; [lia |].
  destruct (is_digit c); [| cbn; lia].
  destruct (take_digits r) as [ds r']. cbn in *. lia.
Qed.

Lemma read_frac_length (s ds r : string) :
  read_frac s = Some (ds, r) -> (String.length r <= String.length s)%nat.
Proof.
  unfold read_frac. destruct s as [| c [| d s']]; [discriminate | |];
    (destruct c as [[] [] [] [] [] [] [] []]; try discriminate).
  destruct (is_digit d); [| discriminate].
  intros H.
  assert (E : take_digits (String d s') = (ds, r)) by congruence.
  pose proof (take_digits_length (String d s')) as L. rewrite E in L.
  cbn [snd String.length] in *. lia.
Qed.

Lemma read_exp_length (s sign ds r : string) :
  read_exp s = Some (sign, ds, r) -> (String.length r <= String.length s)%nat.
Proof.
  unfold read_exp. destruct s as [| e s']; [discriminate |].
  destruct (Ascii.eqb e "e" || Ascii.eqb e "E"); [| discriminate].
  set (sr := match s' with
             | String "+" r' => ("+", r')
             | String "-" r' => ("-", r')
             | _ => ("", s')
             end).
  assert (Hsr : (String.length (snd sr) <= String.length s')%nat).
  { subst sr. destruct s' as [| c s'']; [cbn; lia |].
    destruct c as [[] [] [] [] [] [] [] []]; cbn; lia. }
  destruct sr as [sg r1]. cbn in Hsr.
  pose proof (take_digits_length r1) as L.
  destruct (take_digits r1) as [[| d ds'] r2]; [discriminate |].
  intros H. injection H as _ _ <-. cbn in *. lia.
Qed.

Lemma match_number_advances (s : string) (pos : Z) :
  advances 1 s (match_number s pos).
Proof.
  unfold match_number.
  set (ns := match s with
             | String "-" r => (true, r)
             | _ => (false, s)
             end).
  assert (Hns : (String.length (snd ns) <= String.length s)%nat).
  { subst ns. destruct s as [| c r]; [cbn; lia |].
    destruct c as [[] [] [] [] [] [] [] []]; cbn; lia. }
  destruct ns as [neg s1]. cbn in Hns.
  destruct s1 as [| c r]; [cbn; discriminate |].
  destruct (is_digit c) eqn:Hc; [| cbn; discriminate].
  set (ir := if Ascii.eqb c "0" then ("0", r) else take_digits (String c r)).
  assert (Hir : (String.length (snd ir) <= String.length r)%nat).
  { subst ir. destruct (Ascii.eqb c "0"); [cbn; lia |].
    cbn [take_digits]. rewrite Hc.
    pose proof (take_digits_length r) as L.
    destruct (take_digits r) as [ds r']. cbn in *. lia. }
  destruct ir as [int_ds r1]. cbn in Hir.
  set (fr := match read_frac r1 with Some fr => fr | None => ("", r1) end).
  assert (Hfr : (String.length (snd fr) <= String.length r1)%nat).
  { subst fr. destruct (read_frac r1) as [[ds r'] |] eqn:E; [| cbn; lia].
    cbn. eapply read_frac_length. exact E. }
  destruct fr as [frac_ds r2]. cbn in Hfr.
  set (ex := match read_exp r2 with Some ex => ex | None => ("", "", r2) end).
  assert (Hex : (String.length (snd ex) <= String.length r2)%nat).
  { subst ex. destruct (read_exp r2) as [[[sg ds] r'] |] eqn:E; [| cbn; lia].
    cbn. eapply read_exp_length. exact E. }
  destruct ex as [[exp_sign exp_ds] r3]. cbn in Hex.
  cbn zeta.
  destruct (String.eqb frac_ds "" && String.eqb exp_ds "").
  - destruct (int_max_str_digits <? len int_ds); cbn; [discriminate |].
    cbn in Hns. lia.
  - cbn. cbn in Hns. lia.
Qed.

Lemma match_name_advances names (s : string) v r n :
  Forall (fun nv => fst nv <> "") names ->
  match_name names s = Some (v, r, n) ->
  (String.length r + 1 <= String.length s)%nat.
Proof.
  induction 1 as [| [name v'] names Hname _ IH]; cbn; [discriminate |].
  destruct (strip_prefix name s) as [r' |] eqn:E; [| exact IH].
  intros H. injection H as _ <- _.
  apply strip_prefix_length in E.
  destruct name; [cbn in Hname; congruence | cbn in E; lia].
Qed.

Section Containers.
Variable left : nat.
Variable scan : string -> Z -> scanned pyval.
Hypothesis scan_advances : forall s pos, advances 1 s (scan s pos).

Lemma array_loop_advances (fuel : nat) :
  forall s pos acc, (String.length s < fuel)%nat ->
                    advances 1 s (array_loop left scan fuel s pos acc).
Proof.
  induction fuel as [| fuel IH]; intros s pos acc Hfuel; [lia |].
  cbn [array_loop].
  pose proof (scan_advances s pos) as Hscan.
  destruct (scan s pos) as [v r p |]; [| exact Hscan]. cbn in Hscan.
  pose proof (skip_ws_length r p) as Hws.
  destruct (skip_ws r p) as [r0 p0]. cbn in Hws.
  destruct r0 as [| c r']; [cbn; discriminate |].
  destruct c as [[] [] [] [] [] [] [] []]; try (cbn; discriminate);
    first
      [ solve [cbn in *; lia]
      | pose proof (skip_ws_length r' (p0 + 1)) as Hws';
        destruct (skip_ws r' (p0 + 1)) as [r1 p1]; cbn in Hws';
        apply (advances_weaken 1 1 r1); [cbn in *; lia |];
        apply IH; cbn in *; lia ].
Qed.

Lemma parse_array_advances (s : string) (pos : Z) :
  advances 1 s (parse_array left scan s pos).
Proof.
  unfold parse_array.
  pose proof (skip_ws_length s pos) as Hws.
  destruct (skip_ws s pos) as [r p]. cbn in Hws.
  assert (Hloop : advances 1 s (array_loop left scan (S (String.length r)) r p [])).
  { apply (advances_weaken 1 1 r); [lia |]. apply array_loop_advances. lia. }
  destruct r as [| c r']; [exact Hloop |].
  destruct c as [[] [] [] [] [] [] [] []]; try exact Hloop.
  cbn in *. lia.
Qed.

Lemma object_loop_advances (fuel : nat) :
  forall s pos acc, (String.length s < fuel)%nat ->
                    advances 1 s (object_loop left scan fuel s pos acc).
Proof.
  induction fuel as [| fuel IH]; intros s pos acc Hfuel; [lia |].
  cbn [object_loop].
  destruct (strip_prefix (String dquote "") s) as [r |] eqn:Hq;
    [| cbn; discriminate].
  apply strip_prefix_length in Hq. cbn in Hq.
  pose proof (scanstring_advances left pos (String.length r) r (pos + 1)
                ltac:(lia)) as Hkey.
  destruct (scanstring left pos r (pos + 1)) as [key r1 p1 |];
    [| exact Hkey]. cbn in Hkey.
  pose proof (skip_ws_length r1 p1) as Hws1.
  destruct (skip_ws r1 p1) as [r1' p1']. cbn in Hws1.
  destruct r1' as [| c r2]; [cbn; discriminate |].
  destruct c as [[] [] [] [] [] [] [] []]; try (cbn; discriminate).
  pose proof (skip_ws_length r2 (p1' + 1)) as Hws2.
  destruct (skip_ws r2 (p1' + 1)) as [r2' p2]. cbn in Hws2.
  pose proof (scan_advances r2' p2) as Hscan.
  destruct (scan r2' p2) as [v r3 p3 |]; [| exact Hscan]. cbn in Hscan.
  cbn zeta.
  pose proof (skip_ws_length r3 p3) as Hws3.
  destruct (skip_ws r3 p3) as [r3' p3']. cbn in Hws3.
  destruct r3' as [| c r4]; [cbn; discriminate |].
  destruct c as [[] [] [] [] [] [] [] []]; try (cbn; discriminate);
    first
      [ solve [cbn in *; lia]
      | pose proof (skip_ws_length r4 (p3' + 1)) as Hws4;
        destruct (skip_ws r4 (p3' + 1)) as [r4' p4]; cbn in Hws4;
        apply (advances_weaken 1 1 r4'); [cbn in *; lia |];
        apply IH; cbn in *; lia ].
Qed.

Lemma parse_object_advances (s : string) (pos : Z) :
  advances 1 s (parse_object left scan s pos).
Proof.
  unfold parse_object.
  pose proof (skip_ws_length s pos) as Hws.
  destruct (skip_ws s pos) as [r p]. cbn in Hws.
  assert (Hloop : advances 1 s (object_loop left scan (S (String.length r)) r p [])).
  { apply (advances_weaken 1 1 r); [lia |]. apply object_loop_advances. lia. }
  destruct r as [| c r']; [exact Hloop |].
  destruct c as [[] [] [] [] [] [] [] []]; try exact Hloop.
  cbn in *. lia.
Qed.
End Containers.

(** The scanner never runs out of fuel, and a value it finds takes a
    character at least. *)
Lemma scan_once_advances (recursion_left : nat) :
  forall s pos, advances 1 s (scan_once recursion_left s pos).
Proof.
  induction recursion_left as [| n IH]; intros s pos;
    (destruct s as [| c r]; [cbn; discriminate |]);
    cbn [scan_once];
    (destruct (Ascii.eqb c dquote);
     [ apply advances_map; apply (advances_weaken 1 1 r); [cbn; lia |];
       apply (scanstring_advances _ _ (String.length r)); lia |]);
    (destruct (Ascii.eqb c "{");
     [ first [ cbn; discriminate
             | apply (advances_weaken 1 1 r); [cbn; lia |];
               apply parse_object_advances; exact IH ] |]);
    (destruct (Ascii.eqb c "[");
     [ first [ cbn; discriminate
             | apply (advances_weaken 1 1 r); [cbn; lia |];
               apply parse_array_advances; exact IH ] |]);
    (destruct (match_name literals (String c r)) as [[[v r'] k] |] eqn:El;
     [ unfold advances; eapply (match_name_advances _ (String c r));
       [| exact El]; repeat constructor; discriminate |]);
    (destruct (match_name constants (String c r)) as [[[v r'] k] |] eqn:Ec;
     [ first [ cbn; discriminate
             | unfold advances; eapply (match_name_advances _ (String c r));
               [| exact Ec]; repeat constructor; discriminate ]
     | apply match_number_advances ]).
Qed.

(** [json.loads] does not end in the exception that stands for a loop
    out of fuel. *)
Lemma loads_in_fuel (recursion_left : nat) (s : string) :
  loads recursion_left s <> Raise (raised recursion_left s OutOfFuel).
Proof.
  unfold loads.
  destruct (strip_prefix bom s); [discriminate |].
  destruct (skip_ws s 0) as [r p].
  pose proof (scan_once_advances recursion_left r p) as H.
  destruct (scan_once recursion_left r p) as [v r' p' | f].
  - destruct (skip_ws r' p') as [r'' p'']. destruct r''; [discriminate |].
    cbn. destruct recursion_left; discriminate.
  - cbn in H. destruct f as [msg pos n | pos | digits | doing |];
      [ destruct n as [| [| [| n]]]; discriminate
      | cbn; destruct recursion_left as [| [| n]]; discriminate
      | discriminate
      | discriminate
      | congruence ].
Qed.

End JsonFacts.

(** ** The AWS normalisation of one event *)

Module AwsNormalize.
Import Py Eff Aws.

Section Decoder.
Variable json_decode : string -> result pyval.

Lemma normalize_event_detail (e : event) (s : string) (j : pyval) :
  e !! "CloudTrailEvent" = Some (PStr s) -> json_decode s = Ok j ->
  e !! "EventTime" = None ->
  normalize_event json_decode e = Ok (<["CloudTrailEvent" := j]> e).
Proof.
  intros Hc Hj Ht. unfold normalize_event. rewrite Hc. cbn [json_loads rbind].
  rewrite Hj. cbn [rbind]. rewrite lookup_insert_ne by discriminate.
  rewrite Ht. reflexivity.
Qed.

Lemma normalize_event_both (e : event) (s : string) (j : pyval) (d : datetime) :
  e !! "CloudTrailEvent" = Some (PStr s) -> json_decode s = Ok j ->
  e !! "EventTime" = Some (PDatetime d) ->
  normalize_event json_decode e
  = Ok (<["EventTime" := PStr (isoformat d)]> (<["CloudTrailEvent" := j]> e)).
Proof.
  intros Hc Hj Ht. unfold normalize_event. rewrite Hc. cbn [json_loads rbind].
  rewrite Hj. cbn [rbind]. rewrite lookup_insert_ne by discriminate.
  rewrite Ht. reflexivity.
Qed.

Lemma normalize_event_time (e : event) (d : datetime) :
  e !! "CloudTrailEvent" = None ->
  e !! "EventTime" = Some (PDatetime d) ->
  normalize_event json_decode e = Ok (<["EventTime" := PStr (isoformat d)]> e).
Proof.
  intros Hc Ht. unfold normalize_event. rewrite Hc. cbn [rbind].
  rewrite Ht. reflexivity.
Qed.

Lemma normalize_event_neither (e : event) :
  e !! "CloudTrailEvent" = None -> e !! "EventTime" = None ->
  normalize_event json_decode e = Ok e.
Proof.
  intros Hc Ht. unfold normalize_event. rewrite Hc. cbn [rbind].
  rewrite Ht. reflexivity.
Qed.

(** A second pass, on whatever event: a detail that is not text stops
    it in [json.loads], before the event time is looked at. *)
Lemma normalize_event_again_detail (e : event) (j : pyval) :
  e !! "CloudTrailEvent" = Some j -> (forall s, j <> PStr s) ->
  normalize_event json_decode e
  = Raise (mk_exn TypeError
             ("the JSON object must be str, bytes or bytearray, not "
                +:+ class_name j)).
Proof.
  intros Hc Hj. unfold normalize_event. rewrite Hc.
  destruct j; try reflexivity. exfalso. eapply Hj. reflexivity.
Qed.

(** Without a detail, an event time that is text stops it in
    [isoformat]. *)
Lemma normalize_event_again_time (e : event) (s : string) :
  e !! "CloudTrailEvent" = None -> e !! "EventTime" = Some (PStr s) ->
  normalize_event json_decode e
  = Raise (mk_exn AttributeError "'str' object has no attribute 'isoformat'").
Proof.
  intros Hc Ht. unfold normalize_event. rewrite Hc. cbn [rbind].
  rewrite Ht. reflexivity.
Qed.

(** A detail that is text is decoded once more. *)
Lemma normalize_event_again_text (e : event) (s : string) :
  e !! "CloudTrailEvent" = Some (PStr s) ->
  normalize_event json_decode e
  = match json_decode s with
    | Raise err => Raise err
    | Ok j =>
        match e !! "EventTime" with
        | Some t =>
            rbind (call_isoformat t)
              (fun x => Ok (<["EventTime" := PStr x]> (<["CloudTrailEvent" := j]> e)))
        | None => Ok (<["CloudTrailEvent" := j]> e)
        end
    end.
Proof.
  intros Hc. unfold normalize_event. rewrite Hc. cbn [json_loads rbind].
  destruct (json_decode s) as [j | err]; [| reflexivity]. cbn [rbind].
  rewrite lookup_insert_ne by discriminate. reflexivity.
Qed.

(** What a second pass does with an event whose event time is text,
    as a first pass leaves it. *)
Lemma second_pass_with_time (e' : event) (x : string) :
  e' !! "EventTime" = Some (PStr x) ->
  (forall j, e' !! "CloudTrailEvent" = Some j -> (forall s, j <> PStr s) ->
     normalize_event json_decode e'
     = Raise (mk_exn TypeError
                ("the JSON object must be str, bytes or bytearray, not "
                   +:+ class_name j))) /\
  (forall s, e' !! "CloudTrailEvent" = Some (PStr s) ->
     normalize_event json_decode e'
     = match json_decode s with
       | Raise err => Raise err
       | Ok j => Raise (mk_exn AttributeError
                          "'str' object has no attribute 'isoformat'")
       end) /\
  (e' !! "CloudTrailEvent" = None ->
     normalize_event json_decode e'
     = Raise (mk_exn AttributeError "'str' object has no attribute 'isoformat'")).
Proof.
  intros Ht. split; [| split].
  - intros j Hc Hj. apply normalize_event_again_detail; assumption.
  - intros s Hc. rewrite (normalize_event_again_text e' s Hc), Ht.
    destruct (json_decode s); reflexivity.
  - intros Hc. apply (normalize_event_again_time e' x); assumption.
Qed.

(** The same for an event without an event time. *)
Lemma second_pass_without_time (e' : event) :
  e' !! "EventTime" = None ->
  (forall j, e' !! "CloudTrailEvent" = Some j -> (forall s, j <> PStr s) ->
     normalize_event json_decode e'
     = Raise (mk_exn TypeError
                ("the JSON object must be str, bytes or bytearray, not "
                   +:+ class_name j))) /\
  (forall s, e' !! "CloudTrailEvent" = Some (PStr s) ->
     normalize_event json_decode e'
     = match json_decode s with
       | Raise err => Raise err
       | Ok j => Ok (<["CloudTrailEvent" := j]> e')
       end) /\
  (e' !! "CloudTrailEvent" = None -> normalize_event json_decode e' = Ok e').
Proof.
  intros Ht. split; [| split].
  - intros j Hc Hj. apply normalize_event_again_detail; assumption.
  - intros s Hc. rewrite (normalize_event_again_text e' s Hc), Ht.
    destruct (json_decode s); reflexivity.
  - intros Hc. apply normalize_event_neither; assumption.
Qed.

(** C2 (amended): the normalisation of one event is total on raw
    events but not idempotent.  On an event whose detail, when
    present, is JSON text the decoder accepts and whose event time,
    when present, is a [datetime] (with a whole-minute UTC offset), it
    returns an event whose detail is the decoded value, whose event
    time is the [isoformat] text, a valid ISO-8601 string, and whose
    other fields are unchanged.  Normalising the result a second time
    gives the result again when the event has neither field.
    Otherwise: a decoded detail that is not text makes the second pass
    raise the [TypeError] of [json.loads], before the event time is
    looked at; a decoded detail that is text is decoded once more (an
    exception of the decoder leaves the pass); and where the pass gets
    by the detail, an event that had an event time makes it raise the
    [AttributeError] of [isoformat] on text. *)
Theorem normalize_event_total_once (e : event) :
  raw json_decode e ->
  exists e',
    normalize_event json_decode e = Ok e' /\
    (forall s, e !! "CloudTrailEvent" = Some (PStr s) ->
       exists j, json_decode s = Ok j /\ e' !! "CloudTrailEvent" = Some j) /\
    (forall d, e !! "EventTime" = Some (PDatetime d) ->
       e' !! "EventTime" = Some (PStr (isoformat d)) /\
       is_iso8601 (isoformat d) = true) /\
    (forall k, k <> "CloudTrailEvent" -> k <> "EventTime" -> e' !! k = e !! k) /\
    (e !! "CloudTrailEvent" = None <-> e' !! "CloudTrailEvent" = None) /\
    (forall j, e' !! "CloudTrailEvent" = Some j -> (forall s, j <> PStr s) ->
       normalize_event json_decode e'
       = Raise (mk_exn TypeError
                  ("the JSON object must be str, bytes or bytearray, not "
                     +:+ class_name j))) /\
    (forall s, e' !! "CloudTrailEvent" = Some (PStr s) ->
       normalize_event json_decode e'
       = match json_decode s with
         | Raise err => Raise err
         | Ok j =>
             match e !! "EventTime" with
             | Some _ =>
                 Raise (mk_exn AttributeError
                          "'str' object has no attribute 'isoformat'")
             | None => Ok (<["CloudTrailEvent" := j]> e')
             end
         end) /\
    (e' !! "CloudTrailEvent" = None ->
       normalize_event json_decode e'
       = match e !! "EventTime" with
         | Some _ =>
             Raise (mk_exn AttributeError
                      "'str' object has no attribute 'isoformat'")
         | None => Ok e'
         end).
Proof.
  intros [Hdetail Htime].
  destruct (e !! "CloudTrailEvent") as [v |] eqn:Hc;
    destruct (e !! "EventTime") as [t |] eqn:Ht.
  - destruct (Hdetail v eq_refl) as (s & j & -> & Hj).
    destruct (Htime t eq_refl) as (d & -> & Hvalid & Hwhole).
    eexists. split; [apply (normalize_event_both e s j d); assumption |].
    split; [| split; [| split; [| split]]].
    + intros s' E. injection E as <-. exists j. split; [exact Hj |].
      rewrite lookup_insert_ne by discriminate. apply lookup_insert_eq.
    + intros d' E. injection E as <-.
      split; [apply lookup_insert_eq | apply PyFacts.isoformat_valid; assumption].
    + intros k Hk1 Hk2. rewrite !lookup_insert_ne by congruence. reflexivity.
    + rewrite lookup_insert_ne by discriminate. rewrite lookup_insert_eq.
      split; discriminate.
    + apply (second_pass_with_time _ (isoformat d)). apply lookup_insert_eq.
  - destruct (Hdetail v eq_refl) as (s & j & -> & Hj).
    eexists. split; [apply (normalize_event_detail e s j); assumption |].
    split; [| split; [| split; [| split]]].
    + intros s' E. injection E as <-. exists j. split; [exact Hj |].
      apply lookup_insert_eq.
    + discriminate.
    + intros k Hk1 Hk2. rewrite lookup_insert_ne by congruence. reflexivity.
    + rewrite lookup_insert_eq. split; discriminate.
    + apply second_pass_without_time.
      rewrite lookup_insert_ne by discriminate. exact Ht.
  - destruct (Htime t eq_refl) as (d & -> & Hvalid & Hwhole).
    eexists. split; [apply (normalize_event_time e d); assumption |].
    split; [| split; [| split; [| split]]].
    + discriminate.
    + intros d' E. injection E as <-.
      split; [apply lookup_insert_eq | apply PyFacts.isoformat_valid; assumption].
    + intros k Hk1 Hk2. rewrite lookup_insert_ne by congruence. reflexivity.
    + rewrite lookup_insert_ne by discriminate. rewrite Hc. split; reflexivity.
    + apply (second_pass_with_time _ (isoformat d)). apply lookup_insert_eq.
  - exists e. split; [apply normalize_event_neither; assumption |].
    split; [| split; [| split; [| split]]].
    + discriminate.
    + discriminate.
    + reflexivity.
    + rewrite Hc. split; reflexivity.
    + apply second_pass_without_time. exact Ht.
Qed.
End Decoder.

(** C2, refuted as stated: the detail of [{"CloudTrailEvent": "{}"}] is
    decoded to an empty [dict]; normalising the result again calls
    [json.loads] on that [dict] and raises a [TypeError], so the second
    pass does not return the value of the first. *)
Lemma normalize_event_not_idempotent :
  normalize_event Json.decode Samples.detail_only_event
    = Ok {[ "CloudTrailEvent" := PDict [] ]} /\
  rbind (normalize_event Json.decode Samples.detail_only_event)
        (normalize_event Json.decode)
    = Raise (mk_exn TypeError
               "the JSON object must be str, bytes or bytearray, not dict") /\
  rbind (normalize_event Json.decode Samples.detail_only_event)
        (normalize_event Json.decode)
    <> normalize_event Json.decode Samples.detail_only_event.
Proof.
  assert (H1 : normalize_event Json.decode Samples.detail_only_event
               = Ok {[ "CloudTrailEvent" := PDict [] ]}) by (vm_compute; reflexivity).
  assert (H2 : rbind (normalize_event Json.decode Samples.detail_only_event)
                     (normalize_event Json.decode)
               = Raise (mk_exn TypeError
                   "the JSON object must be str, bytes or bytearray, not dict"))
    by (vm_compute; reflexivity).
  split; [exact H1 |]. split; [exact H2 |].
  rewrite H2, H1. discriminate.
Qed.


Lemma raw_event_is_raw : raw Json.decode Samples.raw_event.
Proof.
  split.
  - intros v Hv. vm_compute in Hv. injection Hv as <-.
    exists Samples.detail_text, Samples.detail_value.
    split; [reflexivity | vm_compute; reflexivity].
  - intros t Ht. vm_compute in Ht. injection Ht as <-.
    exists Samples.evening. split; [reflexivity |].
    split; [| reflexivity].
    repeat split; vm_compute; first [reflexivity | discriminate].
Defined.

(** C2 (amended) at work on a raw event with both fields: it is
    normalised, and normalising the result again raises in [json.loads],
    which is handed the decoded [dict]. *)
Lemma normalize_event_total_once_witness :
  raw Json.decode Samples.raw_event /\
  exists e',
    normalize_event Json.decode Samples.raw_event = Ok e' /\
    e' !! "CloudTrailEvent" = Some Samples.detail_value /\
    e' !! "EventTime" = Some (PStr (isoformat Samples.evening)) /\
    is_iso8601 (isoformat Samples.evening) = true /\
    normalize_event Json.decode e'
    = Raise (mk_exn TypeError
               "the JSON object must be str, bytes or bytearray, not dict").
Proof.
  split; [exact raw_event_is_raw |].
  destruct (normalize_event_total_once Json.decode Samples.raw_event
              raw_event_is_raw)
    as (e' & Hnorm & Hdetail & Htime & _ & _ & Hagain & _).
  exists e'. split; [exact Hnorm |].
  destruct (Hdetail Samples.detail_text) as (j & Hj & Hc);
    [vm_compute; reflexivity |].
  assert (Ej : j = Samples.detail_value).
  { assert (Hd : Json.decode Samples.detail_text = Ok Samples.detail_value)
      by (vm_compute; reflexivity).
    congruence. }
  subst j. split; [exact Hc |].
  destruct (Htime Samples.evening) as [Ht Hiso]; [vm_compute; reflexivity |].
  split; [exact Ht |]. split; [exact Hiso |].
  apply (Hagain Samples.detail_value Hc). discriminate.
Defined.

End AwsNormalize.

(** ** Pagination, error isolation and propagation in the AWS collector *)

Module AwsPagination.
Import Py Eff Aws AwsMock.

Lemma after_after (w : world) r1 q1 o1 r2 q2 o2 :
  after (after w r1 q1 o1) r2 q2 o2 = after w r2 (q1 ++ q2) (o1 ++ o2).
Proof. unfold after. cbn. rewrite <- !app_assoc. reflexivity. Qed.

Lemma after_nil (w : world) : after w (script w) [] [] = w.
Proof. destruct w. unfold after. cbn. rewrite !app_nil_r. reflexivity. Qed.

Lemma script_after (w : world) r q o : script (after w r q o) = r.
Proof. reflexivity. Qed.

(** The loops over regions and accounts run their list in order: a list
    [l1 ++ l2] is [l1] followed by [l2]. *)
Section Loops.
Context {W : Type}.
Variable json_decode : string -> result pyval.
Variable P : api W.

Lemma bind_ext {A B} (m : M W A) (f g : A -> M W B) (w : W) :
  (forall a w', f a w' = g a w') -> bind m f w = bind m g w.
Proof.
  intros H. unfold bind. destruct (m w) as [[[a | e] w'] |]; auto.
Qed.

Lemma bind_assoc {A B C} (m : M W A) (f : A -> M W B) (g : B -> M W C) (w : W) :
  bind (bind m f) g w = bind m (fun a => bind (f a) g) w.
Proof.
  unfold bind. destruct (m w) as [[[a | e] w'] |]; reflexivity.
Qed.

Lemma for_regions_app (fuel : nat) s st en (l1 l2 : list string) :
  forall acc w,
    Aws.for_regions json_decode P fuel s (l1 ++ l2) st en acc w
    = bind (Aws.for_regions json_decode P fuel s l1 st en acc)
           (fun acc' => Aws.for_regions json_decode P fuel s l2 st en acc') w.
Proof.
  induction l1 as [| r l1 IH]; intros acc w; [reflexivity |].
  cbn [app Aws.for_regions]. rewrite bind_assoc.
  apply bind_ext. intros _ w1. rewrite bind_assoc.
  apply bind_ext. intros acc1 w2. apply IH.
Qed.

Lemma for_accounts_app (fuel : nat) role st en (l1 l2 : list string) :
  forall acc w,
    Aws.for_accounts json_decode P fuel (l1 ++ l2) role st en acc w
    = bind (Aws.for_accounts json_decode P fuel l1 role st en acc)
           (fun acc' => Aws.for_accounts json_decode P fuel l2 role st en acc') w.
Proof.
  induction l1 as [| a l1 IH]; intros acc w; [reflexivity |].
  cbn [app Aws.for_accounts]. rewrite bind_assoc.
  apply bind_ext. intros s w1. rewrite bind_assoc.
  apply bind_ext. intros infos w2. rewrite bind_assoc.
  apply bind_ext. intros acc1 w3. apply IH.
Qed.
End Loops.

Section Decoder.
Variable json_decode : string -> result pyval.


(** One round of the loop on an answer [c] of the script. *)
Lemma paginate_round (fuel : nat) s region st en tok acc (w : world) c rest :
  script w = c :: rest ->
  paginate json_decode mock (S fuel) s region st en tok acc w
  = let rq := mk_request s region st en (sent_token tok) in
    match closing_result json_decode c with
    | Ok evs =>
        let w' := after w rest [rq]
                    ["Collected " +:+ pretty (length evs)
                       +:+ " events from region " +:+ region] in
        match c with
        | Ok p =>
            if token_truthy (NextToken p)
            then paginate json_decode mock fuel s region st en (NextToken p) (acc ++ evs) w'
            else Some (Ok (acc ++ evs), w')
        | Raise _ => None
        end
    | Raise e =>
        if is_ClientError e
        then Some (Ok acc, after w rest [rq] [region_error_message region e])
        else Some (Raise e, after w rest [rq] [])
    end.
Proof.
  intros Hs.
  cbn [Aws.paginate].
  unfold bind at 1, try_except, bind at 1.
  assert (Hcall :
    (if token_truthy tok
     then call (cloudtrail_lookup_events mock (mk_request s region st en tok))
     else call (cloudtrail_lookup_events mock (mk_request s region st en None))) w
    = Some (c, after w rest [mk_request s region st en (sent_token tok)] [])).
  { unfold sent_token, call, after. cbn.
    destruct (token_truthy tok); unfold mock_lookup_events;
      rewrite Hs, app_nil_r; reflexivity. }
  rewrite Hcall.
  destruct c as [p | e]; cbn [closing_result rbind].
  - unfold bind, lift. destruct (normalize_page json_decode p) as [evs | e].
    + cbn. unfold mock_print, after. cbn. rewrite app_nil_r.
      destruct (token_truthy (NextToken p)); reflexivity.
    + destruct (is_ClientError e); [| reflexivity].
      cbn. unfold mock_print, after. cbn. rewrite !app_nil_r. reflexivity.
  - destruct (is_ClientError e); [| reflexivity].
    cbn. unfold mock_print, after. cbn. rewrite !app_nil_r. reflexivity.
Qed.


Lemma sent_token_truthy (t : option string) :
  token_truthy t = true -> sent_token t = t.
Proof. unfold sent_token. intros ->. reflexivity. Qed.

Lemma pages_events_cons (p : response) (ps : list response) (evs : list event) :
  normalize_page json_decode p = Ok evs ->
  pages_events json_decode (p :: ps) = evs ++ pages_events json_decode ps.
Proof.
  intros H. unfold pages_events. cbn [map concat]. unfold page_events at 1.
  rewrite H. reflexivity.
Qed.

(** The loop of one region against the script of a well-formed visit:
    it consumes exactly that script, sends the tokens of the visit, and
    ends as [visit_outcome] says. *)
Lemma paginate_visit s region st en (ps : list response) :
  forall (c : result response) (fuel : nat) tok acc (w : world) rest,
    visit_wf json_decode (mk_visit ps c) ->
    script w = visit_script (mk_visit ps c) ++ rest ->
    (length (visit_script (mk_visit ps c)) <= fuel)%nat ->
    exists out,
      paginate json_decode mock fuel s region st en tok acc w
      = Some (extended acc (visit_outcome json_decode (mk_visit ps c)),
              after w rest
                (map (mk_request s region st en) (sent_token tok :: map NextToken ps))
                out).
Proof.
  induction ps as [| p ps IH]; intros c fuel tok acc w rest [Hcont Hclose] Hs Hfuel;
    cbn [visit_script continuing closing map app length] in *.
  - destruct fuel as [| fuel]; [lia |].
    rewrite (paginate_round fuel s region st en tok acc w c rest Hs). cbn zeta.
    unfold visit_outcome, extended. cbn [continuing closing].
    change (pages_events json_decode []) with (@nil event).
    destruct (closing_result json_decode c) as [evs | e] eqn:Hc.
    + destruct c as [p | e]; [| discriminate]. cbn in Hc.
      rewrite Hclose by (exists evs; exact Hc). eauto.
    + destruct (is_ClientError e); [rewrite app_nil_r |]; eauto.
  - apply Forall_cons in Hcont as [[[evs Hevs] Htok] Hcont].
    rewrite length_app in Hfuel. cbn in Hfuel.
    destruct fuel as [| fuel]; [lia |].
    rewrite (paginate_round fuel s region st en tok acc w (Ok p)
               (map Ok ps ++ [c] ++ rest)) by (rewrite Hs, <- app_assoc; reflexivity).
    cbn [closing_result rbind]. rewrite Hevs. cbn zeta. rewrite Htok.
    match goal with
    | |- context [paginate json_decode mock fuel _ _ _ _ _ _ ?w'] =>
        destruct (IH c fuel (NextToken p) (acc ++ evs) w' rest) as [out Hout]
    end.
    + split; [exact Hcont | exact Hclose].
    + rewrite script_after. apply app_assoc.
    + cbn [visit_script continuing closing]. rewrite length_app. cbn. lia.
    + rewrite Hout, after_after. rewrite (sent_token_truthy _ Htok).
      eexists. f_equal. f_equal.
      unfold visit_outcome, extended. cbn [continuing closing].
      rewrite (pages_events_cons p ps evs Hevs).
      destruct (closing_result json_decode c) as [evs' | e].
      * rewrite <- !app_assoc. reflexivity.
      * destruct (is_ClientError e); [rewrite <- app_assoc |]; reflexivity.
Qed.


Lemma pages_events_app (ps qs : list response) :
  pages_events json_decode (ps ++ qs)
  = pages_events json_decode ps ++ pages_events json_decode qs.
Proof. unfold pages_events. rewrite map_app. apply concat_app. Qed.

Lemma pages_events_concat (ps : list response) (evss : list (list event)) :
  Forall2 (fun p evs => normalize_page json_decode p = Ok evs) ps evss ->
  pages_events json_decode ps = concat evss.
Proof.
  induction 1 as [| p evs ps evss Hp _ IH]; [reflexivity |].
  rewrite (pages_events_cons p ps evs Hp), IH. reflexivity.
Qed.

Lemma Forall2_page_ok (ps : list response) (evss : list (list event)) :
  Forall2 (fun p evs => normalize_page json_decode p = Ok evs) ps evss ->
  Forall (page_ok json_decode) ps.
Proof. induction 1; constructor; [eexists; eassumption | assumption]. Qed.

(** C1: the loop of one region against a sequence of pages, all but the
    last of which return a (non-empty) continuation token and whose
    events normalise.  With fuel for [length pages] rounds, it issues
    exactly [length pages] lookup requests, the first without a token
    and each later one with the token of the page before; it stops at
    the page without a token, leaving the rest of the script untouched;
    and it returns the events so far followed by the (normalised) events
    of all pages in request order. *)
Theorem paginate_pages s region st en (fuel : nat) (w : world)
    (pages : list response) (last : response)
    (evss : list (list event)) (acc : list event)
    (rest : list (result response)) :
  Forall (fun p => token_truthy (NextToken p) = true) pages ->
  token_truthy (NextToken last) = false ->
  Forall2 (fun p evs => normalize_page json_decode p = Ok evs)
          (pages ++ [last]) evss ->
  script w = map Ok (pages ++ [last]) ++ rest ->
  (length (pages ++ [last]) <= fuel)%nat ->
  exists w' reqs,
    paginate json_decode mock fuel s region st en None acc w = Some (Ok (acc ++ concat evss), w') /\
    requests w' = requests w ++ reqs /\
    length reqs = length (pages ++ [last]) /\
    reqs = map (mk_request s region st en) (None :: map NextToken pages) /\
    script w' = rest.
Proof.
  intros Htok Hlast Hnorm Hs Hfuel.
  pose proof (Forall2_page_ok _ _ Hnorm) as Hok.
  apply Forall_app in Hok as [Hok Hoklast].
  apply Forall_cons in Hoklast as [[evl Hevl] _].
  destruct (paginate_visit s region st en pages (Ok last) fuel None acc w rest)
    as [out Hout].
  - split; cbn [continuing closing].
    + apply Forall_forall. intros p Hp. split.
      * exact (proj1 (Forall_forall _ _) Hok p Hp).
      * exact (proj1 (Forall_forall _ _) Htok p Hp).
    + intros _. exact Hlast.
  - rewrite Hs. unfold visit_script. cbn [continuing closing].
    rewrite map_app. reflexivity.
  - unfold visit_script. cbn [continuing closing].
    rewrite length_app, length_map. rewrite length_app in Hfuel. exact Hfuel.
  - eexists _, _. split; [| split; [| split; [| split]]].
    + rewrite Hout. f_equal. f_equal.
      unfold visit_outcome, extended. cbn [continuing closing closing_result rbind].
      rewrite Hevl. f_equal. f_equal.
      rewrite <- (pages_events_concat _ _ Hnorm), pages_events_app.
      rewrite (pages_events_cons last [] evl Hevl).
      change (pages_events json_decode []) with (@nil event).
      rewrite app_nil_r. reflexivity.
    + reflexivity.
    + cbn [map length]. rewrite !length_map, length_app. cbn. lia.
    + reflexivity.
    + reflexivity.
Qed.

End Decoder.

(** An empty token counts as no token: the loop stops after the first
    request and the second page stays in the script. *)
Example empty_token_ends_loop :
  option_map (fun r => (fst r, map rq_NextToken (requests (snd r)), script (snd r)))
    (Aws.paginate Json.decode mock 5 Samples.audit_session "eu-north-1"
       Samples.noon Samples.evening None [] Samples.empty_token_world)
  = Some (Ok [Samples.role_event], [None], [Ok Samples.page2]).
Proof. vm_compute. reflexivity. Qed.

(** C1 at work: two scripted pages, two requests, the second one with
    the token ["t1"] of the first page. *)
Lemma paginate_pages_witness :
  exists w' reqs,
    Aws.paginate Json.decode mock 2 Samples.audit_session "eu-north-1"
      Samples.noon Samples.evening None [] Samples.two_page_world
    = Some (Ok ([] ++ concat [[Samples.raw_event_normalized];
                              [Samples.detail_only_event_normalized]]), w') /\
    requests w' = requests Samples.two_page_world ++ reqs /\
    length reqs = length ([Samples.page1] ++ [Samples.page2]) /\
    reqs = map (mk_request Samples.audit_session "eu-north-1"
                  Samples.noon Samples.evening)
               (None :: map NextToken [Samples.page1]) /\
    script w' = [].
Proof.
  apply (paginate_pages Json.decode Samples.audit_session "eu-north-1"
           Samples.noon Samples.evening 2 Samples.two_page_world
           [Samples.page1] Samples.page2).
  - repeat constructor.
  - reflexivity.
  - repeat constructor; vm_compute; reflexivity.
  - reflexivity.
  - simpl. lia.
Defined.

End AwsPagination.

Module AwsIsolation.
Import Py Eff Aws AwsMock AwsPagination.

Lemma mock_print_after (line : string) (w : world) :
  mock_print line w = after w (script w) [] [line].
Proof. destruct w. unfold mock_print, after. cbn. rewrite app_nil_r. reflexivity. Qed.

Section Decoder.
Variable json_decode : string -> result pyval.


(** The first region of the list, against the script of its visit. *)
Lemma for_regions_step (fuel : nat) s st en (r : region_info) (v : visit)
    (names : list string) acc (w : world) rest :
  visit_wf json_decode v ->
  script w = visit_script v ++ rest ->
  (length (visit_script v) <= fuel)%nat ->
  exists out,
    for_regions json_decode mock fuel s (RegionName r :: names) st en acc w
    = match visit_outcome json_decode v with
      | Ok evs =>
          for_regions json_decode mock fuel s names st en (acc ++ evs)
            (after w rest (visit_requests s (RegionName r) st en v) out)
      | Raise e =>
          Some (Raise e, after w rest (visit_requests s (RegionName r) st en v) out)
      end.
Proof.
  intros Hwf Hs Hfuel. destruct v as [ps c].
  cbn [Aws.for_regions]. unfold bind, effect. cbn [print mock].
  rewrite mock_print_after.
  match goal with
  | |- context [after w (script w) [] ?o] =>
      destruct (paginate_visit json_decode s (RegionName r) st en ps c fuel
                  None acc (after w (script w) [] o) rest Hwf) as [out Hout];
        [rewrite script_after; exact Hs | exact Hfuel |]
  end.
  rewrite Hout, after_after. cbn [app].
  unfold extended, visit_requests, visit_tokens. cbn [continuing closing].
  change (sent_token None) with (@None string).
  destruct (visit_outcome json_decode (mk_visit ps c)); eauto.
Qed.

(** Regions whose visits all leave the loop normally. *)
Lemma for_regions_collects (fuel : nat) s st en
    (rvs : list (region_info * visit)) :
  Forall (fun rv => visit_collects json_decode (snd rv)) rvs ->
  Forall (fun rv => (length (visit_script (snd rv)) <= fuel)%nat) rvs ->
  forall acc (w : world) rest,
    script w = regions_script rvs ++ rest ->
    exists out,
      for_regions json_decode mock fuel s (map RegionName (map fst rvs)) st en acc w
      = Some (Ok (acc ++ visits_events json_decode (map snd rvs)),
              after w rest (regions_requests s st en rvs) out).
Proof.
  induction rvs as [| [r v] rvs IH]; intros Hcol Hfuel acc w rest Hs.
  - cbn in Hs. subst rest. exists []. cbn [map Aws.for_regions].
    unfold ret, visits_events, regions_requests. cbn [map concat].
    rewrite app_nil_r, after_nil. reflexivity.
  - apply Forall_cons in Hcol as [[Hwf [evs Hevs]] Hcol].
    apply Forall_cons in Hfuel as [Hlen Hfuel]. cbn [fst snd] in *.
    unfold regions_script in Hs. cbn [map concat fst snd] in Hs.
    rewrite <- app_assoc in Hs.
    destruct (for_regions_step fuel s st en r v (map RegionName (map fst rvs))
                acc w _ Hwf Hs Hlen) as [out1 H1].
    cbn [map fst snd]. rewrite H1, Hevs.
    edestruct (IH Hcol Hfuel (acc ++ evs)) as [out2 H2];
      [rewrite script_after; reflexivity |].
    rewrite H2, after_after. eexists. f_equal. f_equal.
    unfold visits_events. cbn [map concat]. unfold visit_events at 2.
    rewrite Hevs, app_assoc. reflexivity.
Qed.


(** A region whose visit lets an exception out, after regions that were
    collected: the exception leaves the loop over regions, and the
    regions behind it are not visited. *)
Lemma for_regions_propagates (fuel : nat) s st en
    (rvs1 rvs2 : list (region_info * visit)) (r : region_info) (v : visit)
    (e : exn) acc (w : world) rest :
  Forall (fun rv => visit_collects json_decode (snd rv)) rvs1 ->
  visit_propagates json_decode v e ->
  Forall (fun rv => (length (visit_script (snd rv)) <= fuel)%nat)
         (rvs1 ++ [(r, v)]) ->
  script w = regions_script (rvs1 ++ [(r, v)]) ++ rest ->
  exists out,
    for_regions json_decode mock fuel s (map RegionName (map fst (rvs1 ++ (r, v) :: rvs2)))
      st en acc w
    = Some (Raise e, after w rest (regions_requests s st en (rvs1 ++ [(r, v)])) out).
Proof.
  intros Hcol [Hwf Hout] Hfuel Hs.
  apply Forall_app in Hfuel as [Hfuel1 Hfuelv].
  apply Forall_cons in Hfuelv as [Hlen _]. cbn [snd] in Hlen.
  unfold regions_script in Hs. rewrite map_app, map_app, concat_app in Hs.
  cbn [map concat snd] in Hs. rewrite app_nil_r, <- app_assoc in Hs.
  rewrite !map_app, for_regions_app.
  destruct (for_regions_collects fuel s st en rvs1 Hcol Hfuel1 acc w _ Hs)
    as [out1 H1].
  unfold bind at 1. rewrite H1. cbn [map fst].
  edestruct (for_regions_step fuel s st en r v (map RegionName (map fst rvs2))
               (acc ++ visits_events json_decode (map snd rvs1))) as [out2 H2];
    [exact Hwf | rewrite script_after; reflexivity | exact Hlen |].
  rewrite H2, Hout, after_after. eexists. f_equal. f_equal. f_equal.
  unfold regions_requests. rewrite map_app, concat_app. cbn [map concat fst snd].
  rewrite app_nil_r. reflexivity.
Qed.

(** The first account of the list: the role is assumed, the regions are
    listed, and the loop over them runs. *)
Lemma for_accounts_step (fuel : nat) role st en (a : account_plan)
    (accounts : list string) acc (w : world) :
  plan_served w role a ->
  for_accounts json_decode mock fuel (ap_account a :: accounts) role st en acc w
  = bind (for_regions json_decode mock fuel (session_of (ap_credentials a))
            (map RegionName (map fst (ap_regions a))) st en acc)
         (fun acc' => for_accounts json_decode mock fuel accounts role st en acc')
         (after w (script w) [] ["Assuming role in account: " +:+ ap_account a]).
Proof.
  intros [Hsts Hec2]. unfold role_arn_of in Hsts.
  cbn [Aws.for_accounts]. unfold assume_role, bind, effect, call, ret.
  cbn [print sts_assume_role ec2_describe_regions mock].
  rewrite mock_print_after. unfold mock_assume_role, mock_describe_regions.
  cbn [sts ec2 after]. rewrite Hsts.
  change (mk_session (AccessKeyId (ap_credentials a))
            (SecretAccessKey (ap_credentials a)) (SessionToken (ap_credentials a)))
    with (session_of (ap_credentials a)).
  replace (ec2 (after w (script w) []
                  ["Assuming role in account: " +:+ ap_account a]))
    with (ec2 w) by reflexivity.
  rewrite Hec2. reflexivity.
Qed.

(** Accounts whose regions are all collected. *)
Lemma for_accounts_collects (fuel : nat) role st en (plan : list account_plan) :
  Forall (visit_collects json_decode) (plan_visits plan) ->
  Forall (fun v => (length (visit_script v) <= fuel)%nat) (plan_visits plan) ->
  forall acc (w : world) rest,
    Forall (plan_served w role) plan ->
    script w = plan_script plan ++ rest ->
    exists out,
      for_accounts json_decode mock fuel (map ap_account plan) role st en acc w
      = Some (Ok (acc ++ visits_events json_decode (plan_visits plan)),
              after w rest (plan_requests st en plan) out).
Proof.
  induction plan as [| a plan IH]; intros Hcol Hfuel acc w rest Hserved Hs.
  - cbn in Hs. subst rest. exists []. cbn [map Aws.for_accounts].
    unfold ret, visits_events, plan_requests, plan_visits. cbn [map concat].
    rewrite app_nil_r, after_nil. reflexivity.
  - apply Forall_cons in Hserved as [Ha Hserved].
    unfold plan_visits in Hcol, Hfuel. cbn [map concat] in Hcol, Hfuel.
    apply Forall_app in Hcol as [Hcola Hcol].
    apply Forall_app in Hfuel as [Hfuela Hfuel].
    unfold plan_script, plan_visits in Hs. cbn [map concat] in Hs.
    rewrite map_app, concat_app, <- app_assoc in Hs.
    cbn [map]. rewrite (for_accounts_step fuel role st en a _ acc w Ha).
    edestruct (for_regions_collects fuel (session_of (ap_credentials a)) st en
                 (ap_regions a)) as [out1 H1];
      [ apply (proj1 (List.Forall_map snd (visit_collects json_decode)
                        (ap_regions a))); exact Hcola
      | apply (proj1 (List.Forall_map snd
                        (fun v => (length (visit_script v) <= fuel)%nat)
                        (ap_regions a))); exact Hfuela
      | rewrite script_after; exact Hs |].
    unfold bind. rewrite H1, after_after.
    match goal with
    | |- context [Aws.for_accounts _ _ _ _ _ _ _ ?acc1 ?w1] =>
        destruct (IH Hcol Hfuel acc1 w1 rest) as [out2 H2];
          [exact Hserved | reflexivity |]
    end.
    rewrite H2, after_after. eexists. f_equal. f_equal.
    unfold visits_events, plan_visits. cbn [map concat].
    rewrite map_app, concat_app, app_assoc. reflexivity.
Qed.


Lemma succeeds_collects (v : visit) :
  visit_succeeds json_decode v -> visit_collects json_decode v.
Proof.
  intros [Hwf (p & Hp & evs & Hevs)]. split; [exact Hwf |].
  unfold visit_outcome. rewrite Hp. cbn [closing_result rbind]. rewrite Hevs. eauto.
Qed.

(** The events of a visit that succeeds are the normalised events of
    all its pages. *)
Lemma visit_events_succeeds (v : visit) (p : response) :
  closing v = Ok p -> page_ok json_decode p ->
  visit_events json_decode v = pages_events json_decode (continuing v ++ [p]).
Proof.
  intros Hp [evs Hevs]. unfold visit_events, visit_outcome.
  rewrite Hp. cbn [closing_result rbind]. rewrite Hevs.
  rewrite pages_events_app, (pages_events_cons json_decode p [] evs Hevs).
  change (pages_events json_decode []) with (@nil event).
  rewrite app_nil_r. reflexivity.
Qed.

Lemma fails_at_once_collects (v : visit) :
  visit_fails_at_once v ->
  visit_collects json_decode v /\ visit_events json_decode v = [].
Proof.
  destruct v as [ps c]. intros [Hps (e & Hc & He)]. cbn in Hps, Hc. subst ps c.
  unfold visit_collects, visit_wf, visit_events, visit_outcome.
  cbn [continuing closing closing_result rbind]. rewrite He.
  repeat split; eauto.
Qed.

Lemma fails_midway_collects (v : visit) :
  visit_fails_midway json_decode v ->
  visit_collects json_decode v /\
  visit_events json_decode v = pages_events json_decode (continuing v).
Proof.
  destruct v as [ps c]. intros (Hwf & _ & e & Hc & He). cbn in Hc. subst c.
  unfold visit_collects, visit_events, visit_outcome.
  cbn [continuing closing closing_result rbind]. rewrite He.
  repeat split; eauto. apply Hwf.
Qed.

Lemma visits_events_app (vs1 vs2 : list visit) :
  visits_events json_decode (vs1 ++ vs2)
  = visits_events json_decode vs1 ++ visits_events json_decode vs2.
Proof. unfold visits_events. rewrite map_app. apply concat_app. Qed.

(** C3 (amended): region error isolation for a [ClientError].  The
    visits of a run, over all accounts and regions in order, are
    [vs1 ++ vk :: vs2]: the first request of [vk] raises a [ClientError],
    every other visit ends on a page without a token.  Then
    [get_cloudtrail_logs] returns exactly the events of the other
    visits, none from [vk], and it goes on past [vk]: every request of
    the regions and accounts behind it is issued and the whole script is
    consumed. *)
Theorem region_error_isolation (fuel : nat) role st en
    (plan : list account_plan) (vs1 vs2 : list visit) (vk : visit)
    (w : world) rest :
  Forall (plan_served w role) plan ->
  plan_visits plan = vs1 ++ vk :: vs2 ->
  Forall (visit_succeeds json_decode) (vs1 ++ vs2) ->
  visit_fails_at_once vk ->
  Forall (fun v => (length (visit_script v) <= fuel)%nat) (plan_visits plan) ->
  script w = plan_script plan ++ rest ->
  exists w',
    get_cloudtrail_logs json_decode mock fuel (map ap_account plan) role st en w
    = Some (Ok (visits_events json_decode (vs1 ++ vs2)), w') /\
    requests w' = requests w ++ plan_requests st en plan /\
    script w' = rest.
Proof.
  intros Hserved Hvisits Hsucc Hfail Hfuel Hs.
  destruct (fails_at_once_collects vk Hfail) as [Hcolk Hevk].
  apply Forall_app in Hsucc as [Hs1 Hs2].
  assert (Hcol : Forall (visit_collects json_decode) (plan_visits plan)).
  { rewrite Hvisits. apply Forall_app. split; [| constructor]; try exact Hcolk;
      eapply Forall_impl; eauto using succeeds_collects. }
  destruct (for_accounts_collects fuel role st en plan Hcol Hfuel [] w rest
              Hserved Hs) as [out Hout].
  exists (after w rest (plan_requests st en plan) out).
  split; [| split; reflexivity].
  unfold get_cloudtrail_logs. rewrite Hout. cbn [app].
  rewrite Hvisits, !visits_events_app.
  change (vk :: vs2) with ([vk] ++ vs2). rewrite visits_events_app.
  unfold visits_events at 2. cbn [map concat]. rewrite Hevk. reflexivity.
Qed.

(** C4 (amended): a [ClientError] partway through the pagination of a
    region.  The visit [vk] fetches one or more pages and then meets a
    [ClientError]; every other visit ends on a page without a token.
    The loop of that region is left without a retry, the run goes on
    with the regions and accounts behind it, and the events of the pages
    already fetched for that region stay in the result. *)
Theorem midway_error_keeps_pages (fuel : nat) role st en
    (plan : list account_plan) (vs1 vs2 : list visit) (vk : visit)
    (w : world) rest :
  Forall (plan_served w role) plan ->
  plan_visits plan = vs1 ++ vk :: vs2 ->
  Forall (visit_succeeds json_decode) (vs1 ++ vs2) ->
  visit_fails_midway json_decode vk ->
  Forall (fun v => (length (visit_script v) <= fuel)%nat) (plan_visits plan) ->
  script w = plan_script plan ++ rest ->
  exists w',
    get_cloudtrail_logs json_decode mock fuel (map ap_account plan) role st en w
    = Some (Ok (visits_events json_decode vs1
                  ++ pages_events json_decode (continuing vk)
                  ++ visits_events json_decode vs2), w') /\
    requests w' = requests w ++ plan_requests st en plan /\
    script w' = rest.
Proof.
  intros Hserved Hvisits Hsucc Hfail Hfuel Hs.
  destruct (fails_midway_collects vk Hfail) as [Hcolk Hevk].
  apply Forall_app in Hsucc as [Hs1 Hs2].
  assert (Hcol : Forall (visit_collects json_decode) (plan_visits plan)).
  { rewrite Hvisits. apply Forall_app. split; [| constructor]; try exact Hcolk;
      eapply Forall_impl; eauto using succeeds_collects. }
  destruct (for_accounts_collects fuel role st en plan Hcol Hfuel [] w rest
              Hserved Hs) as [out Hout].
  exists (after w rest (plan_requests st en plan) out).
  split; [| split; reflexivity].
  unfold get_cloudtrail_logs. rewrite Hout. cbn [app].
  rewrite Hvisits, visits_events_app.
  change (vk :: vs2) with ([vk] ++ vs2). rewrite visits_events_app.
  unfold visits_events at 2. cbn [map concat]. rewrite Hevk, app_nil_r.
  reflexivity.
Qed.


(** C8: only a [ClientError] is caught by the handler of the region
    loop.  The accounts of [plan1] and the regions [rvs1] of the account
    [a] are collected; in the next region [r], a page is processed (its
    request or its normalisation, after any number of earlier pages of
    that region) and raises an exception [e] that is not a
    [ClientError], a [JSONDecodeError] for instance.  Then [e] leaves
    [get_cloudtrail_logs], whatever events were collected before are
    not returned, and the regions [rvs2] and accounts [plan2] behind are
    never visited: no request is issued for them and their part of the
    script, [rest], is left untouched. *)
Theorem other_exception_propagates (fuel : nat) role st en
    (plan1 plan2 : list account_plan) (a : account_plan)
    (rvs1 rvs2 : list (region_info * visit)) (r : region_info) (v : visit)
    (e : exn) (w : world) rest :
  Forall (plan_served w role) (plan1 ++ [a]) ->
  ap_regions a = rvs1 ++ (r, v) :: rvs2 ->
  Forall (visit_collects json_decode) (plan_visits plan1 ++ map snd rvs1) ->
  visit_wf json_decode v ->
  closing_result json_decode (closing v) = Raise e ->
  is_ClientError e = false ->
  Forall (fun v => (length (visit_script v) <= fuel)%nat)
         (plan_visits plan1 ++ map snd (rvs1 ++ [(r, v)])) ->
  script w = plan_script plan1 ++ regions_script (rvs1 ++ [(r, v)]) ++ rest ->
  exists w',
    get_cloudtrail_logs json_decode mock fuel
      (map ap_account (plan1 ++ a :: plan2)) role st en w
    = Some (Raise e, w') /\
    requests w'
    = requests w ++ plan_requests st en plan1
        ++ regions_requests (session_of (ap_credentials a)) st en
             (rvs1 ++ [(r, v)]) /\
    script w' = rest.
Proof.
  intros Hserved Hregions Hcol Hwf Hclose Hother Hfuel Hs.
  apply Forall_app in Hserved as [Hserved1 Ha].
  apply Forall_cons in Ha as [Ha _].
  apply Forall_app in Hcol as [Hcol1 Hcolr].
  apply Forall_app in Hfuel as [Hfuel1 Hfuelr].
  assert (Hprop : visit_propagates json_decode v e).
  { split; [exact Hwf |]. unfold visit_outcome. rewrite Hclose, Hother. reflexivity. }
  unfold get_cloudtrail_logs. rewrite map_app, for_accounts_app.
  destruct (for_accounts_collects fuel role st en plan1 Hcol1 Hfuel1 [] w _
              Hserved1 Hs) as [out1 H1].
  unfold bind at 1. rewrite H1. cbn [map].
  rewrite (for_accounts_step fuel role st en a) by exact Ha.
  rewrite Hregions.
  edestruct (for_regions_propagates fuel (session_of (ap_credentials a)) st en
               rvs1 rvs2 r v e) as [out2 H2];
    [ apply (proj1 (List.Forall_map snd (visit_collects json_decode) rvs1));
      exact Hcolr
    | exact Hprop
    | apply (proj1 (List.Forall_map snd
                      (fun v => (length (visit_script v) <= fuel)%nat)
                      (rvs1 ++ [(r, v)]))); exact Hfuelr
    | | ].
  2: { unfold bind. rewrite H2, !after_after.
       eexists. split; [reflexivity |]. split; [| reflexivity].
       cbn [requests after app]. reflexivity. }
  rewrite !script_after. reflexivity.
Qed.

End Decoder.

End AwsIsolation.

(** ** The AWS properties on the sample runs *)

Module AwsRuns.
Import Py Eff Aws AwsMock Samples.

Lemma page1_ok : page_ok Json.decode page1.
Proof. exists [raw_event_normalized]. vm_compute. reflexivity. Qed.

Lemma page2_ok : page_ok Json.decode page2.
Proof. exists [detail_only_event_normalized]. vm_compute. reflexivity. Qed.

Lemma page3_ok : page_ok Json.decode page3.
Proof. exists [role_event]. vm_compute. reflexivity. Qed.

Lemma two_pages_visit_succeeds : visit_succeeds Json.decode two_pages_visit.
Proof.
  split; [split |].
  - repeat constructor. exact page1_ok.
  - intros _. reflexivity.
  - exists page2. split; [reflexivity | exact page2_ok].
Qed.

Lemma one_page_visit_succeeds : visit_succeeds Json.decode one_page_visit.
Proof.
  split; [split |].
  - constructor.
  - intros _. reflexivity.
  - exists page3. split; [reflexivity | exact page3_ok].
Qed.

Lemma sample_plan_served (v : visit) :
  Forall (plan_served (sample_world v) "SecurityAuditRole") (sample_plan v).
Proof. repeat constructor. Qed.

(** C3 (amended) at work: us-east-1 answers its first request with an
    [UnrecognizedClientException]; the run returns the events of
    eu-north-1 and eu-west-1 and issues all four requests. *)
Lemma region_error_isolation_witness :
  exists w',
    get_cloudtrail_logs Json.decode mock 5
      (map ap_account (sample_plan denied_visit)) "SecurityAuditRole"
      noon evening (sample_world denied_visit)
    = Some (Ok (visits_events Json.decode ([two_pages_visit] ++ [one_page_visit])),
            w') /\
    requests w'
    = requests (sample_world denied_visit)
        ++ plan_requests noon evening (sample_plan denied_visit) /\
    script w' = [].
Proof.
  apply (AwsIsolation.region_error_isolation Json.decode 5 "SecurityAuditRole"
           noon evening (sample_plan denied_visit)
           [two_pages_visit] [one_page_visit] denied_visit
           (sample_world denied_visit) []).
  - apply sample_plan_served.
  - reflexivity.
  - constructor; [exact two_pages_visit_succeeds |].
    constructor; [exact one_page_visit_succeeds | constructor].
  - split; [reflexivity |]. exists denied. split; reflexivity.
  - repeat constructor; simpl; lia.
  - symmetry. apply app_nil_r.
Defined.

(** C3, refuted as stated: us-east-1 raises an error on its first page
    request that is not a [ClientError] (the endpoint cannot be
    reached), eu-north-1 and eu-west-1 would succeed.  The run returns
    no events at all: the error leaves [get_cloudtrail_logs] after three
    requests, and eu-west-1 is never queried (its page is still in the
    script). *)
Lemma region_error_not_isolated :
  option_map fst (sample_run unreachable_visit) = Some (Raise unreachable) /\
  option_map (fun r => length (requests (snd r))) (sample_run unreachable_visit)
    = Some 3%nat /\
  option_map (fun r => script (snd r)) (sample_run unreachable_visit)
    = Some [Ok page3].
Proof. repeat split; vm_compute; reflexivity. Qed.

Lemma throttled_visit_fails_midway : visit_fails_midway Json.decode throttled_visit.
Proof.
  split; [split | split].
  - repeat constructor. exact page1_ok.
  - exact I.
  - discriminate.
  - exists throttled. split; reflexivity.
Qed.

(** C4 (amended) at work: us-east-1 hands out one page and then raises
    a [ThrottlingException]; the event of that page is in the result,
    between the events of eu-north-1 and of eu-west-1. *)
Lemma midway_error_keeps_pages_witness :
  exists w',
    get_cloudtrail_logs Json.decode mock 5
      (map ap_account (sample_plan throttled_visit)) "SecurityAuditRole"
      noon evening (sample_world throttled_visit)
    = Some (Ok (visits_events Json.decode [two_pages_visit]
                  ++ pages_events Json.decode (continuing throttled_visit)
                  ++ visits_events Json.decode [one_page_visit]), w') /\
    requests w'
    = requests (sample_world throttled_visit)
        ++ plan_requests noon evening (sample_plan throttled_visit) /\
    script w' = [].
Proof.
  apply (AwsIsolation.midway_error_keeps_pages Json.decode 5 "SecurityAuditRole"
           noon evening (sample_plan throttled_visit)
           [two_pages_visit] [one_page_visit] throttled_visit
           (sample_world throttled_visit) []).
  - apply sample_plan_served.
  - reflexivity.
  - constructor; [exact two_pages_visit_succeeds |].
    constructor; [exact one_page_visit_succeeds | constructor].
  - exact throttled_visit_fails_midway.
  - repeat constructor; simpl; lia.
  - symmetry. apply app_nil_r.
Defined.

(** C4, refuted as stated: the only region, us-east-1, returns a first
    page with one event and a token, and raises a [ClientError] on the
    second request.  The event of the first page is in the returned
    list: the partial results of the failing region are not dropped. *)
Lemma midway_error_pages_not_dropped :
  option_map fst lone_run = Some (Ok [raw_event_normalized]) /\
  option_map (fun r => map rq_region (requests (snd r))) lone_run
    = Some ["us-east-1"; "us-east-1"].
Proof. split; vm_compute; reflexivity. Qed.

(** C8 at work: the second page of us-east-1 holds a detail that is not
    JSON; the [JSONDecodeError] leaves [get_cloudtrail_logs], and
    eu-west-1 in the second account is never queried. *)
Lemma other_exception_propagates_witness :
  exists w',
    get_cloudtrail_logs Json.decode mock 5
      (map ap_account ([] ++ main_account broken_visit :: [second_account]))
      "SecurityAuditRole" noon evening (sample_world broken_visit)
    = Some (Raise decode_error, w') /\
    requests w'
    = requests (sample_world broken_visit) ++ plan_requests noon evening []
        ++ regions_requests (session_of audit_credentials) noon evening
             ([(eu_north, two_pages_visit)] ++ [(us_east, broken_visit)]) /\
    script w' = visit_script one_page_visit.
Proof.
  apply (AwsIsolation.other_exception_propagates Json.decode 5 "SecurityAuditRole"
           noon evening [] [second_account] (main_account broken_visit)
           [(eu_north, two_pages_visit)] [] us_east broken_visit decode_error
           (sample_world broken_visit) (visit_script one_page_visit)).
  - repeat constructor.
  - reflexivity.
  - constructor; [| constructor]. apply AwsIsolation.succeeds_collects.
    exact two_pages_visit_succeeds.
  - split.
    + repeat constructor. exact page1_ok.
    + cbn [closing broken_visit]. intros [evs Hevs]. vm_compute in Hevs. discriminate.
  - vm_compute. reflexivity.
  - reflexivity.
  - repeat constructor; simpl; lia.
  - reflexivity.
Defined.

End AwsRuns.

(** ** Non-success responses in the Azure and Entra ID collectors *)

Module HttpFacts.
Import Py Eff Http.

Section Api.
Context {W : Type}.
Variable P : api W.

Lemma list_subscriptions_failure headers (w w1 : W) (resp : http_response) :
  requests_get P (Azure.subscriptions_request headers) w = (Ok resp, w1) ->
  status_code resp <> 200 ->
  Azure.list_subscriptions P headers w
  = Some (Ok (PList []),
          print P ("Error message: " +:+ text resp)
            (print P ("Failed to retrieve subscriptions. Status code: "
                        +:+ pretty (status_code resp)) w1)).
Proof.
  intros Hget Hcode. unfold Azure.list_subscriptions, bind, call. rewrite Hget.
  apply Z.eqb_neq in Hcode. rewrite Hcode. reflexivity.
Qed.

Lemma collect_audit_logs_failure sub headers st en (w w1 : W)
    (resp : http_response) :
  requests_get P (Azure.audit_logs_request sub headers st en) w = (Ok resp, w1) ->
  status_code resp <> 200 ->
  Azure.collect_audit_logs P sub headers st en w
  = Some (Ok (PList []),
          print P ("Error message: " +:+ text resp)
            (print P ("Failed to retrieve audit logs for subscription " +:+ sub
                        +:+ ". Status code: " +:+ pretty (status_code resp)) w1)).
Proof.
  intros Hget Hcode. unfold Azure.collect_audit_logs, bind, call. rewrite Hget.
  apply Z.eqb_neq in Hcode. rewrite Hcode. reflexivity.
Qed.

Lemma get_sign_in_logs_failure st en credential (w w0 w1 : W) (token : string)
    (resp : http_response) :
  get_token P (default "AzureCliCredential" credential)
    "https://graph.microsoft.com/.default" w = (Ok token, w0) ->
  requests_get P (EntraId.sign_in_request st en token) w0 = (Ok resp, w1) ->
  status_code resp <> 200 ->
  EntraId.get_sign_in_logs P st en credential w
  = Some (Ok PNone,
          print P ("Error message: " +:+ text resp)
            (print P ("Failed to retrieve sign-in logs. Status code: "
                        +:+ pretty (status_code resp)) w1)).
Proof.
  intros Htok Hget Hcode.
  unfold EntraId.get_sign_in_logs, EntraId.get_access_token, bind, call, ret.
  rewrite Htok, Hget. apply Z.eqb_neq in Hcode. rewrite Hcode. reflexivity.
Qed.

Lemma get_sign_in_logs_success st en credential (w w0 w1 : W) (token : string)
    (resp : http_response) :
  get_token P (default "AzureCliCredential" credential)
    "https://graph.microsoft.com/.default" w = (Ok token, w0) ->
  requests_get P (EntraId.sign_in_request st en token) w0 = (Ok resp, w1) ->
  status_code resp = 200 ->
  EntraId.get_sign_in_logs P st en credential w = Some (json_body resp, w1).
Proof.
  intros Htok Hget Hcode.
  unfold EntraId.get_sign_in_logs, EntraId.get_access_token, bind, call, ret.
  rewrite Htok, Hget, Hcode. reflexivity.
Qed.

Lemma main_of_get_sign_in_logs st en credential (w : W) :
  EntraId.main P st en credential w
  = match EntraId.get_sign_in_logs P st en credential w with
    | Some (Ok logs, w') => Some (Ok (if truthy logs then logs else PList []), w')
    | Some (Raise e, w') => Some (Raise e, w')
    | None => None
    end.
Proof.
  unfold EntraId.main, bind.
  destruct (EntraId.get_sign_in_logs P st en credential w) as [[[logs | e] w'] |];
    try reflexivity.
  destruct (truthy logs); reflexivity.
Qed.

(** C5: a response whose status is not 200.  The subscription listing
    and the per-subscription log query of the Azure collector each
    return the empty list, and the sign-in query of the Entra ID
    collector returns [None], which [main] turns into the empty list;
    none of them raises (each prints the status and the body). *)
Theorem non_success_response_is_empty (resp : http_response) :
  status_code resp <> 200 ->
  (forall headers w w1,
     requests_get P (Azure.subscriptions_request headers) w = (Ok resp, w1) ->
     exists w2, Azure.list_subscriptions P headers w = Some (Ok (PList []), w2)) /\
  (forall sub headers st en w w1,
     requests_get P (Azure.audit_logs_request sub headers st en) w = (Ok resp, w1) ->
     exists w2,
       Azure.collect_audit_logs P sub headers st en w = Some (Ok (PList []), w2)) /\
  (forall st en credential w w0 w1 token,
     get_token P (default "AzureCliCredential" credential)
       "https://graph.microsoft.com/.default" w = (Ok token, w0) ->
     requests_get P (EntraId.sign_in_request st en token) w0 = (Ok resp, w1) ->
     exists w2,
       EntraId.get_sign_in_logs P st en credential w = Some (Ok PNone, w2) /\
       EntraId.main P st en credential w = Some (Ok (PList []), w2)).
Proof.
  intros Hcode. split; [| split].
  - intros headers w w1 Hget. eexists.
    apply (list_subscriptions_failure headers w w1 resp Hget Hcode).
  - intros sub headers st en w w1 Hget. eexists.
    apply (collect_audit_logs_failure sub headers st en w w1 resp Hget Hcode).
  - intros st en credential w w0 w1 token Htok Hget.
    pose proof (get_sign_in_logs_failure st en credential w w0 w1 token resp
                  Htok Hget Hcode) as Hlogs.
    eexists. split; [exact Hlogs |].
    rewrite main_of_get_sign_in_logs, Hlogs. reflexivity.
Qed.

(** C9: [main] of the Entra ID collector turns every falsy result of
    [get_sign_in_logs] into the empty list and returns any other result
    unchanged.  The falsy results are [None], which the query returns on
    a failure, and also a falsy JSON body of a successful response, the
    empty object for instance. *)
Theorem main_coerces_falsy st en credential (w : W) :
  EntraId.main P st en credential w
  = match EntraId.get_sign_in_logs P st en credential w with
    | Some (Ok logs, w') => Some (Ok (if truthy logs then logs else PList []), w')
    | Some (Raise e, w') => Some (Raise e, w')
    | None => None
    end /\
  truthy PNone = false /\ truthy (PDict []) = false /\
  (forall w0 w1 token resp body,
     get_token P (default "AzureCliCredential" credential)
       "https://graph.microsoft.com/.default" w = (Ok token, w0) ->
     requests_get P (EntraId.sign_in_request st en token) w0 = (Ok resp, w1) ->
     status_code resp = 200 -> json_body resp = Ok body ->
     EntraId.get_sign_in_logs P st en credential w = Some (Ok body, w1) /\
     EntraId.main P st en credential w
     = Some (Ok (if truthy body then body else PList []), w1)).
Proof.
  split; [apply main_of_get_sign_in_logs |].
  split; [reflexivity |]. split; [reflexivity |].
  intros w0 w1 token resp body Htok Hget Hcode Hbody.
  pose proof (get_sign_in_logs_success st en credential w w0 w1 token resp
                Htok Hget Hcode) as Hlogs.
  rewrite Hbody in Hlogs. split; [exact Hlogs |].
  rewrite main_of_get_sign_in_logs, Hlogs. reflexivity.
Qed.
End Api.

(** C5 at work on a 403 answer. *)
Lemma non_success_response_is_empty_witness :
  status_code Samples.forbidden <> 200 /\
  (exists w2, Azure.list_subscriptions (Samples.fixed_http Samples.forbidden)
                (bearer_headers "eyJ0eXAi") [] = Some (Ok (PList []), w2)) /\
  (exists w2, Azure.collect_audit_logs (Samples.fixed_http Samples.forbidden)
                "sub-1" (bearer_headers "eyJ0eXAi")
                "2024-02-01T00:00:00" "2024-03-01T00:00:00" []
              = Some (Ok (PList []), w2)) /\
  (exists w2, EntraId.main (Samples.fixed_http Samples.forbidden)
                Samples.noon Samples.evening None [] = Some (Ok (PList []), w2)).
Proof.
  assert (Hcode : status_code Samples.forbidden <> 200) by discriminate.
  destruct (non_success_response_is_empty (Samples.fixed_http Samples.forbidden)
              Samples.forbidden Hcode) as (Hlist & Hcollect & Hsign).
  split; [exact Hcode |]. split; [| split].
  - apply (Hlist (bearer_headers "eyJ0eXAi") [] []). reflexivity.
  - apply (Hcollect "sub-1" (bearer_headers "eyJ0eXAi")
             "2024-02-01T00:00:00" "2024-03-01T00:00:00" [] []). reflexivity.
  - destruct (Hsign Samples.noon Samples.evening None [] [] [] "eyJ0eXAi"
                eq_refl eq_refl) as (w2 & _ & Hmain).
    exists w2. exact Hmain.
Defined.

(** C9 at work: a 200 answer whose body is [{}] comes out of [main] as
    the empty list. *)
Lemma main_coerces_falsy_witness :
  EntraId.get_sign_in_logs (Samples.fixed_http Samples.empty_object)
    Samples.noon Samples.evening None [] = Some (Ok (PDict []), []) /\
  EntraId.main (Samples.fixed_http Samples.empty_object)
    Samples.noon Samples.evening None [] = Some (Ok (PList []), []).
Proof.
  destruct (main_coerces_falsy (Samples.fixed_http Samples.empty_object)
              Samples.noon Samples.evening None [])
    as (_ & _ & _ & Hbody).
  apply (Hbody [] [] "eyJ0eXAi" Samples.empty_object (PDict []));
    reflexivity.
Defined.

End HttpFacts.

(** ** The GCP collector: query, catch-all and files *)

Module GcpFacts.
Import Py Eff Gcp.

Section Api.
Context {R entry : Type}.
Variable P : api R entry.
Variable project_id : string.

(** A step that always returns and leaves the files alone. *)
Lemma on_remote_files {A} (f : R -> result A * R) (w : world R) :
  exists r w', on_remote f w = Some (r, w') /\ files w' = files w.
Proof.
  unfold on_remote, call. destruct (f (remote w)) as [r rem]. eauto.
Qed.

Lemma enable_api_files (api_name : string) (w : world R) :
  exists r w', enable_api P project_id api_name w = Some (r, w') /\
               files w' = files w.
Proof.
  unfold enable_api, bind, on_remote, call, logging, effect.
  destruct (get_service P _ (remote w)) as [[state | e] rem]; cbn; [| eauto].
  destruct state; cbn;
    try (destruct (enable_service P _ rem) as [[[] | e] rem']; cbn); eauto.
Qed.

Lemma get_organization_id_files (w : world R) :
  exists r w', get_organization_id P w = Some (r, w') /\ files w' = files w.
Proof.
  unfold get_organization_id, bind, on_remote, call, logging, effect, ret, raise.
  destruct (search_organizations P (remote w)) as [[orgs | e] rem]; cbn; [| eauto].
  destruct orgs; cbn; eauto.
Qed.

(** [get_audit_logs] logs the filter, sends one request, with the
    combined filter, the descending order and the cap, and returns the
    API representations of the entries in the order of the answer. *)
Lemma get_audit_logs_run org st en (cap : Z) (f : option string) (w : world R) :
  get_audit_logs P org st en cap f w
  = let rq := mk_entries_request (combined_filter st en f) DESCENDING cap in
    let lg := log w ++ [(INFO, "Using filter: " +:+ combined_filter st en f)] in
    match list_entries P rq (remote w) with
    | (Ok entries, rem) =>
        Some (Ok (map (to_api_repr P) entries), mk_world rem (files w) lg)
    | (Raise e, rem) => Some (Raise e, mk_world rem (files w) lg)
    end.
Proof.
  unfold get_audit_logs, bind, on_remote, call, logging, effect, ret. cbn.
  destruct (list_entries P _ (remote w)) as [[entries | e] rem]; reflexivity.
Qed.

Lemma get_audit_logs_files org st en cap f (w : world R) :
  exists r w', get_audit_logs P org st en cap f w = Some (r, w') /\
               files w' = files w.
Proof.
  rewrite get_audit_logs_run. cbn zeta.
  destruct (list_entries P _ (remote w)) as [[entries | e] rem]; eauto.
Qed.

Lemma save_audit_logs_returns logs filename (w : world R) :
  exists r w', save_audit_logs P logs filename w = Some (r, w').
Proof.
  unfold save_audit_logs, bind, lift, write_file, logging, effect, raise.
  destruct (open_for_writing P filename) as [[] | e]; [| eauto].
  destruct (json_serializable (PList logs)); cbn; eauto.
Qed.

(** The [try] block always comes to an end: nothing in it loops. *)
Lemma collect_returns st en cap f filename (w : world R) :
  exists r w', collect P project_id st en cap f filename w = Some (r, w').
Proof.
  unfold collect. cbn zeta. unfold bind at 1.
  destruct (enable_api_files "cloudresourcemanager.googleapis.com" w)
    as ([[] | e] & w1 & -> & _); [| eauto].
  unfold bind at 1.
  destruct (get_organization_id_files w1) as ([org | e] & w2 & -> & _); [| eauto].
  unfold bind at 1, logging at 1, effect. unfold bind at 1.
  match goal with
  | |- context [get_audit_logs P org st en cap f ?w3] =>
      destruct (get_audit_logs_files org st en cap f w3)
        as ([logs | e] & w4 & -> & _); [| eauto]
  end.
  unfold bind at 1, logging at 1, effect.
  apply save_audit_logs_returns.
Qed.

(** What [main] does when its [try] block raised: an exception that
    derives from [Exception] is logged and swallowed, any other leaves
    [main]; either way the files are those the block left. *)
Lemma main_files_of_raise st en cap f filename (w : world R) (e : exn)
    (w1 : world R) :
  collect P project_id st en cap f filename w = Some (Raise e, w1) ->
  main P project_id st en cap f filename w
  = Some (if is_Exception e then Ok tt else Raise e,
          if is_Exception e then logged_error e w1 else w1) /\
  files (if is_Exception e then logged_error e w1 else w1) = files w1.
Proof.
  intros H. unfold main, try_except. rewrite H.
  destruct (is_Exception e); split; reflexivity.
Qed.

(** The [try] block when no organization is visible. *)
Lemma collect_without_organization st en cap f filename (w w1 : world R)
    (r2 : R) :
  enable_api P project_id "cloudresourcemanager.googleapis.com" w
    = Some (Ok tt, w1) ->
  search_organizations P (remote w1) = (Ok [], r2) ->
  collect P project_id st en cap f filename w
  = Some (Raise (mk_exn PlainException "No organizations found."),
          mk_world r2 (files w1) (log w1)).
Proof.
  intros Henable Hsearch. unfold collect. cbn zeta.
  unfold bind at 1. rewrite Henable.
  unfold bind at 1, get_organization_id, bind at 1, on_remote, call.
  rewrite Hsearch. reflexivity.
Qed.

(** C6 (amended): [main] of the GCP collector swallows every exception
    that derives from [Exception].  Whatever the Google Cloud side and
    the file system answer, [main] comes to an end, and an exception it
    lets out does not derive from [Exception].  When the [try] block
    raised an exception that derives from [Exception], whether while
    the API was enabled, the organization looked up, the entries queried
    or the file written, [main] returns and the exception is logged as
    an error; this is what happens when no organization is visible.
    An exception that derives from [BaseException] only
    ([KeyboardInterrupt], [SystemExit], [GeneratorExit]) passes the
    handler: it leaves [main], and nothing is logged. *)
Theorem main_swallows_Exceptions st en cap f filename (w : world R) :
  (exists r w',
     main P project_id st en cap f filename w = Some (r, w') /\
     match r with
     | Ok _ => True
     | Raise e =>
         exn_cls e = KeyboardInterrupt \/ exn_cls e = SystemExit \/
         exn_cls e = GeneratorExit
     end) /\
  (forall e w1,
     collect P project_id st en cap f filename w = Some (Raise e, w1) ->
     exn_cls e <> KeyboardInterrupt -> exn_cls e <> SystemExit ->
     exn_cls e <> GeneratorExit ->
     main P project_id st en cap f filename w
     = Some (Ok tt,
             mk_world (remote w1) (files w1)
               (log w1 ++ [(ERROR, "An error occurred: " +:+ exn_str e)]))) /\
  (forall e w1,
     collect P project_id st en cap f filename w = Some (Raise e, w1) ->
     exn_cls e = KeyboardInterrupt \/ exn_cls e = SystemExit \/
     exn_cls e = GeneratorExit ->
     main P project_id st en cap f filename w = Some (Raise e, w1)) /\
  (forall w1,
     collect P project_id st en cap f filename w = Some (Ok tt, w1) ->
     main P project_id st en cap f filename w = Some (Ok tt, w1)) /\
  (forall w1 r2,
     enable_api P project_id "cloudresourcemanager.googleapis.com" w
       = Some (Ok tt, w1) ->
     search_organizations P (remote w1) = (Ok [], r2) ->
     main P project_id st en cap f filename w
     = Some (Ok tt,
             mk_world r2 (files w1)
               (log w1 ++ [(ERROR, "An error occurred: No organizations found.")]))).
Proof.
  assert (Hraise : forall e w1,
            collect P project_id st en cap f filename w = Some (Raise e, w1) ->
            main P project_id st en cap f filename w
            = Some (if is_Exception e then Ok tt else Raise e,
                    if is_Exception e then logged_error e w1 else w1)).
  { intros e w1 H. apply main_files_of_raise. exact H. }
  assert (Hcls : forall e,
            is_Exception e = false <->
            exn_cls e = KeyboardInterrupt \/ exn_cls e = SystemExit \/
            exn_cls e = GeneratorExit).
  { intros e. unfold is_Exception.
    destruct (exn_cls e); split; intros H; try discriminate; auto;
      destruct H as [H | [H | H]]; discriminate. }
  split; [| split; [| split; [| split]]].
  - destruct (collect_returns st en cap f filename w) as ([[] | e] & w1 & H).
    + exists (Ok tt), w1. split; [| exact I].
      unfold main, try_except. rewrite H. reflexivity.
    + eexists _, _. split; [apply Hraise; exact H |].
      destruct (is_Exception e) eqn:He; [exact I |]. apply Hcls. exact He.
  - intros e w1 H H1 H2 H3. rewrite (Hraise e w1 H).
    destruct (is_Exception e) eqn:He; [reflexivity |].
    apply Hcls in He. destruct He as [He | [He | He]]; congruence.
  - intros e w1 H He. rewrite (Hraise e w1 H).
    apply Hcls in He. rewrite He. reflexivity.
  - intros w1 H. unfold main, try_except. rewrite H. reflexivity.
  - intros w1 r2 Henable Hsearch.
    rewrite (Hraise _ _ (collect_without_organization st en cap f filename
                           w w1 r2 Henable Hsearch)).
    reflexivity.
Qed.

(** C10: when the API enabling, the organization lookup or the log
    query raises, [main] comes to an end with the files as they were:
    the output file is neither created nor changed.  [main] returns;
    only an exception that does not derive from [Exception] goes on to
    its caller. *)
Theorem failure_before_save_keeps_files st en cap f filename (w : world R)
    (e : exn) :
  let api_name := "cloudresourcemanager.googleapis.com" in
  (exists w1, enable_api P project_id api_name w = Some (Raise e, w1)) \/
  (exists w1 w2,
     enable_api P project_id api_name w = Some (Ok tt, w1) /\
     get_organization_id P w1 = Some (Raise e, w2)) \/
  (exists w1 org w2 w3,
     enable_api P project_id api_name w = Some (Ok tt, w1) /\
     get_organization_id P w1 = Some (Ok org, w2) /\
     get_audit_logs P org st en cap f
       (mk_world (remote w2) (files w2)
          (log w2 ++ [(INFO, "Organization ID: " +:+ org)]))
     = Some (Raise e, w3)) ->
  exists w',
    main P project_id st en cap f filename w
    = Some (if is_Exception e then Ok tt else Raise e, w') /\
    files w' = files w /\
    files w' !! filename = files w !! filename.
Proof.
  intros api_name Hcases.
  assert (Hcollect : exists w1,
            collect P project_id st en cap f filename w = Some (Raise e, w1) /\
            files w1 = files w).
  { unfold collect. cbn zeta. fold api_name.
    destruct (enable_api_files api_name w) as (r1 & v1 & H1 & F1).
    destruct Hcases as [[w1 Ha] | [(w1 & w2 & Ha & Hb) | (w1 & org & w2 & w3 & Ha & Hb & Hc)]];
      rewrite Ha in H1; injection H1 as <- <-; unfold bind at 1; rewrite Ha.
    - eauto.
    - destruct (get_organization_id_files w1) as (r2 & v2 & H2 & F2).
      rewrite Hb in H2. injection H2 as <- <-.
      unfold bind at 1. rewrite Hb. exists w2. split; [reflexivity | congruence].
    - destruct (get_organization_id_files w1) as (r2 & v2 & H2 & F2).
      rewrite Hb in H2. injection H2 as <- <-.
      unfold bind at 1. rewrite Hb.
      unfold bind at 1, logging at 1, effect. unfold bind at 1.
      match type of Hc with
      | get_audit_logs P org st en cap f ?v3 = _ =>
          destruct (get_audit_logs_files org st en cap f v3)
            as (r3 & v4 & H3 & F3)
      end.
      rewrite Hc in H3. injection H3 as <- <-. rewrite Hc.
      exists w3. split; [reflexivity |]. cbn in F3. congruence. }
  destruct Hcollect as (w1 & Hcollect & Hfiles).
  destruct (main_files_of_raise st en cap f filename w e w1 Hcollect) as [Hmain Hkept].
  eexists. split; [exact Hmain |].
  split; [congruence |]. rewrite Hkept, Hfiles. reflexivity.
Qed.
End Api.


(** C6 at work: no organization is visible; [main] returns, and the
    last record of the log is the error. *)
Lemma main_swallows_Exceptions_witness :
  main (Samples.gcp_side [] Samples.three_entries) "proj"
    Samples.noon Samples.evening 5000 None "gcp_audit_logs.json" Samples.gcp_world
  = Some (Ok tt,
          mk_world tt (files Samples.gcp_world)
            [(INFO, "API cloudresourcemanager.googleapis.com is already enabled for project proj.");
             (ERROR, "An error occurred: No organizations found.")]).
Proof.
  apply (proj1 (proj2 (main_swallows_Exceptions
                         (Samples.gcp_side [] Samples.three_entries)
                         "proj" Samples.noon Samples.evening 5000 None
                         "gcp_audit_logs.json" Samples.gcp_world))
           Samples.no_organization
           (mk_world tt (files Samples.gcp_world)
              [(INFO, "API cloudresourcemanager.googleapis.com is already enabled for project proj.")]));
    [reflexivity | discriminate | discriminate | discriminate].
Defined.

(** C6, refuted as stated: the user interrupts the run while the state
    of the API is asked for.  [KeyboardInterrupt] does not derive from
    [Exception], so the handler of [main] lets it pass: [main] raises,
    and nothing is logged. *)
Lemma main_lets_KeyboardInterrupt_out :
  is_Exception Samples.interrupt = false /\
  main Samples.gcp_side_interrupted "proj"
    Samples.noon Samples.evening 5000 None "gcp_audit_logs.json" Samples.gcp_world
  = Some (Raise Samples.interrupt, Samples.gcp_world).
Proof. split; reflexivity. Qed.

(** C10 at work: the output file exists, no organization is visible;
    after [main] the file is what it was. *)
Lemma failure_before_save_keeps_files_witness :
  exists w',
    main (Samples.gcp_side [] Samples.three_entries) "proj"
      Samples.noon Samples.evening 5000 None "gcp_audit_logs.json"
      Samples.gcp_world = Some (Ok tt, w') /\
    files w' = files Samples.gcp_world /\
    files w' !! "gcp_audit_logs.json" = files Samples.gcp_world !! "gcp_audit_logs.json".
Proof.
  change (Ok tt) with (if is_Exception Samples.no_organization
                       then Ok tt else @Raise unit Samples.no_organization).
  apply (failure_before_save_keeps_files
           (Samples.gcp_side [] Samples.three_entries) "proj"
           Samples.noon Samples.evening 5000 None "gcp_audit_logs.json"
           Samples.gcp_world Samples.no_organization).
  right. left. eexists _, _. split; reflexivity.
Defined.

End GcpFacts.

(** ** Beyond the region loop: accounts, requests and fields *)

Module AwsAccounts.
Import Py Eff Aws AwsMock AwsPagination AwsIsolation.

Section Decoder.
Variable json_decode : string -> result pyval.

Lemma for_accounts_sts_raises (fuel : nat) role st en (account_id : string)
    (accounts : list string) acc (w : world) (e : exn) :
  sts w (role_arn_of account_id role) = Raise e ->
  for_accounts json_decode mock fuel (account_id :: accounts) role st en acc w
  = Some (Raise e,
          after w (script w) [] ["Assuming role in account: " +:+ account_id]).
Proof.
  intros Hsts. unfold role_arn_of in Hsts.
  cbn [Aws.for_accounts]. unfold assume_role, bind, effect, call, ret.
  cbn [print sts_assume_role mock].
  rewrite mock_print_after. unfold mock_assume_role.
  cbn [sts after]. rewrite Hsts. reflexivity.
Qed.

Lemma for_accounts_ec2_raises (fuel : nat) role st en (account_id : string)
    (accounts : list string) acc (w : world) (c : credentials) (e : exn) :
  sts w (role_arn_of account_id role) = Ok c ->
  ec2 w (session_of c) = Raise e ->
  for_accounts json_decode mock fuel (account_id :: accounts) role st en acc w
  = Some (Raise e,
          after w (script w) [] ["Assuming role in account: " +:+ account_id]).
Proof.
  intros Hsts Hec2. unfold role_arn_of in Hsts.
  cbn [Aws.for_accounts]. unfold assume_role, bind, effect, call, ret.
  cbn [print sts_assume_role ec2_describe_regions mock].
  rewrite mock_print_after. unfold mock_assume_role, mock_describe_regions.
  cbn [sts after]. rewrite Hsts.
  change (mk_session (AccessKeyId c) (SecretAccessKey c) (SessionToken c))
    with (session_of c).
  replace (ec2 (after w (script w) [] ["Assuming role in account: " +:+ account_id]))
    with (ec2 w) by reflexivity.
  rewrite Hec2. reflexivity.
Qed.

(** An error of [assume_role] is raised outside the [try] block: it
    leaves [get_cloudtrail_logs] whatever its class, a [ClientError]
    included.  The accounts of [plan1] were collected; the role of the
    next account cannot be assumed.  The events collected so far are not
    returned and no account behind is visited. *)
Theorem assume_role_error_propagates (fuel : nat) role st en
    (plan1 : list account_plan) (account_id : string) (later : list string)
    (e : exn) (w : world) rest :
  Forall (plan_served w role) plan1 ->
  Forall (visit_collects json_decode) (plan_visits plan1) ->
  Forall (fun v => (length (visit_script v) <= fuel)%nat) (plan_visits plan1) ->
  script w = plan_script plan1 ++ rest ->
  sts w (role_arn_of account_id role) = Raise e ->
  exists w',
    get_cloudtrail_logs json_decode mock fuel
      (map ap_account plan1 ++ account_id :: later) role st en w
    = Some (Raise e, w') /\
    requests w' = requests w ++ plan_requests st en plan1 /\
    script w' = rest.
Proof.
  intros Hserved Hcol Hfuel Hs Hsts.
  unfold get_cloudtrail_logs. rewrite for_accounts_app.
  destruct (for_accounts_collects json_decode fuel role st en plan1 Hcol Hfuel
              [] w rest Hserved Hs) as [out H1].
  unfold bind. rewrite H1.
  match goal with
  | |- context [Aws.for_accounts _ _ _ _ _ _ _ ?acc1 ?w1] =>
      rewrite (for_accounts_sts_raises fuel role st en account_id later acc1 w1
                 e Hsts)
  end.
  rewrite after_after. eexists. split; [reflexivity |].
  cbn [requests script after]. rewrite app_nil_r. split; reflexivity.
Qed.

(** An error of [describe_regions] is raised outside the [try] block
    too: it leaves [get_cloudtrail_logs] whatever its class, and no
    region of that account or of a later one is queried. *)
Theorem describe_regions_error_propagates (fuel : nat) role st en
    (plan1 : list account_plan) (account_id : string) (later : list string)
    (c : credentials) (e : exn) (w : world) rest :
  Forall (plan_served w role) plan1 ->
  Forall (visit_collects json_decode) (plan_visits plan1) ->
  Forall (fun v => (length (visit_script v) <= fuel)%nat) (plan_visits plan1) ->
  script w = plan_script plan1 ++ rest ->
  sts w (role_arn_of account_id role) = Ok c ->
  ec2 w (session_of c) = Raise e ->
  exists w',
    get_cloudtrail_logs json_decode mock fuel
      (map ap_account plan1 ++ account_id :: later) role st en w
    = Some (Raise e, w') /\
    requests w' = requests w ++ plan_requests st en plan1 /\
    script w' = rest.
Proof.
  intros Hserved Hcol Hfuel Hs Hsts Hec2.
  unfold get_cloudtrail_logs. rewrite for_accounts_app.
  destruct (for_accounts_collects json_decode fuel role st en plan1 Hcol Hfuel
              [] w rest Hserved Hs) as [out H1].
  unfold bind. rewrite H1.
  match goal with
  | |- context [Aws.for_accounts _ _ _ _ _ _ _ ?acc1 ?w1] =>
      rewrite (for_accounts_ec2_raises fuel role st en account_id later acc1 w1
                 c e Hsts Hec2)
  end.
  rewrite after_after. eexists. split; [reflexivity |].
  cbn [requests script after]. rewrite app_nil_r. split; reflexivity.
Qed.

End Decoder.

End AwsAccounts.

Module AwsRequests.
Import Py Eff Aws AwsMock AwsPagination AwsIsolation.

Lemma sent_token_not_empty (t : option string) : sent_token t <> Some "".
Proof.
  unfold sent_token, token_truthy. destruct t as [s |]; [| discriminate].
  destruct (String.eqb s "") eqn:E; cbn; [discriminate |].
  intros H. injection H as ->. discriminate.
Qed.

Lemma sends_ret (good : request -> Prop) {A} (a : A) : sends good (ret a).
Proof.
  intros w r w' H. injection H as <- <-. repeat split; try reflexivity.
  exists []. rewrite app_nil_r. split; [reflexivity | constructor].
Qed.

Lemma sends_bind (good : request -> Prop) {A B} (m : M world A)
    (k : A -> M world B) :
  sends good m -> (forall a, sends good (k a)) -> sends good (bind m k).
Proof.
  intros Hm Hk w r w' H. unfold bind in H.
  destruct (m w) as [[[a | e] w1] |] eqn:E; [| | discriminate].
  - destruct (Hm w _ _ E) as (S1 & E1 & reqs1 & R1 & G1).
    destruct (Hk a w1 _ _ H) as (S2 & E2 & reqs2 & R2 & G2).
    repeat split; try congruence.
    exists (reqs1 ++ reqs2). split.
    + rewrite R2, R1, app_assoc. reflexivity.
    + apply Forall_app. split; assumption.
  - injection H as <- <-. exact (Hm w _ _ E).
Qed.

Lemma sends_weaken (good good' : request -> Prop) {A} (m : M world A) :
  (forall rq, good rq -> good' rq) -> sends good m -> sends good' m.
Proof.
  intros Himp Hm w r w' H. destruct (Hm w r w' H) as (S1 & E1 & reqs & R & G).
  repeat split; try assumption. exists reqs. split; [exact R |].
  eapply Forall_impl; eauto.
Qed.

Lemma sends_print (good : request -> Prop) (line : string) :
  sends good (effect (print mock line)).
Proof.
  intros w r w' H. injection H as <- <-. repeat split; try reflexivity.
  exists []. cbn. rewrite app_nil_r. split; [reflexivity | constructor].
Qed.

Lemma sends_assume_role (good : request -> Prop) (account_id role : string) :
  sends good (assume_role mock account_id role).
Proof.
  unfold assume_role. apply sends_bind; [apply sends_print |]. intros _.
  apply sends_bind; [| intros c; apply sends_ret].
  intros w r w' H. injection H as <- <-. repeat split; try reflexivity.
  exists []. rewrite app_nil_r. split; [reflexivity | constructor].
Qed.

Lemma sends_describe_regions (good : request -> Prop) (s : session) :
  sends good (call (ec2_describe_regions mock s)).
Proof.
  intros w r w' H. injection H as <- <-. repeat split; try reflexivity.
  exists []. rewrite app_nil_r. split; [reflexivity | constructor].
Qed.

Section Decoder.
Variable json_decode : string -> result pyval.

(** A round against an exhausted script. *)
Lemma paginate_round_exhausted (fuel : nat) s region st en tok acc (w : world) :
  script w = [] ->
  paginate json_decode mock (S fuel) s region st en tok acc w
  = Some (Raise (mk_exn StopIteration ""),
          after w [] [mk_request s region st en (sent_token tok)] []).
Proof.
  intros Hs. cbn [Aws.paginate].
  unfold bind at 1, try_except, bind at 1.
  assert (Hcall :
    (if token_truthy tok
     then call (cloudtrail_lookup_events mock (mk_request s region st en tok))
     else call (cloudtrail_lookup_events mock (mk_request s region st en None))) w
    = Some (Raise (mk_exn StopIteration ""),
            after w [] [mk_request s region st en (sent_token tok)] [])).
  { unfold sent_token, call, after. cbn.
    destruct (token_truthy tok); unfold mock_lookup_events;
      rewrite Hs, app_nil_r; reflexivity. }
  rewrite Hcall. reflexivity.
Qed.

Lemma paginate_sends (fuel : nat) s region st en :
  forall tok acc,
    sends (fun rq => rq_session rq = s /\ rq_region rq = region /\
                     in_window st en rq)
          (paginate json_decode mock fuel s region st en tok acc).
Proof.
  assert (Hone : forall tok (w : world) rest out,
            let w1 := after w rest [mk_request s region st en (sent_token tok)] out in
            sts w1 = sts w /\ ec2 w1 = ec2 w /\
            exists reqs, requests w1 = requests w ++ reqs /\
              Forall (fun rq => rq_session rq = s /\ rq_region rq = region /\
                                in_window st en rq) reqs).
  { intros tok w rest out. repeat split. eexists. split; [reflexivity |].
    constructor; [| constructor]. repeat split. cbn. apply sent_token_not_empty. }
  induction fuel as [| fuel IH]; intros tok acc w r w' H; [discriminate |].
  destruct (script w) as [| c rest] eqn:Hs.
  - rewrite (paginate_round_exhausted fuel s region st en tok acc w Hs) in H.
    injection H as <- <-. apply Hone.
  - rewrite (paginate_round json_decode fuel s region st en tok acc w c rest Hs) in H.
    cbn zeta in H.
    destruct (closing_result json_decode c) as [evs | e].
    + destruct c as [p | e]; [| discriminate].
      destruct (token_truthy (NextToken p)).
      * destruct (IH _ _ _ _ _ H) as (S2 & E2 & reqs2 & R2 & G2).
        repeat split; try assumption.
        exists (mk_request s region st en (sent_token tok) :: reqs2). split.
        -- rewrite R2. cbn [requests after]. rewrite <- app_assoc. reflexivity.
        -- constructor; [| exact G2]. repeat split. cbn.
           apply sent_token_not_empty.
      * injection H as <- <-. apply Hone.
    + destruct (is_ClientError e); injection H as <- <-; apply Hone.
Qed.

Lemma for_regions_sends (fuel : nat) s st en (regions : list string) :
  forall acc,
    sends (in_window st en) (for_regions json_decode mock fuel s regions st en acc).
Proof.
  induction regions as [| region regions IH]; intros acc; [apply sends_ret |].
  cbn [Aws.for_regions]. apply sends_bind; [apply sends_print |]. intros _.
  apply sends_bind; [| intros acc'; apply IH].
  eapply sends_weaken; [| apply paginate_sends].
  intros rq (_ & _ & H). exact H.
Qed.

Lemma for_accounts_sends (fuel : nat) role st en (accounts : list string) :
  forall acc,
    sends (in_window st en)
          (for_accounts json_decode mock fuel accounts role st en acc).
Proof.
  induction accounts as [| a accounts IH]; intros acc; [apply sends_ret |].
  cbn [Aws.for_accounts]. apply sends_bind; [apply sends_assume_role |]. intros s.
  apply sends_bind; [apply sends_describe_regions |]. intros infos.
  apply sends_bind; [apply for_regions_sends | intros acc'; apply IH].
Qed.

(** Whatever the provider answers, every request [get_cloudtrail_logs]
    sends carries the time window of the caller, and its token is absent
    or not empty: an empty token is never sent back. *)
Theorem requests_stay_in_window (fuel : nat) (accounts : list string)
    role st en (w w' : world) (r : result (list event)) :
  get_cloudtrail_logs json_decode mock fuel accounts role st en w = Some (r, w') ->
  exists reqs,
    requests w' = requests w ++ reqs /\
    Forall (fun rq => rq_StartTime rq = st /\ rq_EndTime rq = en /\
                      rq_NextToken rq <> Some "") reqs.
Proof.
  intros H.
  destruct (for_accounts_sends fuel role st en accounts [] w r w' H)
    as (_ & _ & reqs & R & G).
  exists reqs. split; [exact R | exact G].
Qed.

(** The normalisation of an event neither adds nor removes a field. *)
Theorem normalize_event_keeps_fields (e e' : event) :
  normalize_event json_decode e = Ok e' -> dom e' = dom e.
Proof.
  unfold normalize_event. intros H.
  assert (Hins : forall (m : event) k v, is_Some (m !! k) ->
            dom (<[k := v]> m) = dom m).
  { intros m k v Hk. rewrite dom_insert_L. apply subseteq_union_1_L.
    apply singleton_subseteq_l, elem_of_dom. exact Hk. }
  destruct (e !! "CloudTrailEvent") as [v |] eqn:Hc; cbn [rbind] in H.
  - destruct (json_loads json_decode v) as [v' | err]; cbn [rbind] in H;
      [| discriminate].
    destruct (<["CloudTrailEvent" := v']> e !! "EventTime") as [t |] eqn:Ht.
    + destruct (call_isoformat t) as [s | err]; cbn [rbind] in H; [| discriminate].
      injection H as <-. rewrite !Hins; eauto.
    + injection H as <-. rewrite Hins; eauto.
  - destruct (e !! "EventTime") as [t |] eqn:Ht.
    + destruct (call_isoformat t) as [s | err]; cbn [rbind] in H; [| discriminate].
      injection H as <-. rewrite Hins; eauto.
    + injection H as <-. reflexivity.
Qed.

End Decoder.

Lemma assume_role_error_propagates_witness :
  exists w',
    get_cloudtrail_logs Json.decode mock 5
      (map ap_account [Samples.main_account Samples.denied_visit]
         ++ "000000000001" :: [])
      "SecurityAuditRole" Samples.noon Samples.evening Samples.first_only_world
    = Some (Raise Samples.access_denied, w') /\
    requests w'
    = requests Samples.first_only_world
        ++ plan_requests Samples.noon Samples.evening
             [Samples.main_account Samples.denied_visit] /\
    script w' = [].
Proof.
  apply (AwsAccounts.assume_role_error_propagates Json.decode 5
           "SecurityAuditRole" Samples.noon Samples.evening
           [Samples.main_account Samples.denied_visit] "000000000001" []
           Samples.access_denied Samples.first_only_world []).
  - repeat constructor.
  - constructor; [apply succeeds_collects; exact AwsRuns.two_pages_visit_succeeds |].
    constructor; [| constructor].
    apply fails_at_once_collects. split; [reflexivity |].
    exists Samples.denied. split; reflexivity.
  - repeat constructor; simpl; lia.
  - symmetry. apply app_nil_r.
  - reflexivity.
Defined.

Lemma describe_regions_error_propagates_witness :
  exists w',
    get_cloudtrail_logs Json.decode mock 5
      (map ap_account [Samples.main_account Samples.denied_visit]
         ++ "000000000001" :: [])
      "SecurityAuditRole" Samples.noon Samples.evening Samples.no_regions_world
    = Some (Raise Samples.access_denied, w') /\
    requests w'
    = requests Samples.no_regions_world
        ++ plan_requests Samples.noon Samples.evening
             [Samples.main_account Samples.denied_visit] /\
    script w' = [].
Proof.
  apply (AwsAccounts.describe_regions_error_propagates Json.decode 5
           "SecurityAuditRole" Samples.noon Samples.evening
           [Samples.main_account Samples.denied_visit] "000000000001" []
           Samples.second_credentials Samples.access_denied
           Samples.no_regions_world []).
  - repeat constructor.
  - constructor; [apply succeeds_collects; exact AwsRuns.two_pages_visit_succeeds |].
    constructor; [| constructor].
    apply fails_at_once_collects. split; [reflexivity |].
    exists Samples.denied. split; reflexivity.
  - repeat constructor; simpl; lia.
  - symmetry. apply app_nil_r.
  - reflexivity.
  - reflexivity.
Defined.

Lemma requests_stay_in_window_witness :
  exists reqs,
    option_map (fun r => requests (snd r)) (Samples.sample_run Samples.throttled_visit)
    = Some ([] ++ reqs) /\
    Forall (fun rq => rq_StartTime rq = Samples.noon /\
                      rq_EndTime rq = Samples.evening /\
                      rq_NextToken rq <> Some "") reqs.
Proof.
  destruct (Samples.sample_run Samples.throttled_visit) as [[r w'] |] eqn:E;
    [| vm_compute in E; discriminate].
  destruct (requests_stay_in_window Json.decode 5 Samples.sample_accounts
              "SecurityAuditRole" Samples.noon Samples.evening
              (Samples.sample_world Samples.throttled_visit) w' r E)
    as (reqs & R & G).
  exists reqs. split; [| exact G]. cbn [option_map snd]. rewrite R. reflexivity.
Defined.

Lemma normalize_event_keeps_fields_witness :
  dom Samples.raw_event_normalized = dom Samples.raw_event.
Proof.
  apply (normalize_event_keeps_fields Json.decode).
  vm_compute. reflexivity.
Defined.

End AwsRequests.

(** ** The literal [Z] the Entra ID and GCP collectors append *)

Module ZuluSuffix.
Import Py PyFacts.

Lemma fmt_digits_append (w : nat) :
  forall (n : Z) (rest s : string),
    fmt_digits w n rest +:+ s = fmt_digits w n (rest +:+ s).
Proof.
  induction w as [| w IH]; intros n rest s; [reflexivity |].
  cbn [fmt_digits]. rewrite IH. reflexivity.
Qed.

Lemma append_String (c : ascii) (x s : string) :
  String c x +:+ s = String c (x +:+ s).
Proof. reflexivity. Qed.

Lemma append_empty (s : string) : "" +:+ s = s.
Proof. reflexivity. Qed.

(** Moves an appended text to the end of the formatted one. *)
Ltac push_append :=
  repeat first [ rewrite fmt_digits_append
               | rewrite append_String
               | rewrite append_empty ].

Lemma format_date_append (y m d : Z) (rest s : string) :
  format_date y m d rest +:+ s = format_date y m d (rest +:+ s).
Proof. unfold format_date. push_append. reflexivity. Qed.

Lemma format_hms_append (hh mm ss : Z) (rest s : string) :
  format_hms hh mm ss rest +:+ s = format_hms hh mm ss (rest +:+ s).
Proof. unfold format_hms. push_append. reflexivity. Qed.

(** The offset text of a whole-minute offset: sign, hours, minutes. *)
Lemma format_offset_whole_minute (o : Z) (rest : string) :
  -86400000000 < o < 86400000000 -> o mod 60000000 = 0 ->
  exists (sign : ascii) (hh mm : Z),
    (sign = "+"%char \/ sign = "-"%char) /\ 0 <= hh < 24 /\ 0 <= mm < 60 /\
    format_offset (Some o) rest
    = String sign (fmt_digits 2 hh (String ":" (fmt_digits 2 mm rest))).
Proof.
  intros Hrange Hmin. unfold format_offset.
  set (a := Z.abs o).
  assert (Ha : 0 <= a < 86400000000) by (subst a; lia).
  assert (Hamin : a mod 60000000 = 0).
  { subst a. destruct (Z.abs_spec o) as [[_ ->] | [_ ->]]; [exact Hmin |].
    apply Z.mod_divide; [lia |]. apply Z.divide_opp_r.
    apply Z.mod_divide; [lia | exact Hmin]. }
  assert (Hss : a mod 60000000 / 1000000 = 0) by (rewrite Hamin; reflexivity).
  assert (Hus : a mod 1000000 = 0).
  { pose proof (Z.div_mod a 60000000 ltac:(lia)) as E. rewrite Hamin in E.
    rewrite E at 1.
    replace (60000000 * (a / 60000000) + 0)
      with ((a / 60000000 * 60) * 1000000) by lia.
    apply Z.mod_mul. lia. }
  rewrite Hss, Hus. cbn [Z.eqb andb].
  exists (if o <? 0 then "-"%char else "+"%char), (a / 3600000000),
         (a mod 3600000000 / 60000000).
  split; [destruct (o <? 0); auto |]. split; [| split; [| reflexivity]].
  - split; [apply Z.div_pos; lia | apply Z.div_lt_upper_bound; lia].
  - pose proof (Z.mod_pos_bound a 3600000000 ltac:(lia)).
    split; [apply Z.div_pos; lia | apply Z.div_lt_upper_bound; lia].
Qed.

(** The date and the time of day of a valid [datetime] are read back;
    what remains to be checked is the tail behind the seconds. *)
Lemma parse_date_hms (d : datetime) (tail : string) :
  valid_datetime d ->
  is_iso8601 (format_date (year d) (month d) (day d) (String "T"
                (format_hms (hour d) (minute d) (second d) tail)))
  = match read_fraction tail with
    | Some zone => read_zone zone
    | None => false
    end.
Proof.
  intros (Hy & Hm & Hd & Hh & Hmi & Hs & Hus & Hoff).
  unfold is_iso8601, iso8601_parse, format_date, format_hms.
  rewrite read_fmt4 by lia.
  cbn [mbind option_bind expect Ascii.eqb Bool.eqb].
  pose proof (days_in_month_le (year d) (month d)) as Hdim.
  do 5 (rewrite read_fmt2 by lia;
        cbn [mbind option_bind expect Ascii.eqb Bool.eqb]).
  destruct (read_fraction tail) as [zone |]; [| reflexivity].
  cbn [mbind option_bind].
  replace (1 <=? month d) with true by (symmetry; apply Z.leb_le; lia).
  replace (month d <=? 12) with true by (symmetry; apply Z.leb_le; lia).
  replace (1 <=? day d) with true by (symmetry; apply Z.leb_le; lia).
  replace (day d <=? days_in_month (year d) (month d)) with true
    by (symmetry; apply Z.leb_le; lia).
  replace (hour d <? 24) with true by (symmetry; apply Z.ltb_lt; lia).
  replace (minute d <? 60) with true by (symmetry; apply Z.ltb_lt; lia).
  replace (second d <? 60) with true by (symmetry; apply Z.ltb_lt; lia).
  reflexivity.
Qed.

(** A zone designator followed by [Z] is none. *)
Lemma read_zone_offset_then_zulu (sign : ascii) (hh mm : Z) :
  sign = "+"%char \/ sign = "-"%char -> 0 <= hh < 24 -> 0 <= mm < 60 ->
  read_zone (String sign (fmt_digits 2 hh (String ":" (fmt_digits 2 mm "Z"))))
  = false.
Proof.
  intros [-> | ->] Hhh Hmm; cbn [read_zone Ascii.eqb Bool.eqb orb];
    rewrite read_fmt2 by lia; rewrite read_fmt2 by lia;
    cbn [String.eqb]; rewrite !andb_false_r; reflexivity.
Qed.

Lemma read_fraction_sign (sign : ascii) (rest : string) :
  sign = "+"%char \/ sign = "-"%char ->
  read_fraction (String sign rest) = Some (String sign rest).
Proof. intros [-> | ->]; reflexivity. Qed.

Lemma span_digits_sign (sign : ascii) (rest : string) :
  sign = "+"%char \/ sign = "-"%char ->
  span_digits (String sign rest) = (O, String sign rest).
Proof. intros [-> | ->]; reflexivity. Qed.



(** [get_sign_in_logs] (lines 45-46) and [get_audit_logs] (lines 87-90)
    append a literal [Z] to the [isoformat] text of the bounds.  For a
    naive [datetime], which is what [datetime.utcnow()] of the
    orchestrator gives, the result is a valid ISO-8601 time in UTC; for
    a [datetime] that carries an offset, the offset text followed by [Z]
    is not a valid ISO-8601 time. *)
Theorem zulu_suffix_needs_naive_datetime (d : datetime) :
  valid_datetime d -> whole_minute_offset d ->
  (forall en token,
     Http.url (EntraId.sign_in_request d en token)
     = "https://graph.microsoft.com/v1.0/auditLogs/signIns?$filter=createdDateTime ge "
         +:+ (isoformat_ms d +:+ "Z") +:+ " and createdDateTime le "
         +:+ (isoformat_ms en +:+ "Z")) /\
  (forall en,
     Gcp.base_filter d en
     = "timestamp>=" +:+ Json.quoted (isoformat d +:+ "Z")
         +:+ " timestamp<=" +:+ Json.quoted (isoformat en +:+ "Z")) /\
  (utcoffset d = None ->
   is_iso8601 (isoformat_ms d +:+ "Z") = true /\
   is_iso8601 (isoformat d +:+ "Z") = true) /\
  (utcoffset d <> None ->
   is_iso8601 (isoformat_ms d +:+ "Z") = false /\
   is_iso8601 (isoformat d +:+ "Z") = false).
Proof.
  intros Hvalid Hwhole.
  pose proof Hvalid as (_ & _ & _ & _ & _ & _ & Hus & Hoff).
  split; [reflexivity |]. split; [reflexivity |].
  unfold isoformat_ms, isoformat, format_time_ms, format_time.
  rewrite !format_date_append, !append_String, !format_hms_append.
  rewrite !(parse_date_hms d _ Hvalid).
  split.
  - intros Hnone. rewrite Hnone. cbn [format_offset]. split.
    + push_append. cbn [read_fraction Ascii.eqb Bool.eqb orb].
      rewrite span_fmt_digits. reflexivity.
    + destruct (microsecond d =? 0); push_append; [reflexivity |].
      cbn [read_fraction Ascii.eqb Bool.eqb orb].
      rewrite span_fmt_digits. reflexivity.
  - intros Hsome. unfold whole_minute_offset in Hwhole.
    destruct (utcoffset d) as [o |]; [| congruence].
    destruct (format_offset_whole_minute o "" Hoff Hwhole)
      as (sign & hh & mm & Hsign & Hhh & Hmm & ->).
    split.
    + push_append. cbn [read_fraction Ascii.eqb Bool.eqb orb].
      rewrite span_fmt_digits, span_digits_sign by exact Hsign.
      apply read_zone_offset_then_zulu; assumption.
    + destruct (microsecond d =? 0); push_append.
      * rewrite read_fraction_sign by exact Hsign.
        apply read_zone_offset_then_zulu; assumption.
      * cbn [read_fraction Ascii.eqb Bool.eqb orb].
        rewrite span_fmt_digits, span_digits_sign by exact Hsign.
        apply read_zone_offset_then_zulu; assumption.
Qed.

(** On the bounds of the orchestrator's kind ([utcnow()], naive) the
    suffix gives valid times; on a bound with an offset it does not. *)
Lemma zulu_suffix_needs_naive_datetime_witness :
  (is_iso8601 (isoformat_ms Samples.utc_now +:+ "Z") = true /\
   is_iso8601 (isoformat Samples.utc_now +:+ "Z") = true) /\
  (is_iso8601 (isoformat_ms Samples.evening +:+ "Z") = false /\
   is_iso8601 (isoformat Samples.evening +:+ "Z") = false).
Proof.
  split.
  - apply (zulu_suffix_needs_naive_datetime Samples.utc_now).
    + repeat split; vm_compute; first [reflexivity | discriminate].
    + exact I.
    + reflexivity.
  - apply (zulu_suffix_needs_naive_datetime Samples.evening).
    + repeat split; vm_compute; first [reflexivity | discriminate].
    + reflexivity.
    + discriminate.
Defined.

End ZuluSuffix.

(** ** The query of the GCP collector *)

Module GcpQuery.
Import Py Eff Gcp.




End GcpQuery.

(** ** The Azure collector over all subscriptions *)

Module AzureFacts.
Import Py Eff Http HttpMock.

(** A 200 answer whose JSON body has no ["value"] key: the subscription
    listing raises a [KeyError] (it indexes the body), the log query
    returns the empty list (it uses [get] with a default). *)
Theorem ok_answer_without_value {W : Type} (P : api W) (resp : http_response)
    (d : list (string * pyval)) :
  status_code resp = 200 -> json_body resp = Ok (PDict d) ->
  assoc "value" d = None ->
  (forall headers w w1,
     requests_get P (Azure.subscriptions_request headers) w = (Ok resp, w1) ->
     Azure.list_subscriptions P headers w
     = Some (Raise (mk_exn KeyError "'value'"), w1)) /\
  (forall sub headers st en w w1,
     requests_get P (Azure.audit_logs_request sub headers st en) w = (Ok resp, w1) ->
     Azure.collect_audit_logs P sub headers st en w = Some (Ok (PList []), w1)).
Proof.
  intros Hcode Hbody Hvalue. split.
  - intros headers w w1 Hget.
    unfold Azure.list_subscriptions, bind, call, lift.
    rewrite Hget, Hcode, Hbody. cbn. rewrite Hvalue. reflexivity.
  - intros sub headers st en w w1 Hget.
    unfold Azure.collect_audit_logs, bind, call, lift.
    rewrite Hget, Hcode, Hbody. cbn. rewrite Hvalue. reflexivity.
Qed.

Lemma ok_answer_without_value_witness :
  Azure.list_subscriptions (Samples.fixed_http Samples.empty_object)
    (bearer_headers "eyJ0eXAi") []
  = Some (Raise (mk_exn KeyError "'value'"), []) /\
  Azure.collect_audit_logs (Samples.fixed_http Samples.empty_object) "sub-a"
    (bearer_headers "eyJ0eXAi") "2024-02-01T00:00:00" "2024-03-01T00:00:00" []
  = Some (Ok (PList []), []).
Proof.
  destruct (ok_answer_without_value (Samples.fixed_http Samples.empty_object)
              Samples.empty_object [] eq_refl eq_refl eq_refl) as [Hlist Hlogs].
  split.
  - apply (Hlist (bearer_headers "eyJ0eXAi") [] []). reflexivity.
  - apply (Hlogs "sub-a" (bearer_headers "eyJ0eXAi") "2024-02-01T00:00:00"
             "2024-03-01T00:00:00" [] []). reflexivity.
Defined.

Lemma sent_after_after (w : world) q1 o1 q2 o2 :
  after (after w q1 o1) q2 o2 = after w (q1 ++ q2) (o1 ++ o2).
Proof. unfold after. cbn. rewrite <- !app_assoc. reflexivity. Qed.

Lemma sent_after_nil (w : world) : after w [] [] = w.
Proof. destruct w. unfold after. cbn. rewrite !app_nil_r. reflexivity. Qed.

(** The query of one subscription against the tables. *)
Lemma collect_audit_logs_answers (w : world) headers st en (id : string)
    (logs : list pyval) :
  subscription_answers w headers st en id logs ->
  exists out,
    Azure.collect_audit_logs mock id headers st en w
    = Some (Ok (PList logs),
            after w [Azure.audit_logs_request id headers st en] out).
Proof.
  intros (resp & Hans & Hcase).
  unfold Azure.collect_audit_logs, bind, call, lift, effect, ret.
  cbn [requests_get print mock]. unfold mock_requests_get. rewrite Hans.
  destruct Hcase as [(Hcode & body & Hbody & Hget) | (Hcode & ->)].
  - rewrite Hcode, Hbody. cbn. rewrite Hget. exists [].
    unfold after. cbn. rewrite app_nil_r. reflexivity.
  - apply Z.eqb_neq in Hcode. rewrite Hcode. cbn. unfold mock_print, after. cbn.
    eexists [_; _]. rewrite <- app_assoc. reflexivity.
Qed.

Section Str.
Variable py_str : pyval -> string.
Hypothesis py_str_str : forall s, py_str (PStr s) = s.

(** The loop over the subscriptions: each one contributes the logs of
    its answer, in the order of the listing. *)
Lemma for_subscriptions_concat headers st en (subs : list pyval) :
  forall (infos : list (string * list pyval)) acc (w : world),
    Forall2 (fun sub info =>
               py_getitem sub "subscriptionId" = Ok (PStr (fst info)) /\
               subscription_answers w headers st en (fst info) (snd info))
            subs infos ->
    exists out,
      Azure.for_subscriptions mock py_str subs headers st en acc w
      = Some (Ok (acc ++ concat (map snd infos)),
              after w (map (fun info =>
                              Azure.audit_logs_request (fst info) headers st en)
                           infos) out).
Proof.
  induction subs as [| sub subs IH]; intros infos acc w Hall.
  - inversion Hall; subst. exists []. cbn. unfold ret.
    rewrite app_nil_r, sent_after_nil. reflexivity.
  - inversion Hall as [| ? [id logs] ? infos' [Hid Hans] Htail]; subst.
    cbn [fst snd] in *.
    cbn [Azure.for_subscriptions]. unfold bind at 1, lift. rewrite Hid.
    rewrite py_str_str.
    unfold bind at 1, effect. cbn [print mock].
    destruct (collect_audit_logs_answers
                (mock_print ("Collecting audit logs for subscription: " +:+ id) w)
                headers st en id logs Hans) as [out1 H1].
    unfold bind at 1. rewrite H1.
    unfold bind at 1, lift. cbn [py_iter].
    match goal with
    | |- context [Azure.for_subscriptions _ _ _ _ _ _ ?acc1 ?w1] =>
        destruct (IH infos' acc1 w1 Htail) as [out2 H2]
    end.
    rewrite H2. eexists. f_equal. f_equal.
    + cbn [map concat]. rewrite app_assoc. reflexivity.
    + unfold after, mock_print. cbn. rewrite <- !app_assoc. reflexivity.
Qed.

(** [main] of the Azure collector when the listing succeeds.  The
    subscriptions of the listing carry the ids of [infos]; each endpoint
    answers with the logs of [infos], a refused query counting as no
    logs.  Then [main] returns the logs of all subscriptions in the
    order of the listing, a refused subscription leaving the others
    untouched, and it sends one request for the listing and one per
    subscription. *)
Theorem main_concatenates_subscriptions st en (credential : option string)
    (w : world) (token : string) (resp : http_response) (body : pyval)
    (subs : list pyval) (infos : list (string * list pyval)) :
  let headers := bearer_headers token in
  tokens w (default "AzureCliCredential" credential)
    "https://management.azure.com/.default" = Ok token ->
  answer w (Azure.subscriptions_request headers) = Ok resp ->
  status_code resp = 200 -> json_body resp = Ok body ->
  py_getitem body "value" = Ok (PList subs) ->
  Forall2 (fun sub info =>
             py_getitem sub "subscriptionId" = Ok (PStr (fst info)) /\
             subscription_answers w headers st en (fst info) (snd info))
          subs infos ->
  exists w',
    Azure.main mock py_str st en credential w
    = Some (Ok (concat (map snd infos)), w') /\
    sent w'
    = sent w ++ Azure.subscriptions_request headers
        :: map (fun info => Azure.audit_logs_request (fst info) headers st en) infos.
Proof.
  intros headers Htok Hans Hcode Hbody Hvalue Hall.
  unfold Azure.main, Azure.get_access_token, Azure.list_subscriptions,
    bind, call, ret, lift.
  cbn [get_token requests_get mock]. unfold mock_get_token, mock_requests_get.
  rewrite Htok. fold headers. rewrite Hans, Hcode, Hbody. cbn [Z.eqb Pos.eqb].
  rewrite Hvalue. cbn [py_iter].
  match goal with
  | |- context [Azure.for_subscriptions _ _ _ _ _ _ ?acc1 ?w1] =>
      destruct (for_subscriptions_concat headers st en subs infos acc1 w1 Hall)
        as [out H]
  end.
  rewrite H. eexists. split; [reflexivity |].
  cbn [sent after]. rewrite <- app_assoc. reflexivity.
Qed.
End Str.

(** [main] of the Azure collector when the listing is refused: it
    returns the empty list after that one request; no subscription is
    queried. *)
Theorem main_without_listing (py_str : pyval -> string) st en
    (credential : option string) (w : world) (token : string)
    (resp : http_response) :
  tokens w (default "AzureCliCredential" credential)
    "https://management.azure.com/.default" = Ok token ->
  answer w (Azure.subscriptions_request (bearer_headers token)) = Ok resp ->
  status_code resp <> 200 ->
  exists w',
    Azure.main mock py_str st en credential w = Some (Ok [], w') /\
    sent w' = sent w ++ [Azure.subscriptions_request (bearer_headers token)].
Proof.
  intros Htok Hans Hcode.
  unfold Azure.main, Azure.get_access_token, Azure.list_subscriptions,
    bind, call, ret, lift, effect.
  cbn [get_token requests_get print mock]. unfold mock_get_token, mock_requests_get.
  rewrite Htok, Hans. apply Z.eqb_neq in Hcode. rewrite Hcode.
  cbn. eexists. split; reflexivity.
Qed.

(** When the identity SDK gives no token, neither collector sends a
    request: the exception leaves [main] of the Azure collector and
    [get_sign_in_logs] and [main] of the Entra ID collector, which does
    not turn it into an empty list. *)
Theorem no_token_no_request (py_str : pyval -> string)
    (credential : option string) (w : world) (e : exn) :
  (tokens w (default "AzureCliCredential" credential)
     "https://management.azure.com/.default" = Raise e ->
   forall st en, Azure.main mock py_str st en credential w = Some (Raise e, w)) /\
  (tokens w (default "AzureCliCredential" credential)
     "https://graph.microsoft.com/.default" = Raise e ->
   forall st en,
     EntraId.get_sign_in_logs mock st en credential w = Some (Raise e, w) /\
     EntraId.main mock st en credential w = Some (Raise e, w)).
Proof.
  split; intros Htok st en.
  - unfold Azure.main, Azure.get_access_token, bind, call.
    cbn [get_token mock]. unfold mock_get_token. rewrite Htok. reflexivity.
  - assert (H : EntraId.get_sign_in_logs mock st en credential w
                = Some (Raise e, w)).
    { unfold EntraId.get_sign_in_logs, EntraId.get_access_token, bind, call.
      cbn [get_token mock]. unfold mock_get_token. rewrite Htok. reflexivity. }
    split; [exact H |]. unfold EntraId.main, bind. rewrite H. reflexivity.
Qed.

(** Three subscriptions, the second of which refuses the query: the
    logs of the first and of the third, four requests. *)
Lemma main_concatenates_subscriptions_witness :
  exists w',
    Azure.main mock Samples.scalar_str "2024-02-01T00:00:00"
      "2024-03-01T00:00:00" None Samples.azure_world
    = Some (Ok (concat (map snd [("sub-a", [Samples.log_a1; Samples.log_a2]);
                                 ("sub-b", []);
                                 ("sub-c", [Samples.log_c1])])), w') /\
    length (sent w') = 4%nat.
Proof.
  destruct (main_concatenates_subscriptions Samples.scalar_str
              (fun s => eq_refl) "2024-02-01T00:00:00" "2024-03-01T00:00:00"
              None Samples.azure_world "eyJ0eXAi"
              (Samples.value_response
                 [Samples.subscription "sub-a"; Samples.subscription "sub-b";
                  Samples.subscription "sub-c"])
              (PDict [("value", PList [Samples.subscription "sub-a";
                                       Samples.subscription "sub-b";
                                       Samples.subscription "sub-c"])])
              [Samples.subscription "sub-a"; Samples.subscription "sub-b";
               Samples.subscription "sub-c"]
              [("sub-a", [Samples.log_a1; Samples.log_a2]); ("sub-b", []);
               ("sub-c", [Samples.log_c1])])
    as (w' & Hmain & Hsent); try reflexivity.
  - constructor; [| constructor; [| constructor; [| constructor]]];
      (split; [reflexivity |]).
    + exists (Samples.value_response [Samples.log_a1; Samples.log_a2]).
      split; [reflexivity |]. left. split; [reflexivity |].
      eexists. split; reflexivity.
    + exists Samples.forbidden. split; [reflexivity |]. right.
      split; [discriminate | reflexivity].
    + exists (Samples.value_response [Samples.log_c1]).
      split; [reflexivity |]. left. split; [reflexivity |].
      eexists. split; reflexivity.
  - exists w'. split; [exact Hmain |]. rewrite Hsent. reflexivity.
Defined.

Lemma main_without_listing_witness :
  exists w',
    Azure.main mock Samples.scalar_str "2024-02-01T00:00:00"
      "2024-03-01T00:00:00" None Samples.forbidden_world = Some (Ok [], w') /\
    sent w' = sent Samples.forbidden_world
                ++ [Azure.subscriptions_request (bearer_headers "eyJ0eXAi")].
Proof.
  apply (main_without_listing Samples.scalar_str "2024-02-01T00:00:00"
           "2024-03-01T00:00:00" None Samples.forbidden_world "eyJ0eXAi"
           Samples.forbidden).
  - reflexivity.
  - reflexivity.
  - discriminate.
Defined.

Lemma no_token_no_request_witness :
  Azure.main mock Samples.scalar_str "2024-02-01T00:00:00" "2024-03-01T00:00:00"
    None Samples.no_token_world
  = Some (Raise Samples.not_logged_in, Samples.no_token_world) /\
  EntraId.main mock Samples.noon Samples.evening None Samples.no_token_world
  = Some (Raise Samples.not_logged_in, Samples.no_token_world).
Proof.
  destruct (no_token_no_request Samples.scalar_str None Samples.no_token_world
              Samples.not_logged_in) as [Hazure Hentra].
  split.
  - apply Hazure. reflexivity.
  - apply (Hentra eq_refl Samples.noon Samples.evening).
Defined.

End AzureFacts.

(** ** Exceptions in the Entra ID collector *)

Module EntraFacts.
Import Py Eff Http.

(** An exception of [requests.get], or of [response.json()] on a 200
    answer whose body is not JSON, leaves [get_sign_in_logs] and [main]:
    only a status other than 200 is turned into an empty result. *)
Theorem sign_in_exceptions_propagate {W : Type} (P : api W) st en
    (credential : option string) (w w0 : W) (token : string) (e : exn) :
  get_token P (default "AzureCliCredential" credential)
    "https://graph.microsoft.com/.default" w = (Ok token, w0) ->
  (forall w1,
     requests_get P (EntraId.sign_in_request st en token) w0 = (Raise e, w1) ->
     EntraId.get_sign_in_logs P st en credential w = Some (Raise e, w1) /\
     EntraId.main P st en credential w = Some (Raise e, w1)) /\
  (forall resp w1,
     requests_get P (EntraId.sign_in_request st en token) w0 = (Ok resp, w1) ->
     status_code resp = 200 -> json_body resp = Raise e ->
     EntraId.get_sign_in_logs P st en credential w = Some (Raise e, w1) /\
     EntraId.main P st en credential w = Some (Raise e, w1)).
Proof.
  intros Htok. split.
  - intros w1 Hget.
    assert (H : EntraId.get_sign_in_logs P st en credential w = Some (Raise e, w1)).
    { unfold EntraId.get_sign_in_logs, EntraId.get_access_token, bind, call, ret.
      rewrite Htok, Hget. reflexivity. }
    split; [exact H |]. unfold EntraId.main, bind. rewrite H. reflexivity.
  - intros resp w1 Hget Hcode Hbody.
    assert (H : EntraId.get_sign_in_logs P st en credential w = Some (Raise e, w1)).
    { rewrite (HttpFacts.get_sign_in_logs_success P st en credential w w0 w1
                 token resp Htok Hget Hcode), Hbody. reflexivity. }
    split; [exact H |]. unfold EntraId.main, bind. rewrite H. reflexivity.
Qed.

Lemma sign_in_exceptions_propagate_witness :
  EntraId.main (Samples.fixed_http Samples.not_json_response)
    Samples.noon Samples.evening None []
  = Some (Raise Samples.decode_error, []).
Proof.
  destruct (sign_in_exceptions_propagate
              (Samples.fixed_http Samples.not_json_response)
              Samples.noon Samples.evening None [] [] "eyJ0eXAi"
              Samples.decode_error eq_refl) as [_ Hjson].
  apply (Hjson Samples.not_json_response []); reflexivity.
Defined.

End EntraFacts.

(** ** The GCP collector on its way to the file *)

Module GcpRuns.
Import Py Eff Gcp GcpFacts.

(** [enable_api] is idempotent on a Google Cloud side that keeps the set
    of enabled services: it enables the service only when that is not
    enabled yet, after it the service is enabled, and a second call asks
    for the state and nothing else. *)
Theorem enable_api_enables_once (project_id api_name : string)
    (w : world GcpCloud.cloud) :
  let name := GcpCloud.service_name project_id api_name in
  exists w1 w2,
    enable_api GcpCloud.cloud_api project_id api_name w = Some (Ok tt, w1) /\
    name ∈ GcpCloud.enabled (remote w1) /\
    GcpCloud.calls (remote w1)
    = GcpCloud.calls (remote w)
        ++ (if bool_decide (name ∈ GcpCloud.enabled (remote w))
            then [GcpCloud.GetService name]
            else [GcpCloud.GetService name; GcpCloud.EnableService name]) /\
    enable_api GcpCloud.cloud_api project_id api_name w1 = Some (Ok tt, w2) /\
    GcpCloud.enabled (remote w2) = GcpCloud.enabled (remote w1) /\
    GcpCloud.calls (remote w2)
    = GcpCloud.calls (remote w1) ++ [GcpCloud.GetService name] /\
    files w2 = files w.
Proof.
  intros name.
  assert (Hrun : forall v : world GcpCloud.cloud,
            name ∈ GcpCloud.enabled (remote v) ->
            enable_api GcpCloud.cloud_api project_id api_name v
            = Some (Ok tt,
                    mk_world (GcpCloud.recorded (GcpCloud.GetService name) (remote v))
                      (files v)
                      (log v ++ [(INFO, "API " +:+ api_name
                                          +:+ " is already enabled for project "
                                          +:+ project_id +:+ ".")]))).
  { intros v Hin. unfold enable_api, bind, on_remote, call, logging, effect.
    cbn [get_service GcpCloud.cloud_api]. fold name.
    rewrite bool_decide_eq_true_2 by exact Hin. reflexivity. }
  destruct (bool_decide (name ∈ GcpCloud.enabled (remote w))) eqn:Hdec.
  - apply bool_decide_eq_true_1 in Hdec.
    eexists _, _. split; [apply Hrun; exact Hdec |].
    split; [exact Hdec |]. split; [reflexivity |].
    split; [apply Hrun; exact Hdec |]. repeat split.
  - eexists _, _. split.
    { unfold enable_api, bind, on_remote, call, logging, effect.
      cbn [get_service enable_service GcpCloud.cloud_api].
      change ("projects/" +:+ project_id +:+ "/services/" +:+ api_name) with name.
      rewrite Hdec. reflexivity. }
    cbn [remote GcpCloud.enabled GcpCloud.calls GcpCloud.recorded].
    split; [apply elem_of_union_l, elem_of_singleton; reflexivity |].
    split; [rewrite <- app_assoc; reflexivity |].
    split; [apply Hrun; cbn; apply elem_of_union_l, elem_of_singleton; reflexivity |].
    repeat split.
Qed.

Section Api.
Context {R entry : Type}.
Variable P : api R entry.
Variable project_id : string.

(** The [try] block up to the call of [save_audit_logs]. *)
Lemma collect_reaches_save st en cap f filename (w w1 : world R)
    (org : organization) (others : list organization) (r2 r3 : R)
    (entries : list entry) :
  enable_api P project_id "cloudresourcemanager.googleapis.com" w
    = Some (Ok tt, w1) ->
  search_organizations P (remote w1) = (Ok (org :: others), r2) ->
  list_entries P (mk_entries_request (combined_filter st en f) DESCENDING cap) r2
    = (Ok entries, r3) ->
  files w1 = files w /\
  collect P project_id st en cap f filename w
  = save_audit_logs P (map (to_api_repr P) entries) filename
      (mk_world r3 (files w1)
         (log w1 ++
          [(INFO, "Found organization: " +:+ display_name org +:+ " ("
                    +:+ org_name org +:+ ")");
           (INFO, "Organization ID: " +:+ org_name org);
           (INFO, "Using filter: " +:+ combined_filter st en f);
           (INFO, "Retrieved " +:+ pretty (length (map (to_api_repr P) entries))
                    +:+ " log entries.")])).
Proof.
  intros Henable Hsearch Hlist. split.
  - destruct (enable_api_files P project_id
                "cloudresourcemanager.googleapis.com" w) as (r & v & E & F).
    rewrite Henable in E. injection E as <- <-. exact F.
  - unfold collect. cbn zeta. unfold bind at 1. rewrite Henable.
    unfold bind at 1, get_organization_id, bind at 1, on_remote at 1, call.
    rewrite Hsearch. unfold bind at 1, logging at 1, effect, ret.
    unfold bind at 1, logging at 1, effect.
    unfold bind at 1. rewrite get_audit_logs_run. cbn zeta.
    cbn [remote files log]. rewrite Hlist.
    unfold bind at 1, logging at 1, effect. cbn [remote files log].
    rewrite <- !app_assoc. reflexivity.
Qed.

Lemma main_of_return st en cap f filename (w w1 : world R) :
  collect P project_id st en cap f filename w = Some (Ok tt, w1) ->
  main P project_id st en cap f filename w = Some (Ok tt, w1).
Proof. intros H. unfold main, try_except. rewrite H. reflexivity. Qed.

(** [main] of the GCP collector from end to end.  The API gets enabled,
    an organization is visible, the query answers with [entries], the
    file can be opened and the entries have a JSON form.  Then [main]
    returns, the file holds the JSON text, with indent 2, of the list of
    the API representations of the entries, in their order and in place
    of what the file held before, every other file is left alone, and
    the log ends without an error.  The organization that was found
    appears in the log only. *)
Theorem main_writes_the_entries st en cap f filename (w w1 : world R)
    (org : organization) (others : list organization) (r2 r3 : R)
    (entries : list entry) :
  enable_api P project_id "cloudresourcemanager.googleapis.com" w
    = Some (Ok tt, w1) ->
  search_organizations P (remote w1) = (Ok (org :: others), r2) ->
  list_entries P (mk_entries_request (combined_filter st en f) DESCENDING cap) r2
    = (Ok entries, r3) ->
  open_for_writing P filename = Ok tt ->
  json_serializable (PList (map (to_api_repr P) entries)) = true ->
  exists w',
    main P project_id st en cap f filename w = Some (Ok tt, w') /\
    files w' !! filename
      = Some (JsonText 2 (PList (map (to_api_repr P) entries))) /\
    (forall other, other <> filename -> files w' !! other = files w !! other) /\
    remote w' = r3 /\
    last (log w') = Some (INFO, "All logs have been saved to " +:+ filename).
Proof.
  intros Henable Hsearch Hlist Hopen Hser.
  destruct (collect_reaches_save st en cap f filename w w1 org others r2 r3
              entries Henable Hsearch Hlist) as [Hfiles Hcollect].
  eexists. split.
  - apply main_of_return.
    rewrite Hcollect.
    unfold save_audit_logs, bind, lift, write_file, logging, effect.
    rewrite Hopen, Hser. reflexivity.
  - cbn [files remote log]. rewrite Hfiles. split; [apply lookup_insert_eq |].
    split; [intros other Hne; apply lookup_insert_ne; congruence |].
    split; [reflexivity |]. apply last_snoc.
Qed.

(** A failure inside [save_audit_logs] is swallowed too, but not
    without a trace on disk.  When the file cannot be opened, the files
    stay as they were ([main] returns and logs the error; only an
    exception that does not derive from [Exception], which [open] does
    not raise by itself, would go on to the caller).  When the file is
    opened and an entry has no JSON form, the file, truncated by [open],
    is left with an unfinished text: what it held before is lost. *)
Theorem save_failure_and_the_file st en cap f filename (w w1 : world R)
    (org : organization) (others : list organization) (r2 r3 : R)
    (entries : list entry) :
  enable_api P project_id "cloudresourcemanager.googleapis.com" w
    = Some (Ok tt, w1) ->
  search_organizations P (remote w1) = (Ok (org :: others), r2) ->
  list_entries P (mk_entries_request (combined_filter st en f) DESCENDING cap) r2
    = (Ok entries, r3) ->
  (forall e, open_for_writing P filename = Raise e ->
     exists w',
       main P project_id st en cap f filename w
       = Some (if is_Exception e then Ok tt else Raise e, w') /\
       files w' = files w /\
       (is_Exception e = true ->
        last (log w') = Some (ERROR, "An error occurred: " +:+ exn_str e))) /\
  (open_for_writing P filename = Ok tt ->
   json_serializable (PList (map (to_api_repr P) entries)) = false ->
     exists w',
       main P project_id st en cap f filename w = Some (Ok tt, w') /\
       files w' !! filename = Some Unfinished /\
       last (log w')
       = Some (ERROR, "An error occurred: Object of type datetime is not JSON serializable")).
Proof.
  intros Henable Hsearch Hlist.
  destruct (collect_reaches_save st en cap f filename w w1 org others r2 r3
              entries Henable Hsearch Hlist) as [Hfiles Hcollect].
  split.
  - intros e Hopen. eexists. split.
    + apply main_files_of_raise.
      rewrite Hcollect. unfold save_audit_logs, bind, lift. rewrite Hopen.
      reflexivity.
    + destruct (is_Exception e); cbn [files log logged_error];
        (split; [exact Hfiles |]); [intros _; apply last_snoc | discriminate].
  - intros Hopen Hser. eexists. split.
    + apply (main_files_of_raise P project_id st en cap f filename w
               (mk_exn TypeError "Object of type datetime is not JSON serializable")).
      rewrite Hcollect.
      unfold save_audit_logs, bind, lift, write_file, logging, effect, raise.
      rewrite Hopen, Hser. reflexivity.
    + cbn [files log logged_error]. split; [apply lookup_insert_eq | apply last_snoc].
Qed.
End Api.

End GcpRuns.

Module GcpSamples.
Import Py Eff Gcp.

(** An organization, three entries, a cap of two: the file that was
    there is replaced by the two newest entries. *)
Lemma main_writes_the_entries_witness :
  exists w',
    main (Samples.gcp_side [Samples.audit_org] Samples.three_entries) "proj"
      Samples.noon Samples.evening 2 None "gcp_audit_logs.json" Samples.gcp_world
    = Some (Ok tt, w') /\
    files w' !! "gcp_audit_logs.json"
      = Some (JsonText 2 (PList [PDict [("insertId", PStr "c")];
                                 PDict [("insertId", PStr "b")]])).
Proof.
  destruct (GcpRuns.main_writes_the_entries
              (Samples.gcp_side [Samples.audit_org] Samples.three_entries) "proj"
              Samples.noon Samples.evening 2 None "gcp_audit_logs.json"
              Samples.gcp_world
              (mk_world tt (files Samples.gcp_world)
                 [(INFO, "API cloudresourcemanager.googleapis.com is already enabled for project proj.")])
              Samples.audit_org [] tt tt (take 2 Samples.three_entries))
    as (w' & Hmain & Hfile & _); try reflexivity.
  exists w'. split; [exact Hmain | exact Hfile].
Defined.

(** The files cannot be opened: the old file is still there.  An entry
    holds a [datetime]: the old file is gone. *)
Lemma save_failure_and_the_file_witness :
  (exists w',
     main Samples.gcp_side_read_only "proj" Samples.noon Samples.evening 2 None
       "gcp_audit_logs.json" Samples.gcp_world = Some (Ok tt, w') /\
     files w' = files Samples.gcp_world) /\
  (exists w',
     main (Samples.gcp_side [Samples.audit_org] Samples.dated_entries) "proj"
       Samples.noon Samples.evening 2 None "gcp_audit_logs.json" Samples.gcp_world
     = Some (Ok tt, w') /\
     files w' !! "gcp_audit_logs.json" = Some Unfinished).
Proof.
  split.
  - destruct (GcpRuns.save_failure_and_the_file Samples.gcp_side_read_only "proj"
                Samples.noon Samples.evening 2 None "gcp_audit_logs.json"
                Samples.gcp_world
                (mk_world tt (files Samples.gcp_world)
                   [(INFO, "API cloudresourcemanager.googleapis.com is already enabled for project proj.")])
                Samples.audit_org [] tt tt (take 2 Samples.three_entries)
                eq_refl eq_refl eq_refl) as [Hopen _].
    destruct (Hopen Samples.read_only eq_refl) as (w' & Hmain & Hfiles & _).
    exists w'. split; [exact Hmain | exact Hfiles].
  - destruct (GcpRuns.save_failure_and_the_file
                (Samples.gcp_side [Samples.audit_org] Samples.dated_entries) "proj"
                Samples.noon Samples.evening 2 None "gcp_audit_logs.json"
                Samples.gcp_world
                (mk_world tt (files Samples.gcp_world)
                   [(INFO, "API cloudresourcemanager.googleapis.com is already enabled for project proj.")])
                Samples.audit_org [] tt tt (take 2 Samples.dated_entries)
                eq_refl eq_refl eq_refl) as [_ Hdump].
    destruct (Hdump eq_refl eq_refl) as (w' & Hmain & Hfile & _).
    exists w'. split; [exact Hmain | exact Hfile].
Defined.

End GcpSamples.

(** ** CloudLogCollector.py: which runs leave a file *)

Module OrchestratorFacts.
Import Py Eff CloudLogCollector.

Section Disk.
Context {W : Type}.
Variable open_for_writing : string -> result unit.

Lemma json_dump_writes (v : pyval) (filename : string) (indent : Z)
    (w : with_disk W) :
  open_for_writing filename = Ok tt -> Gcp.json_serializable v = true ->
  json_dump open_for_writing v filename indent w
  = Some (Ok tt,
          mk_with_disk (side w) (<[filename := Gcp.JsonText indent v]> (files w))).
Proof.
  intros Hopen Hser. unfold json_dump, bind, lift, write_file, effect.
  rewrite Hopen, Hser. reflexivity.
Qed.

Lemma json_dump_stops (v : pyval) (filename : string) (indent : Z)
    (w : with_disk W) :
  open_for_writing filename = Ok tt -> Gcp.json_serializable v = false ->
  json_dump open_for_writing v filename indent w
  = Some (Raise (mk_exn TypeError "Object of type datetime is not JSON serializable"),
          mk_with_disk (side w) (<[filename := Gcp.Unfinished]> (files w))).
Proof.
  intros Hopen Hser. unfold json_dump, bind, lift, write_file, effect, raise.
  rewrite Hopen, Hser. reflexivity.
Qed.

(** [get_entra_id_signin_logs], once the token is there, the query got
    an answer and the file can be opened.  A refused query still leaves
    a file, which holds the empty list.  A 200 answer with a truthy
    body leaves the raw body of the answer, not the list under its
    ["value"]; with a falsy body, the empty object for instance, it
    leaves the empty list.  A 200 answer whose body is not JSON leaves
    no file: the exception of [response.json()] goes on to the caller
    before the file is opened.  A body that holds a value without a
    JSON form leaves an unfinished file and a [TypeError]. *)
Theorem entra_file_contents (P : Http.api W) st en filename (s s0 s1 : W)
    (fs : gmap string Gcp.file_content) (token : string)
    (resp : Http.http_response) :
  Http.get_token P "AzureCliCredential" "https://graph.microsoft.com/.default" s
    = (Ok token, s0) ->
  Http.requests_get P (EntraId.sign_in_request st en token) s0 = (Ok resp, s1) ->
  open_for_writing filename = Ok tt ->
  (Http.status_code resp <> 200 ->
   exists w',
     get_entra_id_signin_logs open_for_writing P st en filename (mk_with_disk s fs)
     = Some (Ok tt, w') /\
     files w' = <[filename := Gcp.JsonText 4 (PList [])]> fs) /\
  (forall body,
     Http.status_code resp = 200 -> Http.json_body resp = Ok body ->
     truthy body = true -> Gcp.json_serializable body = true ->
     exists w',
       get_entra_id_signin_logs open_for_writing P st en filename
         (mk_with_disk s fs) = Some (Ok tt, w') /\
       files w' = <[filename := Gcp.JsonText 4 body]> fs) /\
  (forall body,
     Http.status_code resp = 200 -> Http.json_body resp = Ok body ->
     truthy body = false ->
     exists w',
       get_entra_id_signin_logs open_for_writing P st en filename
         (mk_with_disk s fs) = Some (Ok tt, w') /\
       files w' = <[filename := Gcp.JsonText 4 (PList [])]> fs) /\
  (forall e,
     Http.status_code resp = 200 -> Http.json_body resp = Raise e ->
     get_entra_id_signin_logs open_for_writing P st en filename
       (mk_with_disk s fs) = Some (Raise e, mk_with_disk s1 fs)) /\
  (forall body,
     Http.status_code resp = 200 -> Http.json_body resp = Ok body ->
     truthy body = true -> Gcp.json_serializable body = false ->
     get_entra_id_signin_logs open_for_writing P st en filename
       (mk_with_disk s fs)
     = Some (Raise (mk_exn TypeError
                      "Object of type datetime is not JSON serializable"),
             mk_with_disk s1 (<[filename := Gcp.Unfinished]> fs))).
Proof.
  intros Htok Hget Hopen. split; [| split; [| split; [| split]]].
  - intros Hcode.
    pose proof (HttpFacts.get_sign_in_logs_failure P st en None s s0 s1 token
                  resp Htok Hget Hcode) as Hlogs.
    unfold get_entra_id_signin_logs, entraid_save_sign_in_logs.
    unfold bind at 1, on_side at 1. cbn [side files].
    rewrite HttpFacts.main_of_get_sign_in_logs, Hlogs. cbn [truthy].
    unfold bind at 1. rewrite json_dump_writes by (exact Hopen || reflexivity).
    unfold on_side, effect. cbn [side files]. eexists. split; reflexivity.
  - intros body Hcode Hbody Htruthy Hser.
    pose proof (HttpFacts.get_sign_in_logs_success P st en None s s0 s1 token
                  resp Htok Hget Hcode) as Hlogs.
    rewrite Hbody in Hlogs.
    unfold get_entra_id_signin_logs, entraid_save_sign_in_logs.
    unfold bind at 1, on_side at 1. cbn [side files].
    rewrite HttpFacts.main_of_get_sign_in_logs, Hlogs, Htruthy.
    unfold bind at 1. rewrite json_dump_writes by assumption.
    unfold on_side, effect. cbn [side files]. eexists. split; reflexivity.
  - intros body Hcode Hbody Hfalsy.
    pose proof (HttpFacts.get_sign_in_logs_success P st en None s s0 s1 token
                  resp Htok Hget Hcode) as Hlogs.
    rewrite Hbody in Hlogs.
    unfold get_entra_id_signin_logs, entraid_save_sign_in_logs.
    unfold bind at 1, on_side at 1. cbn [side files].
    rewrite HttpFacts.main_of_get_sign_in_logs, Hlogs, Hfalsy.
    unfold bind at 1. rewrite json_dump_writes by (exact Hopen || reflexivity).
    unfold on_side, effect. cbn [side files]. eexists. split; reflexivity.
  - intros e Hcode Hbody.
    pose proof (HttpFacts.get_sign_in_logs_success P st en None s s0 s1 token
                  resp Htok Hget Hcode) as Hlogs.
    rewrite Hbody in Hlogs.
    unfold get_entra_id_signin_logs.
    unfold bind at 1, on_side at 1. cbn [side files].
    rewrite HttpFacts.main_of_get_sign_in_logs, Hlogs. reflexivity.
  - intros body Hcode Hbody Htruthy Hser.
    pose proof (HttpFacts.get_sign_in_logs_success P st en None s s0 s1 token
                  resp Htok Hget Hcode) as Hlogs.
    rewrite Hbody in Hlogs.
    unfold get_entra_id_signin_logs, entraid_save_sign_in_logs.
    unfold bind at 1, on_side at 1. cbn [side files].
    rewrite HttpFacts.main_of_get_sign_in_logs, Hlogs, Htruthy.
    unfold bind at 1. rewrite json_dump_stops by assumption. reflexivity.
Qed.

(** [get_aws_cloudtrail_events]: an exception that leaves
    [get_cloudtrail_logs] leaves the orchestrator as well, before the
    file is opened, so the files stay as they were; events that are
    returned and have a JSON form are written with indent 2. *)
Theorem aws_file_or_exception (json_decode : string -> result pyval)
    (P : Aws.api W) (fuel : nat) accounts role st en filename (s s' : W)
    (fs : gmap string Gcp.file_content) :
  (forall e,
     Aws.get_cloudtrail_logs json_decode P fuel accounts role st en s
       = Some (Raise e, s') ->
     get_aws_cloudtrail_events open_for_writing json_decode P fuel accounts role
       st en filename (mk_with_disk s fs)
     = Some (Raise e, mk_with_disk s' fs)) /\
  (forall events,
     Aws.get_cloudtrail_logs json_decode P fuel accounts role st en s
       = Some (Ok events, s') ->
     open_for_writing filename = Ok tt ->
     Gcp.json_serializable (PList (map event_value events)) = true ->
     exists w',
       get_aws_cloudtrail_events open_for_writing json_decode P fuel accounts
         role st en filename (mk_with_disk s fs) = Some (Ok tt, w') /\
       files w' = <[filename := Gcp.JsonText 2 (PList (map event_value events))]> fs).
Proof.
  split.
  - intros e Hrun. unfold get_aws_cloudtrail_events, bind, on_side, Aws.main, bind.
    cbn [side files]. rewrite Hrun. reflexivity.
  - intros events Hrun Hopen Hser.
    unfold get_aws_cloudtrail_events, aws_save_cloudtrail_logs.
    unfold bind at 1, on_side at 1, Aws.main, bind at 1, ret. cbn [side files].
    rewrite Hrun. unfold bind at 1. rewrite json_dump_writes by assumption.
    unfold on_side, effect. cbn [side files]. eexists. split; reflexivity.
Qed.
End Disk.

(** [get_azure_logs]: when the listing of the subscriptions is refused,
    the file is written all the same and holds the empty list, in place
    of what it held before. *)
Theorem azure_refused_listing_writes_empty_list
    (open_for_writing : string -> result unit) (py_str : pyval -> string)
    st en filename (w : HttpMock.world) (fs : gmap string Gcp.file_content)
    (token : string) (resp : Http.http_response) :
  HttpMock.tokens w "AzureCliCredential" "https://management.azure.com/.default"
    = Ok token ->
  HttpMock.answer w (Azure.subscriptions_request (Http.bearer_headers token))
    = Ok resp ->
  Http.status_code resp <> 200 ->
  open_for_writing filename = Ok tt ->
  exists w',
    get_azure_logs open_for_writing HttpMock.mock py_str st en filename
      (mk_with_disk w fs) = Some (Ok tt, w') /\
    files w' = <[filename := Gcp.JsonText 4 (PList [])]> fs /\
    HttpMock.sent (side w')
    = HttpMock.sent w ++ [Azure.subscriptions_request (Http.bearer_headers token)].
Proof.
  intros Htok Hans Hcode Hopen.
  unfold get_azure_logs, azure_save_audit_logs.
  unfold bind at 1, on_side at 1. cbn [side files].
  unfold Azure.main, Azure.get_access_token, Azure.list_subscriptions,
    bind, call, ret, lift, effect.
  cbn [Http.get_token Http.requests_get Http.print HttpMock.mock default].
  unfold HttpMock.mock_get_token, HttpMock.mock_requests_get.
  rewrite Htok, Hans. apply Z.eqb_neq in Hcode. rewrite Hcode.
  cbn [py_iter Azure.for_subscriptions]. unfold ret.
  unfold json_dump, bind, lift, write_file, effect, on_side.
  rewrite Hopen. cbn. eexists. repeat split.
Qed.

(** A refused query, a sign-in page, an empty object and a body that is
    not JSON. *)
Lemma entra_file_contents_witness :
  (exists w',
     get_entra_id_signin_logs Samples.always_open
       (Samples.fixed_http Samples.forbidden) Samples.noon Samples.evening
       "entra_id_signins.json" (mk_with_disk [] Samples.old_contents)
     = Some (Ok tt, w') /\
     files w' = <["entra_id_signins.json" := Gcp.JsonText 4 (PList [])]>
                  Samples.old_contents) /\
  (exists w',
     get_entra_id_signin_logs Samples.always_open
       (Samples.fixed_http Samples.sign_in_response) Samples.noon Samples.evening
       "entra_id_signins.json" (mk_with_disk [] Samples.old_contents)
     = Some (Ok tt, w') /\
     files w' = <["entra_id_signins.json" := Gcp.JsonText 4 Samples.sign_in_page]>
                  Samples.old_contents) /\
  (exists w',
     get_entra_id_signin_logs Samples.always_open
       (Samples.fixed_http Samples.empty_object) Samples.noon Samples.evening
       "entra_id_signins.json" (mk_with_disk [] Samples.old_contents)
     = Some (Ok tt, w') /\
     files w' = <["entra_id_signins.json" := Gcp.JsonText 4 (PList [])]>
                  Samples.old_contents) /\
  get_entra_id_signin_logs Samples.always_open
    (Samples.fixed_http Samples.not_json_response) Samples.noon Samples.evening
    "entra_id_signins.json" (mk_with_disk [] Samples.old_contents)
  = Some (Raise Samples.decode_error, mk_with_disk [] Samples.old_contents).
Proof.
  split; [| split; [| split]].
  - apply (proj1 (entra_file_contents Samples.always_open
                    (Samples.fixed_http Samples.forbidden) Samples.noon
                    Samples.evening "entra_id_signins.json" [] [] []
                    Samples.old_contents "eyJ0eXAi" Samples.forbidden
                    eq_refl eq_refl eq_refl)).
    discriminate.
  - apply (proj1 (proj2 (entra_file_contents Samples.always_open
                    (Samples.fixed_http Samples.sign_in_response) Samples.noon
                    Samples.evening "entra_id_signins.json" [] [] []
                    Samples.old_contents "eyJ0eXAi" Samples.sign_in_response
                    eq_refl eq_refl eq_refl))); reflexivity.
  - apply (proj1 (proj2 (proj2 (entra_file_contents Samples.always_open
                    (Samples.fixed_http Samples.empty_object) Samples.noon
                    Samples.evening "entra_id_signins.json" [] [] []
                    Samples.old_contents "eyJ0eXAi" Samples.empty_object
                    eq_refl eq_refl eq_refl))) (PDict [])); reflexivity.
  - apply (proj1 (proj2 (proj2 (proj2 (entra_file_contents Samples.always_open
                    (Samples.fixed_http Samples.not_json_response) Samples.noon
                    Samples.evening "entra_id_signins.json" [] [] []
                    Samples.old_contents "eyJ0eXAi" Samples.not_json_response
                    eq_refl eq_refl eq_refl)))) Samples.decode_error);
      reflexivity.
Defined.

(** The run with the broken page: the exception reaches the
    orchestrator and [aws_events.json] is what it was. *)
Lemma aws_file_or_exception_witness :
  option_map (fun r => (fst r, files (snd r)))
    (get_aws_cloudtrail_events Samples.always_open Json.decode AwsMock.mock 5
       Samples.sample_accounts "SecurityAuditRole" Samples.noon Samples.evening
       "aws_events.json"
       (mk_with_disk (Samples.sample_world Samples.broken_visit)
                     Samples.old_contents))
  = Some (Raise Samples.decode_error, Samples.old_contents).
Proof.
  destruct (Aws.get_cloudtrail_logs Json.decode AwsMock.mock 5
              Samples.sample_accounts "SecurityAuditRole" Samples.noon
              Samples.evening (Samples.sample_world Samples.broken_visit))
    as [[r s'] |] eqn:E; [| vm_compute in E; discriminate].
  assert (Hr : r = Raise Samples.decode_error).
  { assert (H : option_map fst
                  (Aws.get_cloudtrail_logs Json.decode AwsMock.mock 5
                     Samples.sample_accounts "SecurityAuditRole" Samples.noon
                     Samples.evening (Samples.sample_world Samples.broken_visit))
                = Some (Raise Samples.decode_error)) by (vm_compute; reflexivity).
    rewrite E in H. cbn in H. injection H as ->. reflexivity. }
  subst r.
  rewrite (proj1 (aws_file_or_exception Samples.always_open Json.decode
                    AwsMock.mock 5 Samples.sample_accounts "SecurityAuditRole"
                    Samples.noon Samples.evening "aws_events.json"
                    (Samples.sample_world Samples.broken_visit) s'
                    Samples.old_contents) Samples.decode_error E).
  reflexivity.
Defined.

Lemma azure_refused_listing_writes_empty_list_witness :
  exists w',
    get_azure_logs Samples.always_open HttpMock.mock Samples.scalar_str
      Samples.noon Samples.evening "azure_events.json"
      (mk_with_disk Samples.forbidden_world Samples.old_contents)
    = Some (Ok tt, w') /\
    files w' !! "azure_events.json" = Some (Gcp.JsonText 4 (PList [])).
Proof.
  destruct (azure_refused_listing_writes_empty_list Samples.always_open
              Samples.scalar_str Samples.noon Samples.evening "azure_events.json"
              Samples.forbidden_world Samples.old_contents "eyJ0eXAi"
              Samples.forbidden eq_refl eq_refl) as (w' & Hrun & Hfiles & _).
  - discriminate.
  - reflexivity.
  - exists w'. split; [exact Hrun |]. rewrite Hfiles. apply lookup_insert_eq.
Defined.

End OrchestratorFacts.
